(** * LOPoCS command line loader ([lopocs/cli.py]): ingestion orchestration

  A shallow embedding of [proj42epsg], [_load], [load] and [demo]
  together with the properties of the ingestion pipeline they implement:
  table-name normalisation, quantisation planning, SRID resolution,
  assembly of the PDAL pipeline description, metadata persistence,
  cache-file naming and the download of the sample files.

  Conventions.
  - A Python [str] is the [string] of the bytes of its UTF-8 encoding.
    The operations of the program that look for an ASCII character (a
    dot, a slash, a brace, an angle bracket) or for a substring give the
    same answer on the bytes as on the characters.  Two operations
    depend on the Unicode database of the interpreter: [str.lower] on a
    text that is not ASCII, and the class [\d] of the regular expression
    above U+007F.  Both are answered by the [World].
  - Python [float] values are IEEE binary64 numbers ([PrimFloat.float]);
    Python [int] values are integers, converted to floats with the
    rounding of [float()].  The builtins [round] and [str]/[repr] on
    floats belong to the interpreter and are parameters of the
    development; [Builtins.round] is [round] as CPython computes it.
  - Every call that leaves the process (database session, subprocesses,
    file system, GDAL/OSR, hierarchy builders) is answered by a [World],
    and is recorded, in program order, in a trace of [event]s.
  - Python exceptions are values of [exn]; a computation is a pair of a
    [result] and the trace of the calls it made. *)

From Stdlib Require Import String Ascii List NArith ZArith Lia Bool PrimFloat.
From Stdlib Require Import DecimalString DecimalZ.
From Stdlib Require Import SpecFloat FloatOps.
Import ListNotations.
Open Scope string_scope.

Set Implicit Arguments.
Set Warnings "-inexact-float".

(* ===================================================================== *)
(** ** Python string operations used by the program *)
(* ===================================================================== *)

Module PyStr.

(** [c in s] for a one-character string [c]. *)
Fixpoint contains_char (c : ascii) (s : string) : bool :=
  match s with
  | EmptyString => false
  | String a r => if Ascii.eqb a c then true else contains_char c r
  end.

(** [s.count(c)] for a one-character string [c]. *)
Fixpoint count_char (c : ascii) (s : string) : nat :=
  match s with
  | EmptyString => 0
  | String a r => (if Ascii.eqb a c then 1 else 0) + count_char c r
  end.

(** [s.split(c)] for a one-character separator: the fields between the
    occurrences of [c]; there is always at least one field. *)
Fixpoint split (c : ascii) (s : string) : list string :=
  match s with
  | EmptyString => [EmptyString]
  | String a r =>
      if Ascii.eqb a c then EmptyString :: split c r
      else match split c r with
           | [] => [String a EmptyString]
           | f :: fs => String a f :: fs
           end
  end.

(** [s.startswith(p)]. *)
Fixpoint startswith (p s : string) : bool :=
  match p, s with
  | EmptyString, _ => true
  | String a p', String b s' => Ascii.eqb a b && startswith p' s'
  | String _ _, EmptyString => false
  end.

(** [s.endswith(c)] for a one-character string [c]. *)
Fixpoint endswith_char (c : ascii) (s : string) : bool :=
  match s with
  | EmptyString => false
  | String a EmptyString => Ascii.eqb a c
  | String _ r => endswith_char c r
  end.

(** [s.find(sub) != -1]. *)
Fixpoint contains (sub s : string) : bool :=
  if startswith sub s then true
  else match s with
       | EmptyString => false
       | String _ r => contains sub r
       end.

(** [sep.join(l)]. *)
Fixpoint join (sep : string) (l : list string) : string :=
  match l with
  | [] => EmptyString
  | [x] => x
  | x :: r => x ++ sep ++ join sep r
  end.

(** [s.isascii()] *)
Fixpoint is_ascii (s : string) : bool :=
  match s with
  | EmptyString => true
  | String a r => (nat_of_ascii a <? 128)%nat && is_ascii r
  end.

Definition lower_char (c : ascii) : ascii :=
  let n := nat_of_ascii c in
  if (65 <=? n)%nat && (n <=? 90)%nat then ascii_of_nat (n + 32) else c.

(** [s.lower()] on an ASCII text: the letters A-Z are lowered. *)
Fixpoint lower_ascii (s : string) : string :=
  match s with
  | EmptyString => EmptyString
  | String a r => String (lower_char a) (lower_ascii r)
  end.

(** [s.lower()]: on a text with a character above U+007F the case
    mappings are those of the Unicode database, [unicode_lower]. *)
Definition lower (unicode_lower : string -> string) (s : string) : string :=
  if is_ascii s then lower_ascii s else unicode_lower s.

(** [str(n)] for a Python [int]. *)
Definition str_int (z : Z) : string :=
  NilZero.string_of_int (Z.to_int z).

(** [s[n:]], for a text whose first [n] characters are ASCII. *)
Fixpoint drop (n : nat) (s : string) : string :=
  match n, s with
  | O, _ => s
  | S n', String _ r => drop n' r
  | S _, EmptyString => EmptyString
  end.

(** [s[:n]], for a text whose first [n] characters are ASCII. *)
Fixpoint take (n : nat) (s : string) : string :=
  match n, s with
  | S n', String a r => String a (take n' r)
  | _, _ => EmptyString
  end.

(** [s.rfind(c)] for a one-character string [c]; [None] stands for -1.
    [i] is the index of the first character of [s], [last] the answer
    so far. *)
Fixpoint rfind_from (c : ascii) (s : string) (i : nat) (last : option nat)
  : option nat :=
  match s with
  | EmptyString => last
  | String a r => rfind_from c r (S i) (if Ascii.eqb a c then Some i else last)
  end.

Definition rfind (c : ascii) (s : string) : option nat :=
  rfind_from c s 0 None.

(** Truth value of a string: non-empty. *)
Definition truthy (s : string) : bool :=
  match s with EmptyString => false | _ => true end.

End PyStr.

(* ===================================================================== *)
(** ** The characters of a text *)
(* ===================================================================== *)

Module Utf8.

(** What the first byte of a character announces: a character of one
    byte, or the leading bits of a character of two, three or four
    bytes. *)
Inductive lead : Type :=
| One (bits : N)
| Two (bits : N)
| Three (bits : N)
| Four (bits : N)
| NoLead.

Definition lead_of (a : ascii) : lead :=
  let x := N_of_ascii a in
  if (x <? 128)%N then One x
  else if (194 <=? x)%N && (x <=? 223)%N then Two (x - 192)
  else if (224 <=? x)%N && (x <=? 239)%N then Three (x - 224)
  else if (240 <=? x)%N && (x <=? 244)%N then Four (x - 240)
  else NoLead.

(** The six bits of a continuation byte. *)
Definition continuation (a : ascii) : option N :=
  let x := N_of_ascii a in
  if (128 <=? x)%N && (x <=? 191)%N then Some (x - 128)%N else None.

(** The first character of a text: its code point, its bytes, and the
    rest of the text.  [None] on the empty text and on bytes that are
    not the encoding of a character. *)
Definition decode (s : string) : option (N * string * string) :=
  match s with
  | EmptyString => None
  | String a r =>
      match lead_of a, r with
      | One x, _ => Some (x, String a EmptyString, r)
      | Two x, String b r' =>
          match continuation b with
          | Some y => Some ((x * 64 + y)%N, String a (String b EmptyString), r')
          | None => None
          end
      | Three x, String b (String c r') =>
          match continuation b, continuation c with
          | Some y, Some z =>
              let cp := (x * 4096 + y * 64 + z)%N in
              if (2048 <=? cp)%N
              then Some (cp, String a (String b (String c EmptyString)), r')
              else None
          | _, _ => None
          end
      | Four x, String b (String c (String d r')) =>
          match continuation b, continuation c, continuation d with
          | Some y, Some z, Some t =>
              let cp := (x * 262144 + y * 4096 + z * 64 + t)%N in
              if (65536 <=? cp)%N && (cp <=? 1114111)%N
              then Some (cp,
                         String a (String b (String c (String d EmptyString))),
                         r')
              else None
          | _, _, _ => None
          end
      | _, _ => None
      end
  end.

End Utf8.

(* ===================================================================== *)
(** ** The regular expression [<(\d+)>] *)
(* ===================================================================== *)

Module Re.

Section Pattern.

(** The decimal digits above U+007F: the characters of category Nd of
    the Unicode database of the interpreter. *)
Variable unicode_decimal : N -> bool.

(** The class [\d] of a pattern that is a [str]: the ten ASCII digits
    and the other decimal digits of Unicode. *)
Definition is_digit (cp : N) : bool :=
  if (cp <? 128)%N then (48 <=? cp)%N && (cp <=? 57)%N
  else unicode_decimal cp.

(** Longest prefix of digits, and what follows it (greedy [\d+]), among
    the first [n] characters. *)
Fixpoint span_digits_upto (n : nat) (s : string) : string * string :=
  match n with
  | O => (EmptyString, s)
  | S n' =>
      match Utf8.decode s with
      | Some (cp, bytes, rest) =>
          if is_digit cp then
            let (d, r) := span_digits_upto n' rest in (bytes ++ d, r)
          else (EmptyString, s)
      | None => (EmptyString, s)
      end
  end.

(** A text has no more characters than bytes. *)
Definition span_digits (s : string) : string * string :=
  span_digits_upto (String.length s) s.

(** [re.match('<(\d+)>', s)]: group 1 when [s] starts with a match.
    After the greedy run of digits the next character must be [>];
    giving digits back cannot help, as the character after a shorter
    run is a digit. *)
Definition match_code (s : string) : option string :=
  match s with
  | String "<"%char r =>
      match span_digits r with
      | (String a d, String ">"%char _) => Some (String a d)
      | _ => None
      end
  | _ => None
  end.

(** [re.search('<(\d+)>', s)]: group 1 of the leftmost match.  A match
    starts at the byte [<], which is a character of its own in any
    text. *)
Fixpoint search_code (s : string) : option string :=
  match match_code s with
  | Some d => Some d
  | None =>
      match s with
      | EmptyString => None
      | String _ r => search_code r
      end
  end.

(** A text made of digits only, among its first [n] characters. *)
Fixpoint all_digits_upto (n : nat) (s : string) : bool :=
  match s, n with
  | EmptyString, _ => true
  | _, O => false
  | _, S n' =>
      match Utf8.decode s with
      | Some (cp, _, rest) => is_digit cp && all_digits_upto n' rest
      | None => false
      end
  end.

Definition all_digits (s : string) : bool :=
  all_digits_upto (String.length s) s.

End Pattern.

End Re.

(* ===================================================================== *)
(** ** [pathlib.PurePosixPath] and [os.path.join] *)
(* ===================================================================== *)

Module Pathlib.

(** The components of a path: the fields between slashes, without the
    empty ones and the single dots. *)
Definition parts (s : string) : list string :=
  filter (fun p => negb (String.eqb p "" || String.eqb p "."))
         (PyStr.split "/" s).

(** The root: two leading slashes are kept, one or three and more are
    one. *)
Definition root (s : string) : string :=
  match s with
  | String "/" (String "/" (String "/" _)) => "/"
  | String "/" (String "/" _) => "//"
  | String "/" _ => "/"
  | _ => ""
  end.

(** [str(Path(s))]. *)
Definition str (s : string) : string :=
  match root s, parts s with
  | EmptyString, [] => "."
  | r, ps => r ++ PyStr.join "/" ps
  end.

(** [Path(s).name]: the last component, if any. *)
Definition name (s : string) : string := last (parts s) "".

(** [Path(s).suffix]. *)
Definition suffix (s : string) : string :=
  let n := name s in
  match PyStr.rfind "." n with
  | Some i =>
      if (0 <? i)%nat && (i <? String.length n - 1)%nat
      then PyStr.drop i n else ""
  | None => ""
  end.

(** [Path(s).stem]. *)
Definition stem (s : string) : string :=
  let n := name s in
  match PyStr.rfind "." n with
  | Some i =>
      if (0 <? i)%nat && (i <? String.length n - 1)%nat
      then PyStr.take i n else n
  | None => n
  end.

End Pathlib.

(** [os.path.join(a, b)] of [posixpath]. *)
Definition os_path_join (a b : string) : string :=
  if PyStr.startswith "/" b then b
  else if negb (PyStr.truthy a) || PyStr.endswith_char "/" a then a ++ b
  else a ++ "/" ++ b.

(* ===================================================================== *)
(** ** Exceptions and results *)
(* ===================================================================== *)

(** The exceptions that the program raises itself or lets through. *)
Inductive exn : Type :=
| SystemExit (status : Z)        (* [sys.exit(1)] in [fatal] *)
| CalledProcessError             (* non-zero exit of a subprocess *)
| ValueError                     (* unpacking of the wrong size, bad template *)
| KeyError (key : string)        (* field of a template without a value *)
| OtherError (what : string).    (* anything else a collaborator raises *)

Inductive result (A : Type) : Type :=
| Ret (a : A)
| Raise (e : exn).
Arguments Raise {A} e.

(* ===================================================================== *)
(** ** [str.format] with keyword arguments *)
(* ===================================================================== *)

Module Format.

Definition dquote : ascii := "034"%char.

(** Template texts are written below with a backquote wherever the source
    has a double quote; [text] puts the double quotes back.  No template
    of the program contains a backquote of its own. *)
Fixpoint text (s : string) : string :=
  match s with
  | EmptyString => EmptyString
  | String a r => String (if Ascii.eqb a "`" then dquote else a) (text r)
  end.

Fixpoint lookup (n : string) (env : list (string * string)) : option string :=
  match env with
  | [] => None
  | (k, v) :: r => if String.eqb k n then Some v else lookup n r
  end.

Definition prepend (c : ascii) (r : result string) : result string :=
  match r with
  | Ret x => Ret (String c x)
  | Raise e => Raise e
  end.

(** [tpl.format] on the keyword arguments [env], scanning [tpl] from
    left to right; [field] is the
    name of the replacement field being read, if any.  Doubled braces
    stand for one brace; a field is replaced by the [str] of its value,
    which is what [env] holds. *)
Fixpoint format_from (tpl : string) (field : option string)
  (env : list (string * string)) : result string :=
  match tpl with
  | EmptyString =>
      match field with
      | None => Ret EmptyString
      | Some _ => Raise ValueError
      end
  | String c r =>
      match field with
      | Some n =>
          if Ascii.eqb c "}" then
            match lookup n env with
            | None => Raise (KeyError n)
            | Some v =>
                match format_from r None env with
                | Ret x => Ret (v ++ x)
                | Raise e => Raise e
                end
            end
          else format_from r (Some (n ++ String c EmptyString)) env
      | None =>
          if Ascii.eqb c "{" then
            match r with
            | String "{" r' => prepend "{" (format_from r' None env)
            | _ => format_from r (Some EmptyString) env
            end
          else if Ascii.eqb c "}" then
            match r with
            | String "}" r' => prepend "}" (format_from r' None env)
            | _ => Raise ValueError
            end
          else prepend c (format_from r None env)
      end
  end.

Definition format (tpl : string) (env : list (string * string))
  : result string :=
  format_from tpl None env.

End Format.

(* ===================================================================== *)
(** ** Data of the program *)
(* ===================================================================== *)

(** Python numbers held by the quantisation variables: the [e57] override
    assigns the integers [0] and [1], the other paths compute floats. *)
Inductive pynum : Type :=
| PyInt (z : Z)
| PyFloat (f : float).

Record QuantizationParams : Type := {
  scale_x : pynum; scale_y : pynum; scale_z : pynum;
  offset_x : pynum; offset_y : pynum; offset_z : pynum
}.

(** A number of the summary as [json.loads] gives it: a Python [float]
    for a literal with a fraction or an exponent, a Python [int]
    otherwise.  The integers are those below 2^1023 in absolute value,
    on which the arithmetic of lines 122-124 raises nothing. *)
Inductive number : Type :=
| IntNumber (z : Z) (fits : (Z.abs z <? 2 ^ 1023)%Z = true)
| FloatNumber (f : float).

(** [json.loads(output.decode())['summary']], as far as it is read.  The
    members of lines 115-124 are read before anything else is called:
    a summary without one of them is a decoding that fails.  The member
    [proj4] is read at line 143 only, and may be missing ([None]). *)
Record Summary : Type := {
  srs_isgeographic : bool;
  srs_proj4 : option string;
  bounds_X_min : number; bounds_X_max : number;
  bounds_Y_min : number; bounds_Y_max : number;
  bounds_Z_min : number; bounds_Z_max : number
}.

Inductive cstype : Type := GEOGCS | PROJCS.

(** What the program observes of an [osgeo.osr.SpatialReference] once
    [ImportFromProj4] has been called on it. *)
Record SpatialReference : Type := {
  IsLocal : Z;
  IsGeographic : Z;
  ExportToWkt : string;
  GetAuthorityName : cstype -> option string;
  GetAuthorityCode : cstype -> option string;
  ExportToProj4 : option string
}.

(** Arithmetic of Python on the numbers of the summary. *)
Module Num.

(** [float(z)]: the float nearest to [z], ties to even. *)
Definition float_of_int (z : Z) : float :=
  SF2Prim (binary_normalize prec emax z 0 false).

(** [z / 2] on an [int]: the float nearest to the exact quotient. *)
Definition int_half (z : Z) : float :=
  SF2Prim (binary_normalize prec emax z (-1) false).

(** The float that an operation with a float operand takes a number
    for. *)
Definition to_float (n : number) : float :=
  match n with
  | IntNumber z _ => float_of_int z
  | FloatNumber f => f
  end.

(** [hi - lo]: an [int] when both are, a [float] otherwise. *)
Definition sub (hi lo : number) : Z + float :=
  match hi, lo with
  | IntNumber h _, IntNumber l _ => inl (h - l)%Z
  | _, _ => inr (PrimFloat.sub (to_float hi) (to_float lo))
  end.

(** [d / 2]: always a [float]. *)
Definition half (d : Z + float) : float :=
  match d with
  | inl z => int_half z
  | inr f => PrimFloat.div f 2%float
  end.

(** [lo + h] for a float [h]. *)
Definition add (lo : number) (h : float) : float :=
  PrimFloat.add (to_float lo) h.

End Num.

(** Lines that reach the terminal through [click]. *)
Inductive console : Type :=
| Pending (msg : string)
| Ok
| Fatal (e : exn).

(* ===================================================================== *)
(** ** The program *)
(* ===================================================================== *)

Section Program.

(** Interpreter builtins on floats: [str(x)] and [round(x, ndigits)]. *)
Variable float_repr : float -> string.
Variable round_float : float -> Z -> float.

(** The type of the six scalars of [Session.boundingbox], and [str] on
    it ([lopocs.database] is outside this file). *)
Variable scalar : Type.
Variable str_scalar : scalar -> string.

Definition str_num (n : pynum) : string :=
  match n with
  | PyInt z => PyStr.str_int z
  | PyFloat f => float_repr f
  end.

(** A [lopocs.database.Session] instance, as far as it is read. *)
Record Session : Type := {
  session_table : string;
  session_column : string;
  session_boundingbox : scalar * scalar * scalar * scalar * scalar * scalar
    (* xmin, ymin, zmin, xmax, ymax, zmax *)
}.

(** Calls that leave the process, with their arguments. *)
Inductive event : Type :=
| Echo (c : console)
| CreatePointcloudLopocsTable
| CheckOutput (argv : list string)
| CheckCall (argv : list string)
| PathResolve (path : string)
| OpenRead (path : string)
| WriteText (path : string) (content : string)
| WriteBytes (path : string) (content : string)
| SessionExecute (sql : string)
| UpdateMetadata (tbl col srid : string) (q : QuantizationParams)
| AddOutputSchema (tbl col : string) (q : QuantizationParams)
    (srid schema : string)
| NewSession (tbl col : string)
| GreyhoundBuild (s : Session) (lod_min lod_max : Z) (bbox : list scalar)
| GreyhoundWriteInCache (hcy : string) (cache_file : string)
| ThreedtilesBuild (s : Session) (server_url : string) (lod_max : Z)
    (bbox : list scalar) (lod_min : Z).

(** The answers of the collaborators.  The arguments of
    [update_metadata] and [add_output_schema] are grouped: table, column,
    srid, the three scales and the three offsets in the order of the
    call. *)
Record World : Type := {
  (* lopocs.database.Session *)
  w_create_pointcloud_lopocs_table : result unit;
  w_execute : string -> result unit;
  w_update_metadata :
    string -> string -> string -> QuantizationParams -> result unit;
  w_add_output_schema :
    string -> string -> QuantizationParams -> string -> string ->
    result unit;
  w_session : string -> string -> result Session;
  (* shlex, subprocess, json *)
  w_shlex_split : string -> result (list string);
  w_check_output : list string -> result string;
  w_check_call : list string -> result unit;
  w_json_summary : string -> result Summary;
  (* file system *)
  w_resolve : string -> result string;
  w_open_read : string -> result (list string);
  w_write_text : string -> string -> result unit;
  w_write_bytes : string -> string -> result unit;
  (* osgeo.osr: status of [ImportFromProj4], and the reference *)
  w_ImportFromProj4 : string -> Z * SpatialReference;
  (* greyhound, threedtiles *)
  w_greyhound_build : Session -> Z -> Z -> list scalar -> result string;
  w_greyhound_write_in_cache : string -> string -> result unit;
  w_threedtiles_build :
    Session -> string -> Z -> list scalar -> Z -> result string;
  (* app.config and lopocs.potreeschema *)
  PG_NAME : string;
  PG_PORT : string;
  PG_USER : string;
  PG_PASSWORD : string;
  potree_schema : string;
  (* the Unicode database: [str.lower] on a text that is not ASCII, and
     the decimal digits above U+007F *)
  unicode_lower : string -> string;
  unicode_decimal : N -> bool
}.

(** *** The monad: a result and the trace of the calls made *)

Definition M (A : Type) : Type := (result A * list event)%type.

Definition ret {A} (a : A) : M A := (Ret a, []).

Definition bind {A B} (m : M A) (k : A -> M B) : M B :=
  match m with
  | (Ret a, t) => let (r, t') := k a in (r, (t ++ t')%list)
  | (Raise e, t) => (Raise e, t)
  end.

Notation "x <- m ;; k" := (bind m (fun x => k))
  (at level 61, m at next level, right associativity).
Notation "m ;;; k" := (bind m (fun _ => k))
  (at level 61, right associativity).

(** A computation inside the process: no call is recorded. *)
Definition lift {A} (r : result A) : M A := (r, []).

(** A call that leaves the process: recorded, then answered. *)
Definition call {A} (ev : event) (answer : result A) : M A :=
  (answer, [ev]).

Definition echo (c : console) : M unit := (Ret tt, [Echo c]).

(** [fatal(message)]: print the error and exit. *)
Definition fatal {A} (e : exn) : M A :=
  (Raise (SystemExit 1), [Echo (Fatal e)]).

(** [try: m / except CalledProcessError as e: fatal(e)] *)
Definition try_fatal {A} (m : M A) : M A :=
  match m with
  | (Raise CalledProcessError, t) =>
      let (r, t') := @fatal A CalledProcessError in (r, (t ++ t')%list)
  | other => other
  end.

Definition pending (msg : string) : M unit := echo (Pending msg).
Definition ok : M unit := echo Ok.

(** *** [proj42epsg] *)

(** The loop over the lines of the definitions file: the code of the
    first line that contains [p_out] and on which the pattern matches;
    [code] when the lines are exhausted. *)
Fixpoint scan_epsg (decimal : N -> bool) (p_out : string)
  (lines : list string) (code : string) : string :=
  match lines with
  | [] => code
  | line :: rest =>
      if PyStr.contains p_out line then
        match Re.search_code decimal line with
        | Some c => c
        | None => scan_epsg decimal p_out rest code
        end
      else scan_epsg decimal p_out rest code
  end.

(** ['%s' % v] for an optional string. *)
Definition percent_s (v : option string) : string :=
  match v with
  | Some s => s
  | None => "None"
  end.

Definition proj42epsg (w : World) (proj4 : string) (epsg : string)
  (forceProj4 : bool) : M string :=
  let code := "4326" in
  let (s, p_in) := w_ImportFromProj4 w proj4 in
  if (s =? 5)%Z then ret code
  else if (IsLocal p_in =? 1)%Z then ret (ExportToWkt p_in)
  else
    let cstype := if (IsGeographic p_in =? 1)%Z then GEOGCS else PROJCS in
    let an := GetAuthorityName p_in cstype in
    let ac := GetAuthorityCode p_in cstype in
    match an, ac with
    | Some _, Some _ => ret (percent_s (GetAuthorityCode p_in cstype))
    | _, _ =>
        match ExportToProj4 p_in with
        | Some (String _ _ as p_out) =>
            if forceProj4 then ret p_out
            else
              lines <- call (OpenRead epsg) (w_open_read w epsg) ;;
              let code := scan_epsg (unicode_decimal w) p_out lines code in
              if PyStr.truthy code then ret code else ret code
        | _ => ret code
        end
    end.

(** The default values of the optional parameters. *)
Definition epsg_default : string := "/usr/share/proj/epsg".
Definition forceProj4_default : bool := false.

(** *** The parts of [_load] that compute *)

(** Lines 104-105: the table name is always prefixed. *)
Definition normalize_table (table : string) : string :=
  if negb (PyStr.contains_char "." table) then "public." ++ table
  else table.

(** [schema, tab = table.split('.')] *)
Definition split_table (table : string) : result (string * string) :=
  match PyStr.split "." table with
  | [schema; tab] => Ret (schema, tab)
  | _ => Raise ValueError
  end.

(** [lo + (hi - lo) / 2] *)
Definition midpoint (lo hi : number) : float :=
  Num.add lo (Num.half (Num.sub hi lo)).

(** [d[key]] for a member that may be missing. *)
Definition getitem {A : Type} (key : string) (member : option A) : result A :=
  match member with
  | Some v => Ret v
  | None => Raise (KeyError key)
  end.

(** Lines 115-135: scales and offsets from the summary and the
    extension. *)
Definition quantization (summary : Summary) (extension : string)
  : QuantizationParams :=
  let '(scale_x, scale_y, scale_z) :=
    if srs_isgeographic summary
    then (PyFloat 1e-6, PyFloat 1e-6, PyFloat 1e-2)
    else (PyFloat 0.01, PyFloat 0.01, PyFloat 0.01) in
  let offset_x := midpoint (bounds_X_min summary) (bounds_X_max summary) in
  let offset_y := midpoint (bounds_Y_min summary) (bounds_Y_max summary) in
  let offset_z := midpoint (bounds_Z_min summary) (bounds_Z_max summary) in
  let offset_x := PyFloat (round_float offset_x 2) in
  let offset_y := PyFloat (round_float offset_y 2) in
  let offset_z := PyFloat (round_float offset_z 2) in
  if String.eqb extension "e57" then
    let offset_x := PyInt 0 in
    let offset_y := PyInt 0 in
    let offset_z := PyInt 0 in
    let '(scale_x, scale_y, scale_z) := (PyInt 1, PyInt 1, PyInt 1) in
    Build_QuantizationParams scale_x scale_y scale_z
      offset_x offset_y offset_z
  else
    Build_QuantizationParams scale_x scale_y scale_z
      offset_x offset_y offset_z.

(** The pipeline description of lines 145-176, with a backquote for each
    double quote (see [Format.text]). *)
Definition json_pipeline_template : string := Format.text "
{{
`pipeline`: [
    {{
        `type`: `readers.{extension}`,
        `filename`:`{realfilename}`
    }},
    {{
        `type`: `filters.chipper`,
        `capacity`:400
    }},
    {{
        `type`: `filters.revertmorton`
    }},
    {{
        `type`:`writers.pgpointcloud`,
        `connection`:`dbname={pg_name} port={pg_port} user={pg_user} password={pg_password}`,
        `schema`: `{schema}`,
        `table`:`{tab}`,
        `compression`:`none`,
        `srid`:`{srid}`,
        `overwrite`:`true`,
        `column`: `points`,
        `scale_x`: `{scale_x}`,
        `scale_y`: `{scale_y}`,
        `scale_z`: `{scale_z}`,
        `offset_x`: `{offset_x}`,
        `offset_y`: `{offset_y}`,
        `offset_z`: `{offset_z}`
    }}
]
}}".

(** The statements of lines 190-195. *)
Definition sql_template : string := "
        create index on {table} using gist(geometry(points));
        alter table {table} add column morton bigint;
        select Morton_Update('{table}', 'points', 'morton', 64, TRUE);
        create index on {table}(morton);
    ".

(** Lines 221-229: the name of the greyhound cache file. *)
Definition cache_file (tbl col : string) (lod_min lod_max : Z)
  (bbox : list scalar) : string :=
  tbl ++ "_" ++ col ++ "_" ++ PyStr.str_int lod_min ++ "_" ++
  PyStr.str_int lod_max ++ "_" ++ PyStr.join "_" (map str_scalar bbox) ++
  ".hcy".

(** The local variables that the templates of [_load] refer to, each
    with the [str] of its value. *)
Definition locals (table extension realfilename schema tab srid : string)
  (w : World) (q : QuantizationParams) : list (string * string) :=
  [ ("table", table); ("extension", extension);
    ("realfilename", realfilename);
    ("pg_name", PG_NAME w); ("pg_port", PG_PORT w);
    ("pg_user", PG_USER w); ("pg_password", PG_PASSWORD w);
    ("schema", schema); ("tab", tab); ("srid", srid);
    ("scale_x", str_num (scale_x q)); ("scale_y", str_num (scale_y q));
    ("scale_z", str_num (scale_z q));
    ("offset_x", str_num (offset_x q)); ("offset_y", str_num (offset_y q));
    ("offset_z", str_num (offset_z q)) ].

(** The scales of the schema used by potree: [0.01] on every axis, with
    the offsets of the ingestion. *)
Definition output_schema_params (q : QuantizationParams)
  : QuantizationParams :=
  Build_QuantizationParams (PyFloat 0.01) (PyFloat 0.01) (PyFloat 0.01)
    (offset_x q) (offset_y q) (offset_z q).

(** *** [_load] *)

Definition _load (w : World)
  (filename table column work_dir server_url : string) : M unit :=
  let extension :=
    PyStr.lower (unicode_lower w) (PyStr.drop 1 (Pathlib.suffix filename)) in
  let basename := Pathlib.stem filename in
  (* [basedir = filename.parent] is never read *)
  pending "Creating metadata table" ;;;
  call CreatePointcloudLopocsTable (w_create_pointcloud_lopocs_table w) ;;;
  ok ;;;
  pending "Loading point clouds into database" ;;;
  wd <- call (PathResolve (Pathlib.str work_dir))
             (w_resolve w (Pathlib.str work_dir)) ;;
  name <- lift (Format.format "{basename}_{table}_pipeline.json"
                  [("basename", basename); ("table", table)]) ;;
  let json_path := os_path_join wd name in
  (* tablename should be always prefixed *)
  let table := normalize_table table in
  let cmd := "pdal info --summary " ++ Pathlib.str filename in
  output <- try_fatal
              (argv <- lift (w_shlex_split w cmd) ;;
               call (CheckOutput argv) (w_check_output w argv)) ;;
  summary <- lift (w_json_summary w output) ;;
  let q := quantization summary extension in
  realfilename <- call (PathResolve (Pathlib.str filename))
                       (w_resolve w (Pathlib.str filename)) ;;
  st <- lift (split_table table) ;;
  let (schema, tab) := st in
  proj4 <- lift (getitem "proj4" (srs_proj4 summary)) ;;
  srid <- proj42epsg w proj4 epsg_default forceProj4_default ;;
  let env := locals table extension realfilename schema tab srid w q in
  json_pipeline <- lift (Format.format json_pipeline_template env) ;;
  call (WriteText json_path json_pipeline)
       (w_write_text w json_path json_pipeline) ;;;
  let cmd := "pdal pipeline " ++ json_path in
  try_fatal
    (argv <- lift (w_shlex_split w cmd) ;;
     call (CheckCall argv) (w_check_call w argv)) ;;;
  ok ;;;
  pending "Creating indexes" ;;;
  sql <- lift (Format.format sql_template env) ;;
  call (SessionExecute sql) (w_execute w sql) ;;;
  ok ;;;
  pending "Adding metadata for lopocs" ;;;
  call (UpdateMetadata table column srid q)
       (w_update_metadata w table column srid q) ;;;
  (* add schema currently used by potree (version 1.5RC) *)
  call (AddOutputSchema table column (output_schema_params q) srid
          (potree_schema w))
       (w_add_output_schema w table column (output_schema_params q) srid
          (potree_schema w)) ;;;
  lpsession <- call (NewSession table column) (w_session w table column) ;;
  ok ;;;
  (* initialize range for level of details *)
  let lod_min := 0%Z in
  let lod_max := 5%Z in
  (* retrieve boundingbox *)
  let '(xmin, ymin, zmin, xmax, ymax, zmax) :=
    session_boundingbox lpsession in
  let bbox := [xmin; ymin; zmin; xmax; ymax; zmax] in
  let cache :=
    cache_file (session_table lpsession) (session_column lpsession)
      lod_min lod_max bbox in
  pending "Building greyhound hierarchy" ;;;
  new_hcy <- call (GreyhoundBuild lpsession lod_min lod_max bbox)
                  (w_greyhound_build w lpsession lod_min lod_max bbox) ;;
  call (GreyhoundWriteInCache new_hcy cache)
       (w_greyhound_write_in_cache w new_hcy cache) ;;;
  ok ;;;
  pending "Building 3Dtiles tileset" ;;;
  hcy <- call (ThreedtilesBuild lpsession server_url lod_max bbox lod_min)
              (w_threedtiles_build w lpsession server_url lod_max bbox
                 lod_min) ;;
  wd' <- call (PathResolve (Pathlib.str work_dir))
              (w_resolve w (Pathlib.str work_dir)) ;;
  let tileset := os_path_join wd' "tileset.json" in
  call (WriteBytes tileset hcy) (w_write_bytes w tileset hcy) ;;;
  ok.

End Program.

Arguments ret {scalar A} a.
Arguments lift {scalar A} r.
Arguments echo {scalar} c.
Arguments pending {scalar} msg.
Arguments ok {scalar}.
Arguments Echo {scalar} c.
Arguments CreatePointcloudLopocsTable {scalar}.
Arguments CheckOutput {scalar} argv.
Arguments CheckCall {scalar} argv.
Arguments PathResolve {scalar} path.
Arguments OpenRead {scalar} path.
Arguments WriteText {scalar} path content.
Arguments WriteBytes {scalar} path content.
Arguments SessionExecute {scalar} sql.
Arguments UpdateMetadata {scalar} tbl col srid q.
Arguments AddOutputSchema {scalar} tbl col q srid schema.
Arguments NewSession {scalar} tbl col.
Arguments GreyhoundWriteInCache {scalar} hcy cache_file.

(* ===================================================================== *)
(** ** Vocabulary of the resolver *)
(* ===================================================================== *)

(** The authority category that [proj42epsg] selects. *)
Definition category (p_in : SpatialReference) : cstype :=
  if (IsGeographic p_in =? 1)%Z then GEOGCS else PROJCS.

(** [line.find(p_out) == -1] *)
Definition lacks (p_out : string) (line : string) : Prop :=
  PyStr.contains p_out line = false.

(** The codes carried by the lines that hold [p_out], in the order of
    the file. *)
Definition codes_of (decimal : N -> bool) (p_out : string)
  (lines : list string) : list string :=
  flat_map (fun line =>
              if PyStr.contains p_out line then
                match Re.search_code decimal line with
                | Some c => [c]
                | None => []
                end
              else []) lines.

(** A line that the scan passes over: it does not hold [p_out], or no
    code stands between angle brackets on it. *)
Definition passed_over (decimal : N -> bool) (p_out line : string) : Prop :=
  lacks p_out line \/ Re.search_code decimal line = None.

(* ===================================================================== *)
(** ** The pipeline description as a list of stages *)
(* ===================================================================== *)

(** The stages that a pipeline specification is made of: read(file,
    format), chip(capacity), reorder by space-filling curve, and write
    with destination, quantisation, SRID and overwrite flag. *)
Inductive StageSpec : Type :=
| ReadStage (format file : string)
| ChipStage (capacity : Z)
| ReorderStage
| WriteStage (connection schema table compression srid : string)
    (overwrite : bool) (column : string)
    (scale_x scale_y scale_z offset_x offset_y offset_z : string).

Inductive StageKind : Type := KRead | KChip | KReorder | KWrite.

Definition stage_kind (s : StageSpec) : StageKind :=
  match s with
  | ReadStage _ _ => KRead
  | ChipStage _ => KChip
  | ReorderStage => KReorder
  | WriteStage _ _ _ _ _ _ _ _ _ _ _ _ _ => KWrite
  end.

Module Json.

Definition nl : string := String "010"%char EmptyString.

(** A text under construction is the list of its fragments. *)
Definition flatten (fragments : list string) : string :=
  fold_right String.append EmptyString fragments.

(** [sep] between the elements of [l]. *)
Fixpoint sep_by (sep : list string) (l : list (list string)) : list string :=
  match l with
  | [] => []
  | [x] => x
  | x :: r => (x ++ sep ++ sep_by sep r)%list
  end.

(** A JSON string, without any escaping. *)
Definition quoted (s : string) : list string :=
  [String Format.dquote EmptyString; s; String Format.dquote EmptyString].

(** One member of an object, on a line of its own; [spaced] tells
    whether a blank follows the colon. *)
Definition member (key : string) (spaced : bool) (value : list string)
  : list string :=
  (["        "] ++ quoted key ++ [if spaced then ": " else ":"] ++ value)%list.

(** An object of the stage list, one member per line. *)
Definition object (members : list (list string)) : list string :=
  (["    {"; nl] ++ sep_by [","; nl] members ++ [nl; "    }"])%list.

Definition bool_text (b : bool) : string := if b then "true" else "false".

Definition render_stage (s : StageSpec) : list string :=
  match s with
  | ReadStage format file =>
      object [ member "type" true (quoted ("readers." ++ format));
               member "filename" false (quoted file) ]
  | ChipStage capacity =>
      object [ member "type" true (quoted "filters.chipper");
               member "capacity" false [PyStr.str_int capacity] ]
  | ReorderStage =>
      object [ member "type" true (quoted "filters.revertmorton") ]
  | WriteStage connection schema table compression srid overwrite column
      scale_x scale_y scale_z offset_x offset_y offset_z =>
      object [ member "type" false (quoted "writers.pgpointcloud");
               member "connection" false (quoted connection);
               member "schema" true (quoted schema);
               member "table" false (quoted table);
               member "compression" false (quoted compression);
               member "srid" false (quoted srid);
               member "overwrite" false (quoted (bool_text overwrite));
               member "column" true (quoted column);
               member "scale_x" true (quoted scale_x);
               member "scale_y" true (quoted scale_y);
               member "scale_z" true (quoted scale_z);
               member "offset_x" true (quoted offset_x);
               member "offset_y" true (quoted offset_y);
               member "offset_z" true (quoted offset_z) ]
  end.

(** The document: an object with the single member [pipeline], the list
    of the stages. *)
Definition render_pipeline (stages : list StageSpec) : string :=
  flatten
    ([nl; "{"; nl] ++ quoted "pipeline" ++ [": ["; nl] ++
     sep_by [","; nl] (map render_stage stages) ++
     [nl; "]"; nl; "}"])%list.

End Json.

(** Characters that stand for themselves between the quotes of a JSON
    string: no double quote, no backslash, no control character. *)
Definition plain_char (c : ascii) : bool :=
  let n := nat_of_ascii c in
  (32 <=? n)%nat && negb (n =? 34)%nat && negb (n =? 92)%nat.

Fixpoint plain (s : string) : bool :=
  match s with
  | EmptyString => true
  | String a r => plain_char a && plain r
  end.

(** A stage whose texts are plain: [Json.render_stage] writes it as a
    JSON object with these members. *)
Definition proper_stage (s : StageSpec) : bool :=
  match s with
  | ReadStage format file => plain format && plain file
  | ChipStage _ => true
  | ReorderStage => true
  | WriteStage connection schema table compression srid _ column
      scale_x scale_y scale_z offset_x offset_y offset_z =>
      plain connection && plain schema && plain table && plain compression &&
      plain srid && plain column && plain scale_x && plain scale_y &&
      plain scale_z && plain offset_x && plain offset_y && plain offset_z
  end.

(** The part of a description that holds the stages, and what closes
    their list. *)
Definition body (stages : list StageSpec) : string :=
  Json.flatten (Json.sep_by [","; Json.nl] (map Json.render_stage stages)) ++
  Json.flatten [Json.nl; "]"; Json.nl; "}"].

(** [text] is the JSON document of the stages [stages]. *)
Definition denotes (text : string) (stages : list StageSpec) : Prop :=
  forallb proper_stage stages = true /\ text = Json.render_pipeline stages.

(** The destination columns named by the write stages of a pipeline. *)
Definition destination_columns (stages : list StageSpec) : list string :=
  flat_map (fun s =>
              match s with
              | WriteStage _ _ _ _ _ _ column _ _ _ _ _ _ => [column]
              | _ => []
              end) stages.

(** The connection string of the write stage. *)
Definition connection (pg_name pg_port pg_user pg_password : string) : string :=
  "dbname=" ++ pg_name ++ " port=" ++ pg_port ++ " user=" ++ pg_user ++
  " password=" ++ pg_password.

(** The four stages of the ingestion pipeline. *)
Definition pipeline_stages (float_repr : float -> string)
  (extension realfilename connection schema tab srid : string)
  (q : QuantizationParams) : list StageSpec :=
  [ ReadStage extension realfilename;
    ChipStage 400;
    ReorderStage;
    WriteStage connection schema tab "none" srid true "points"
      (str_num float_repr (scale_x q)) (str_num float_repr (scale_y q))
      (str_num float_repr (scale_z q))
      (str_num float_repr (offset_x q)) (str_num float_repr (offset_y q))
      (str_num float_repr (offset_z q)) ].

(* ===================================================================== *)
(** ** A run of [_load] that reaches its end *)
(* ===================================================================== *)

(** The statements sent to the database once the table is loaded. *)
Definition sql_text (table : string) : string :=
  Json.flatten
    [ Json.nl;
      "        create index on "; table; " using gist(geometry(points));";
      Json.nl;
      "        alter table "; table; " add column morton bigint;";
      Json.nl;
      "        select Morton_Update('"; table;
      "', 'points', 'morton', 64, TRUE);";
      Json.nl;
      "        create index on "; table; "(morton);";
      Json.nl;
      "    " ].

Section Answers.

Variable float_repr : float -> string.
Variable round_float : float -> Z -> float.
Variable scalar : Type.
Variable str_scalar : scalar -> string.

(** The answers that the collaborators give in a run that succeeds. *)
Record Answers : Type := {
  a_wd : string;                    (* [work_dir.resolve()] *)
  a_argv_info : list string;        (* [shlex.split] of the summary command *)
  a_output : string;                (* output of [pdal info] *)
  a_summary : Summary;
  a_realfilename : string;          (* [filename.resolve()] *)
  a_schema : string;
  a_tab : string;
  a_proj4 : string;                 (* [summary['srs']['proj4']] *)
  a_srid : string;
  a_srid_calls : list (event scalar);   (* calls made by [proj42epsg] *)
  a_argv_pipeline : list string;    (* [shlex.split] of the pipeline command *)
  a_session : Session scalar;
  a_new_hcy : string;
  a_hcy : string
}.

Variable w : World scalar.
Variables filename table column work_dir server_url : string.
Variable a : Answers.

Definition extension_of (filename : string) : string :=
  PyStr.lower (unicode_lower w) (PyStr.drop 1 (Pathlib.suffix filename)).

Definition json_path_of : string :=
  os_path_join (a_wd a)
    (Pathlib.stem filename ++ "_" ++ table ++ "_pipeline.json").

Definition planned : QuantizationParams :=
  quantization round_float (a_summary a) (extension_of filename).

Definition json_pipeline_of : string :=
  Json.render_pipeline
    (pipeline_stages float_repr (extension_of filename) (a_realfilename a)
       (connection (PG_NAME w) (PG_PORT w) (PG_USER w) (PG_PASSWORD w))
       (a_schema a) (a_tab a) (a_srid a) planned).

Definition bbox_of (s : Session scalar) : list scalar :=
  let '(xmin, ymin, zmin, xmax, ymax, zmax) := session_boundingbox s in
  [xmin; ymin; zmin; xmax; ymax; zmax].

Definition cache_file_of : string :=
  cache_file str_scalar (session_table (a_session a))
    (session_column (a_session a)) 0 5 (bbox_of (a_session a)).

(** What each collaborator answered. *)
Definition answers_hold : Prop :=
  let tbl := normalize_table table in
  w_create_pointcloud_lopocs_table w = Ret tt /\
  w_resolve w (Pathlib.str work_dir) = Ret (a_wd a) /\
  w_shlex_split w ("pdal info --summary " ++ Pathlib.str filename)
  = Ret (a_argv_info a) /\
  w_check_output w (a_argv_info a) = Ret (a_output a) /\
  w_json_summary w (a_output a) = Ret (a_summary a) /\
  w_resolve w (Pathlib.str filename) = Ret (a_realfilename a) /\
  split_table tbl = Ret (a_schema a, a_tab a) /\
  srs_proj4 (a_summary a) = Some (a_proj4 a) /\
  proj42epsg w (a_proj4 a) epsg_default forceProj4_default
  = (Ret (a_srid a), a_srid_calls a) /\
  w_write_text w json_path_of json_pipeline_of = Ret tt /\
  w_shlex_split w ("pdal pipeline " ++ json_path_of)
  = Ret (a_argv_pipeline a) /\
  w_check_call w (a_argv_pipeline a) = Ret tt /\
  w_execute w (sql_text tbl) = Ret tt /\
  w_update_metadata w tbl column (a_srid a) planned = Ret tt /\
  w_add_output_schema w tbl column (output_schema_params planned)
    (a_srid a) (potree_schema w) = Ret tt /\
  w_session w tbl column = Ret (a_session a) /\
  w_greyhound_build w (a_session a) 0 5 (bbox_of (a_session a))
  = Ret (a_new_hcy a) /\
  w_greyhound_write_in_cache w (a_new_hcy a) cache_file_of = Ret tt /\
  w_threedtiles_build w (a_session a) server_url 5 (bbox_of (a_session a)) 0
  = Ret (a_hcy a) /\
  w_write_bytes w (os_path_join (a_wd a) "tileset.json") (a_hcy a) = Ret tt.

(** The calls before the pipeline is assembled. *)
Definition calls_before_pipeline : list (event scalar) :=
  ([ Echo (Pending "Creating metadata table");
     CreatePointcloudLopocsTable;
     Echo Ok;
     Echo (Pending "Loading point clouds into database");
     PathResolve (Pathlib.str work_dir);
     CheckOutput (a_argv_info a);
     PathResolve (Pathlib.str filename) ] ++ a_srid_calls a)%list.

(** The calls that write and run the pipeline and index the table. *)
Definition calls_of_pipeline : list (event scalar) :=
  [ WriteText json_path_of json_pipeline_of;
    CheckCall (a_argv_pipeline a);
    Echo Ok;
    Echo (Pending "Creating indexes");
    SessionExecute (sql_text (normalize_table table));
    Echo Ok;
    Echo (Pending "Adding metadata for lopocs") ].

(** The two metadata records. *)
Definition calls_of_metadata : list (event scalar) :=
  [ UpdateMetadata (normalize_table table) column (a_srid a) planned;
    AddOutputSchema (normalize_table table) column
      (output_schema_params planned) (a_srid a) (potree_schema w) ].

(** The calls that build the two hierarchies. *)
Definition calls_of_hierarchies : list (event scalar) :=
  [ NewSession (normalize_table table) column;
    Echo Ok;
    Echo (Pending "Building greyhound hierarchy");
    GreyhoundBuild (a_session a) 0 5 (bbox_of (a_session a));
    GreyhoundWriteInCache (a_new_hcy a) cache_file_of;
    Echo Ok;
    Echo (Pending "Building 3Dtiles tileset");
    ThreedtilesBuild (a_session a) server_url 5 (bbox_of (a_session a)) 0;
    PathResolve (Pathlib.str work_dir);
    WriteBytes (os_path_join (a_wd a) "tileset.json") (a_hcy a);
    Echo Ok ].

Definition success_trace : list (event scalar) :=
  (calls_before_pipeline ++ calls_of_pipeline ++ calls_of_metadata ++
   calls_of_hierarchies)%list.

End Answers.

(** Calls made up to the unpacking of [table.split('.')]. *)
Definition made_before_split {scalar : Type} (ev : event scalar) : bool :=
  match ev with
  | Echo _ | CreatePointcloudLopocsTable | PathResolve _ | CheckOutput _ =>
      true
  | _ => false
  end.

(** Calls that leave the process other than messages on the terminal. *)
Definition is_external_call {scalar : Type} (ev : event scalar) : bool :=
  match ev with
  | Echo _ => false
  | _ => true
  end.

(** A run that is refused before anything outside the process is
    called. *)
Definition rejected_before_any_call {scalar : Type} (run : M scalar unit)
  : Prop :=
  (exists e, fst run = Raise e) /\
  Forall (fun ev => is_external_call ev = false) (snd run).

(** [l] with the element at index [i] replaced by [x]. *)
Fixpoint replace_nth {A : Type} (i : nat) (x : A) (l : list A) : list A :=
  match l, i with
  | [], _ => []
  | _ :: r, O => x :: r
  | y :: r, S i' => y :: replace_nth i' x r
  end.

(* ===================================================================== *)
(** ** The builtin [round] *)
(* ===================================================================== *)

Module Builtins.

(** The integer nearest to [num / den], ties to even, for [den > 0]. *)
Definition round_half_even (num den : Z) : Z :=
  let q := (num / den)%Z in
  let r := (num mod den)%Z in
  match (2 * r ?= den)%Z with
  | Lt => q
  | Gt => (q + 1)%Z
  | Eq => if Z.even q then q else (q + 1)%Z
  end.

(** The float nearest to [n / d], ties to even, for [d > 0]: the
    quotient is computed with more than 64 bits, and a last bit tells
    whether anything was left. *)
Definition nearest (n d : Z) : float :=
  let k := (64 + Z.log2_up d + 1)%Z in
  let num := (Z.abs n * 2 ^ k)%Z in
  let q := (num / d)%Z in
  let sticky := if (num mod d =? 0)%Z then 0%Z else 1%Z in
  let m := (2 * q + sticky)%Z in
  SF2Prim (binary_normalize prec emax (if (n <? 0)%Z then (- m)%Z else m)
             (- (k + 1)) (n <? 0)%Z).

(** [round(x, ndigits)] of CPython on a float, for [0 <= ndigits] (the
    program passes 2): [x] is written with [ndigits] decimals, rounded on
    its exact value with ties to even, and the decimal is read back as
    the nearest float.  A float without a fraction, an infinity and a
    NaN are left as they are, and so is every float when more than 323
    decimals are asked for. *)
Definition round (x : float) (ndigits : Z) : float :=
  match Prim2SF x with
  | S754_finite s m e =>
      if (0 <=? e)%Z || (323 <? ndigits)%Z then x
      else
        let p := (10 ^ ndigits)%Z in
        let n := round_half_even (Zpos m * p) (2 ^ (- e)) in
        if (n =? 0)%Z then (if s then neg_zero else zero)
        else nearest (if s then (- n)%Z else n) p
  | _ => x
  end.

End Builtins.

(* ===================================================================== *)
(** ** Sample collaborators *)
(* ===================================================================== *)

(** Concrete answers on which the program is run below: a geographic file
    with bounds X[0,10] Y[0,20] Z[0,5], a database that accepts every
    statement, and four projection strings. *)
Module Sample.

(** [str] on the floats that occur in the sample runs. *)
Definition float_repr (f : float) : string :=
  if PrimFloat.eqb f 1e-6 then "1e-06"
  else if PrimFloat.eqb f 0.01 then "0.01"
  else if PrimFloat.eqb f 0.12 then "0.12"
  else if PrimFloat.eqb f 2.5 then "2.5"
  else if PrimFloat.eqb f 5 then "5.0"
  else if PrimFloat.eqb f 10 then "10.0"
  else if PrimFloat.eqb f 9007199254740992 then "9007199254740992.0"
  else "nan".

Definition round_float : float -> Z -> float := Builtins.round.

(** Part of the Unicode database: the decimal digits of the Arabic-Indic,
    extended Arabic-Indic and Devanagari scripts, and the fullwidth
    digits. *)
Definition decimal_digit (cp : N) : bool :=
  ((1632 <=? cp) && (cp <=? 1641) || (1776 <=? cp) && (cp <=? 1785) ||
   (2406 <=? cp) && (cp <=? 2415) || (65296 <=? cp) && (cp <=? 65305))%N.

(** Part of the Unicode database: [str.lower] on the letters of ASCII and
    of the Latin-1 supplement (U+00C0 to U+00DE without U+00D7, two
    bytes each, the first one 195). *)
Fixpoint lower_latin (s : string) : string :=
  match s with
  | EmptyString => EmptyString
  | String a r =>
      match r with
      | String b r' =>
          let y := nat_of_ascii b in
          if (nat_of_ascii a =? 195)%nat && (128 <=? y)%nat && (y <=? 158)%nat
             && negb (y =? 151)%nat
          then String a (String (ascii_of_nat (y + 32)) (lower_latin r'))
          else String (PyStr.lower_char a) (lower_latin r)
      | EmptyString => String (PyStr.lower_char a) EmptyString
      end
  end.

(** ETRS89 without authority nodes. *)
Definition sr_etrs89 : SpatialReference := {|
  IsLocal := 0;
  IsGeographic := 1;
  ExportToWkt := "GEOGCS[ETRS89]";
  GetAuthorityName := fun _ => None;
  GetAuthorityCode := fun _ => None;
  ExportToProj4 := Some "+proj=longlat +ellps=GRS80 +no_defs "
|}.

(** RGF93 / Lambert-93 with its authority nodes. *)
Definition sr_lambert93 : SpatialReference := {|
  IsLocal := 0;
  IsGeographic := 0;
  ExportToWkt := "PROJCS[RGF93 / Lambert-93]";
  GetAuthorityName :=
    fun c => match c with PROJCS => Some "EPSG" | GEOGCS => None end;
  GetAuthorityCode :=
    fun c => match c with PROJCS => Some "2154" | GEOGCS => None end;
  ExportToProj4 := Some "+proj=lcc +lat_1=49 +lat_2=44 +units=m +no_defs "
|}.

(** An unanchored engineering system. *)
Definition sr_local : SpatialReference := {|
  IsLocal := 1;
  IsGeographic := 0;
  ExportToWkt := "LOCAL_CS[arbitrary,UNIT[metre,1]]";
  GetAuthorityName := fun _ => None;
  GetAuthorityCode := fun _ => None;
  ExportToProj4 := None
|}.

(** What is left of a string that could not be parsed. *)
Definition sr_empty : SpatialReference := {|
  IsLocal := 0;
  IsGeographic := 0;
  ExportToWkt := "";
  GetAuthorityName := fun _ => None;
  GetAuthorityCode := fun _ => None;
  ExportToProj4 := None
|}.

Definition ImportFromProj4 (proj4 : string) : Z * SpatialReference :=
  if String.eqb proj4 "+proj=longlat +ellps=GRS80" then (0%Z, sr_etrs89)
  else if String.eqb proj4 "+init=epsg:2154" then (0%Z, sr_lambert93)
  else if String.eqb proj4 "+proj=local" then (0%Z, sr_local)
  else (5%Z, sr_empty).

(** Three lines in the layout of the PROJ [epsg] file. *)
Definition epsg_lines : list string :=
  [ "# ETRS89";
    "<4258> +proj=longlat +ellps=GRS80 +no_defs  <>";
    "<4937> +proj=longlat +ellps=GRS80 +no_defs  <>" ].

Definition summary : Summary := {|
  srs_isgeographic := true;
  srs_proj4 := Some "+proj=longlat +ellps=GRS80";
  bounds_X_min := FloatNumber 0; bounds_X_max := FloatNumber 10;
  bounds_Y_min := FloatNumber 0; bounds_Y_max := FloatNumber 20;
  bounds_Z_min := FloatNumber 0; bounds_Z_max := FloatNumber 5
|}.


(** The same box a hundredth higher on every axis. *)
Definition summary_shifted : Summary := {|
  srs_isgeographic := true;
  srs_proj4 := Some "+proj=longlat +ellps=GRS80";
  bounds_X_min := FloatNumber 0.01; bounds_X_max := FloatNumber 10.01;
  bounds_Y_min := FloatNumber 0.01; bounds_Y_max := FloatNumber 20.01;
  bounds_Z_min := FloatNumber 0.01; bounds_Z_max := FloatNumber 5.01
|}.

(** The scalars of the bounding box are Python integers here. *)
Definition world : World Z := {|
  w_create_pointcloud_lopocs_table := Ret tt;
  w_execute := fun _ => Ret tt;
  w_update_metadata := fun _ _ _ _ => Ret tt;
  w_add_output_schema := fun _ _ _ _ _ => Ret tt;
  w_session := fun t c =>
    Ret {| session_table := t; session_column := c;
           session_boundingbox := (0, 0, 0, 10, 20, 5)%Z |};
  w_shlex_split := fun cmd => Ret (PyStr.split " " cmd);
  w_check_output := fun _ => Ret "{summary}";
  w_check_call := fun _ => Ret tt;
  w_json_summary := fun _ => Ret summary;
  w_resolve := fun path => Ret ("/srv/" ++ path);
  w_open_read := fun _ => Ret epsg_lines;
  w_write_text := fun _ _ => Ret tt;
  w_write_bytes := fun _ _ => Ret tt;
  w_ImportFromProj4 := ImportFromProj4;
  w_greyhound_build := fun _ _ _ _ => Ret "greyhound";
  w_greyhound_write_in_cache := fun _ _ => Ret tt;
  w_threedtiles_build := fun _ _ _ _ _ => Ret "tileset";
  PG_NAME := "pc_db";
  PG_PORT := "5432";
  PG_USER := "lopocs";
  PG_PASSWORD := "secret";
  potree_schema := "potree";
  unicode_lower := lower_latin;
  unicode_decimal := decimal_digit
|}.

(** The sample file loaded into [table]. *)
Definition run (table column : string) : M Z unit :=
  _load float_repr round_float PyStr.str_int world
    "data/sample.las" table column "work" "http://localhost:5000".

End Sample.

(* ===================================================================== *)
(** ** Runs of [_load] that stop early *)
(* ===================================================================== *)

Section Prepared.

Variable float_repr : float -> string.
Variable round_float : float -> Z -> float.
Variable scalar : Type.
Variable w : World scalar.
Variables filename table work_dir : string.

(** The answers that [_load] has received when it is about to call the
    pipeline tool. *)
Record Prepared : Type := {
  p_wd : string;                    (* [work_dir.resolve()] *)
  p_argv_info : list string;        (* [shlex.split] of the summary command *)
  p_output : string;                (* output of [pdal info] *)
  p_summary : Summary;
  p_realfilename : string;          (* [filename.resolve()] *)
  p_schema : string;
  p_tab : string;
  p_proj4 : string;                 (* [summary['srs']['proj4']] *)
  p_srid : string;
  p_srid_calls : list (event scalar);   (* calls made by [proj42epsg] *)
  p_argv_pipeline : list string     (* [shlex.split] of the pipeline command *)
}.

Variable p : Prepared.

Definition p_json_path : string :=
  os_path_join (p_wd p)
    (Pathlib.stem filename ++ "_" ++ table ++ "_pipeline.json").

Definition p_planned : QuantizationParams :=
  quantization round_float (p_summary p) (extension_of w filename).

Definition p_json_pipeline : string :=
  Json.render_pipeline
    (pipeline_stages float_repr (extension_of w filename)
       (p_realfilename p)
       (connection (PG_NAME w) (PG_PORT w) (PG_USER w) (PG_PASSWORD w))
       (p_schema p) (p_tab p) (p_srid p) p_planned).

(** What each collaborator answered, up to the split of the pipeline
    command. *)
Definition prepared : Prop :=
  w_create_pointcloud_lopocs_table w = Ret tt /\
  w_resolve w (Pathlib.str work_dir) = Ret (p_wd p) /\
  w_shlex_split w ("pdal info --summary " ++ Pathlib.str filename)
  = Ret (p_argv_info p) /\
  w_check_output w (p_argv_info p) = Ret (p_output p) /\
  w_json_summary w (p_output p) = Ret (p_summary p) /\
  w_resolve w (Pathlib.str filename) = Ret (p_realfilename p) /\
  split_table (normalize_table table) = Ret (p_schema p, p_tab p) /\
  srs_proj4 (p_summary p) = Some (p_proj4 p) /\
  proj42epsg w (p_proj4 p) epsg_default forceProj4_default
  = (Ret (p_srid p), p_srid_calls p) /\
  w_write_text w p_json_path p_json_pipeline = Ret tt /\
  w_shlex_split w ("pdal pipeline " ++ p_json_path)
  = Ret (p_argv_pipeline p).

(** The calls made up to the call of the pipeline tool. *)
Definition calls_until_pipeline_tool : list (event scalar) :=
  ([ Echo (Pending "Creating metadata table");
     CreatePointcloudLopocsTable;
     Echo Ok;
     Echo (Pending "Loading point clouds into database");
     PathResolve (Pathlib.str work_dir);
     CheckOutput (p_argv_info p);
     PathResolve (Pathlib.str filename) ] ++
   p_srid_calls p ++
   [ WriteText p_json_path p_json_pipeline;
     CheckCall (p_argv_pipeline p) ])%list.

(** The shape of the calls that follow the pipeline tool and persist
    something about the table. *)
Definition persisted_as (column : string) (ev : event scalar) : Prop :=
  match ev with
  | SessionExecute sql => sql = sql_text (normalize_table table)
  | UpdateMetadata tbl col srid q =>
      tbl = normalize_table table /\ col = column /\ srid = p_srid p /\
      q = p_planned
  | AddOutputSchema tbl col q srid schema =>
      tbl = normalize_table table /\ col = column /\
      q = output_schema_params p_planned /\ srid = p_srid p /\
      schema = potree_schema w
  | NewSession tbl col => tbl = normalize_table table /\ col = column
  | _ => True
  end.

End Prepared.

(** Calls that are made only once the pipeline tool has returned. *)
Definition after_pipeline {scalar : Type} (ev : event scalar) : bool :=
  match ev with
  | SessionExecute _ | UpdateMetadata _ _ _ _ | AddOutputSchema _ _ _ _ _
  | NewSession _ _ | GreyhoundBuild _ _ _ _ | GreyhoundWriteInCache _ _
  | ThreedtilesBuild _ _ _ _ _ | WriteBytes _ _ => true
  | _ => false
  end.

(** A scale that is strictly positive. *)
Definition positive_num (n : pynum) : bool :=
  match n with
  | PyInt z => (0 <? z)%Z
  | PyFloat f => PrimFloat.ltb 0 f
  end.

(* ===================================================================== *)
(** ** The commands [load] and [demo] *)
(* ===================================================================== *)

(** The sample files, by name. *)
Definition samples : list (string * string) :=
  [ ("airport",
     "http://www.liblas.org/samples/LAS12_Sample_withRGB_Quick_Terrain_Modeler_fixed.las");
    ("stsulpice",
     "https://freefr.dl.sourceforge.net/project/e57-3d-imgfmt/E57Example-data/Trimble_StSulpice-Cloud-50mm.e57") ].

(** [samples[sample]] *)
Definition sample_url (sample : string) : result string :=
  match Format.lookup sample samples with
  | Some url => Ret url
  | None => Raise (KeyError sample)
  end.

(** What [demo] reads of the response of [requests.get(url, stream=True)]:
    the integer value of the [content-length] header, the chunks that
    [iter_content] yields, and how the iteration ends. *)
Record Response : Type := {
  content_length : result Z;
  chunks : list string;
  stream_end : result unit
}.

(** The answers of the collaborators of [demo]. *)
Record DemoWorld : Type := {
  d_exists : string -> bool;                       (* [os.path.exists] *)
  d_get : string -> result Response;               (* [requests.get] *)
  d_open_write : string -> result unit;            (* [io.open(dest, 'wb')] *)
  d_fd_write : string -> string -> result unit;    (* [fd.write(chunk)] *)
  d_app_run : result unit                          (* [app.run] returns *)
}.

Section Commands.

Variable float_repr : float -> string.
Variable round_float : float -> Z -> float.
Variable scalar : Type.
Variable str_scalar : scalar -> string.

(** [load]: the option [--column] defaults to ["points"] and
    [--server-url] to ["http://localhost:5000"]. *)
Definition load (w : World scalar) (filename table : string)
  (column : option string) (work_dir : string) (server_url : option string)
  : M scalar unit :=
  _load float_repr round_float str_scalar w filename table
    (match column with Some c => c | None => "points" end)
    work_dir
    (match server_url with Some u => u | None => "http://localhost:5000" end).

(** Calls made by [demo]: its own, and those of [_load]. *)
Inductive demo_event : Type :=
| PathExists (path : string)
| RequestsGet (url : string)
| OpenWrite (path : string)
| ProgressBar (length : Z) (label : string)
| FdWrite (path : string) (chunk : string)
| BarUpdate (n : Z)
| InLoad (ev : event scalar)
| TimerStart (interval : float) (url : string)
| AppRun (debug : bool).

Definition DM (A : Type) : Type := (result A * list demo_event)%type.

Definition dbind {A B} (m : DM A) (k : A -> DM B) : DM B :=
  match m with
  | (Ret a, t) => let (r, t') := k a in (r, (t ++ t')%list)
  | (Raise e, t) => (Raise e, t)
  end.

Definition dlift {A} (r : result A) : DM A := (r, []).

Definition dcall {A} (ev : demo_event) (answer : result A) : DM A :=
  (answer, [ev]).

(** A computation of [_load] inside [demo]. *)
Definition embed {A} (m : M scalar A) : DM A := (fst m, map InLoad (snd m)).

(** The loop over [r.iter_content(chunk_size)]: each chunk is written,
    and the bar is advanced by [chunk_size]. *)
Fixpoint download_loop (dw : DemoWorld) (dest : string) (chunk_size : Z)
  (chunks : list string) (stream_end : result unit) : DM unit :=
  match chunks with
  | [] => dlift stream_end
  | chunk :: rest =>
      dbind (dcall (FdWrite dest chunk) (d_fd_write dw dest chunk))
        (fun _ =>
           dbind (dcall (BarUpdate chunk_size) (Ret tt))
             (fun _ => download_loop dw dest chunk_size rest stream_end))
  end.

(** The download of lines 261-273, made when [dest] does not exist. *)
Definition download (dw : DemoWorld) (url dest : string) : DM unit :=
  dbind (dcall (RequestsGet url) (d_get dw url))
    (fun r =>
       dbind (dlift (content_length r))
         (fun length =>
            let chunk_size := 512%Z in
            dbind (dcall (OpenWrite dest) (d_open_write dw dest))
              (fun _ =>
                 dbind (dcall (ProgressBar length "Downloading sample file")
                          (Ret tt))
                   (fun _ =>
                      download_loop dw dest chunk_size (chunks r)
                        (stream_end r))))).

Definition demo (dw : DemoWorld) (w : World scalar)
  (sample work_dir server_url : string) : DM unit :=
  dbind (dlift (sample_url sample))
    (fun url =>
       let dest := os_path_join work_dir (Pathlib.name url) in
       dbind (dcall (PathExists dest) (Ret (d_exists dw dest)))
         (fun present =>
            dbind (if negb present then download dw url dest
                   else dlift (Ret tt))
              (fun _ =>
                 (* now load data *)
                 dbind (embed (_load float_repr round_float str_scalar w
                                 dest sample "points" work_dir server_url))
                   (fun _ =>
                      (* open tab to the API *)
                      dbind (dcall (TimerStart 1.5 server_url) (Ret tt))
                        (fun _ =>
                           (* run application *)
                           dcall (AppRun false) (d_app_run dw)))))).

(** The calls of the loop when every write succeeds. *)
Definition loop_events (dest : string) (chunk_size : Z)
  (chunks : list string) : list demo_event :=
  flat_map (fun chunk => [FdWrite dest chunk; BarUpdate chunk_size]) chunks.

(** What follows the load in [demo]: the timer of the browser tab, then
    the server, when the load has succeeded. *)
Definition outcome (dw : DemoWorld) (l : M scalar unit) : result unit :=
  match fst l with
  | Ret _ => d_app_run dw
  | Raise e => Raise e
  end.

Definition after_load (server_url : string) (l : M scalar unit)
  : list demo_event :=
  match fst l with
  | Ret _ => [TimerStart 1.5 server_url; AppRun false]
  | Raise _ => []
  end.

(** The chunks written to [dest], in order. *)
Definition written_to (dest : string) (t : list demo_event) : list string :=
  flat_map (fun ev =>
              match ev with
              | FdWrite p chunk => if String.eqb p dest then [chunk] else []
              | _ => []
              end) t.

(** The sum of the advances of the progress bar. *)
Definition bar_total (t : list demo_event) : Z :=
  fold_right (fun ev acc =>
                match ev with
                | BarUpdate n => (n + acc)%Z
                | _ => acc
                end) 0%Z t.

(** Calls that start the browser tab or the server. *)
Definition starts_server (ev : demo_event) : bool :=
  match ev with
  | TimerStart _ _ | AppRun _ => true
  | _ => false
  end.

(** Calls of the download. *)
Definition is_download (ev : demo_event) : bool :=
  match ev with
  | RequestsGet _ | OpenWrite _ | ProgressBar _ _ | FdWrite _ _
  | BarUpdate _ => true
  | _ => false
  end.

End Commands.

Arguments dlift {scalar A} r.
Arguments dcall {scalar A} ev answer.
Arguments PathExists {scalar} path.
Arguments RequestsGet {scalar} url.
Arguments OpenWrite {scalar} path.
Arguments ProgressBar {scalar} length label.
Arguments FdWrite {scalar} path chunk.
Arguments BarUpdate {scalar} n.
Arguments TimerStart {scalar} interval url.
Arguments AppRun {scalar} debug.

(* ===================================================================== *)
(** ** Further sample collaborators *)
(* ===================================================================== *)

Module Cases.

(** [Sample.world] with other answers of the summary tool, of the
    pipeline tool and of the opening of the definitions file. *)
Definition world (summary_tool : result string) (pipeline_tool : result unit)
  (definitions : result (list string)) : World Z := {|
  w_create_pointcloud_lopocs_table :=
    w_create_pointcloud_lopocs_table Sample.world;
  w_execute := w_execute Sample.world;
  w_update_metadata := w_update_metadata Sample.world;
  w_add_output_schema := w_add_output_schema Sample.world;
  w_session := w_session Sample.world;
  w_shlex_split := w_shlex_split Sample.world;
  w_check_output := fun _ => summary_tool;
  w_check_call := fun _ => pipeline_tool;
  w_json_summary := w_json_summary Sample.world;
  w_resolve := w_resolve Sample.world;
  w_open_read := fun _ => definitions;
  w_write_text := w_write_text Sample.world;
  w_write_bytes := w_write_bytes Sample.world;
  w_ImportFromProj4 := w_ImportFromProj4 Sample.world;
  w_greyhound_build := w_greyhound_build Sample.world;
  w_greyhound_write_in_cache := w_greyhound_write_in_cache Sample.world;
  w_threedtiles_build := w_threedtiles_build Sample.world;
  PG_NAME := PG_NAME Sample.world;
  PG_PORT := PG_PORT Sample.world;
  PG_USER := PG_USER Sample.world;
  PG_PASSWORD := PG_PASSWORD Sample.world;
  potree_schema := potree_schema Sample.world;
  unicode_lower := unicode_lower Sample.world;
  unicode_decimal := unicode_decimal Sample.world
|}.

Definition run (w : World Z) (table column : string) : M Z unit :=
  _load Sample.float_repr Sample.round_float PyStr.str_int w
    "data/sample.las" table column "work" "http://localhost:5000".

(** The answers of [Sample.world] to the sample run on table ["pts"], up
    to the call of the pipeline tool. *)
Definition prepared_answers : Prepared Z := {|
  p_wd := "/srv/work";
  p_argv_info := ["pdal"; "info"; "--summary"; "data/sample.las"];
  p_output := "{summary}";
  p_summary := Sample.summary;
  p_realfilename := "/srv/data/sample.las";
  p_schema := "public";
  p_tab := "pts";
  p_proj4 := "+proj=longlat +ellps=GRS80";
  p_srid := "4258";
  p_srid_calls := [OpenRead epsg_default];
  p_argv_pipeline := ["pdal"; "pipeline"; "/srv/work/sample_pts_pipeline.json"]
|}.

(** The answers of [Sample.world] to the sample run on table ["pts"]. *)
Definition answers : Answers Z := {|
  a_wd := "/srv/work";
  a_argv_info := ["pdal"; "info"; "--summary"; "data/sample.las"];
  a_output := "{summary}";
  a_summary := Sample.summary;
  a_realfilename := "/srv/data/sample.las";
  a_schema := "public";
  a_tab := "pts";
  a_proj4 := "+proj=longlat +ellps=GRS80";
  a_srid := "4258";
  a_srid_calls := [OpenRead epsg_default];
  a_argv_pipeline := ["pdal"; "pipeline"; "/srv/work/sample_pts_pipeline.json"];
  a_session := {| session_table := "public.pts";
                  session_column := "points";
                  session_boundingbox := (0, 0, 0, 10, 20, 5)%Z |};
  a_new_hcy := "greyhound";
  a_hcy := "tileset"
|}.

(** A server that sends three chunks, the last one short, and a disk
    that takes them. *)
Definition response : Response := {|
  content_length := Ret 1030%Z;
  chunks := ["first 512 bytes"; "next 512 bytes"; "last 6"];
  stream_end := Ret tt
|}.

(** The same server, with a connection that is reset after the second
    chunk. *)
Definition broken_response : Response := {|
  content_length := Ret 1030%Z;
  chunks := ["first 512 bytes"; "next 512 bytes"];
  stream_end := Raise (OtherError "ConnectionError")
|}.

Definition demo_world (present : bool) (r : Response) : DemoWorld := {|
  d_exists := fun _ => present;
  d_get := fun _ => Ret r;
  d_open_write := fun _ => Ret tt;
  d_fd_write := fun _ _ => Ret tt;
  d_app_run := Ret tt
|}.

(** A definitions file whose first line with the PROJ string is a
    comment. *)
Definition commented_lines : list string :=
  [ "# +proj=longlat +ellps=GRS80 +no_defs  is ETRS89";
    "<4258> +proj=longlat +ellps=GRS80 +no_defs  <>" ].

(** A definitions file whose code is written in Arabic-Indic digits
    (U+0664 U+0662 U+0665 U+0668, two bytes each). *)
Definition arabic_code : string :=
  String "217" (String "164" (String "217" (String "162"
    (String "217" (String "165" (String "217" (String "168" "")))))))%char.

Definition arabic_lines : list string :=
  [ "# ETRS89";
    "<" ++ arabic_code ++ "> +proj=longlat +ellps=GRS80 +no_defs  <>" ].

(** [Sample.world] for a tool whose output decodes to [summary]. *)
Definition world_of (summary : Summary) : World Z := {|
  w_create_pointcloud_lopocs_table :=
    w_create_pointcloud_lopocs_table Sample.world;
  w_execute := w_execute Sample.world;
  w_update_metadata := w_update_metadata Sample.world;
  w_add_output_schema := w_add_output_schema Sample.world;
  w_session := w_session Sample.world;
  w_shlex_split := w_shlex_split Sample.world;
  w_check_output := w_check_output Sample.world;
  w_check_call := w_check_call Sample.world;
  w_json_summary := fun _ => Ret summary;
  w_resolve := w_resolve Sample.world;
  w_open_read := w_open_read Sample.world;
  w_write_text := w_write_text Sample.world;
  w_write_bytes := w_write_bytes Sample.world;
  w_ImportFromProj4 := w_ImportFromProj4 Sample.world;
  w_greyhound_build := w_greyhound_build Sample.world;
  w_greyhound_write_in_cache := w_greyhound_write_in_cache Sample.world;
  w_threedtiles_build := w_threedtiles_build Sample.world;
  PG_NAME := PG_NAME Sample.world;
  PG_PORT := PG_PORT Sample.world;
  PG_USER := PG_USER Sample.world;
  PG_PASSWORD := PG_PASSWORD Sample.world;
  potree_schema := potree_schema Sample.world;
  unicode_lower := unicode_lower Sample.world;
  unicode_decimal := unicode_decimal Sample.world
|}.

(** The summary of a file without a spatial reference: no [proj4]. *)
Definition summary_without_proj4 : Summary := {|
  srs_isgeographic := false;
  srs_proj4 := None;
  bounds_X_min := FloatNumber 0; bounds_X_max := FloatNumber 10;
  bounds_Y_min := FloatNumber 0; bounds_Y_max := FloatNumber 20;
  bounds_Z_min := FloatNumber 0; bounds_Z_max := FloatNumber 5
|}.

(** The four stages of the sample run on table ["pts"]. *)
Definition sample_stages : list StageSpec :=
  [ ReadStage "las" "/srv/data/sample.las";
    ChipStage 400;
    ReorderStage;
    WriteStage "dbname=pc_db port=5432 user=lopocs password=secret"
      "public" "pts" "none" "4258" true "points"
      "1e-06" "1e-06" "0.01" "5.0" "10.0" "2.5" ].

(** A file whose name holds a double quote and line breaks (a backquote
    stands for the double quote, see [Format.text]). *)
Definition quoted_file : string := Format.text "x`
    },
    {
        `type`: `readers.las`,
        `filename`:`y.las".

(** The five stages that the description written for [quoted_file] is
    the JSON document of. *)
Definition five_stages : list StageSpec :=
  [ ReadStage "las" "/srv/x";
    ReadStage "las" "y.las";
    ChipStage 400;
    ReorderStage;
    WriteStage "dbname=pc_db port=5432 user=lopocs password=secret"
      "public" "pts" "none" "4258" true "points"
      "1e-06" "1e-06" "0.01" "5.0" "10.0" "2.5" ].

(** [shlex.split] on a command whose last word holds double quotes that
    pair up around all of its white space, as the two commands of the run
    on [quoted_file] do: the quotes are taken away and the word stays
    whole. *)
Fixpoint unquoted (s : string) : string :=
  match s with
  | EmptyString => EmptyString
  | String c r =>
      if Ascii.eqb c (ascii_of_nat 34) then unquoted r
      else String c (unquoted r)
  end.

Definition shlex_split (cmd : string) : result (list string) :=
  if String.eqb cmd ("pdal info --summary " ++ quoted_file)
  then Ret ["pdal"; "info"; "--summary"; unquoted quoted_file]
  else if String.eqb cmd
            ("pdal pipeline /srv/work/" ++ Pathlib.stem quoted_file ++
             "_pts_pipeline.json")
  then Ret ["pdal"; "pipeline";
            "/srv/work/" ++ unquoted (Pathlib.stem quoted_file) ++
            "_pts_pipeline.json"]
  else w_shlex_split Sample.world cmd.

(** [Sample.world] with these answers of [shlex.split]. *)
Definition world_quoted : World Z := {|
  w_create_pointcloud_lopocs_table :=
    w_create_pointcloud_lopocs_table Sample.world;
  w_execute := w_execute Sample.world;
  w_update_metadata := w_update_metadata Sample.world;
  w_add_output_schema := w_add_output_schema Sample.world;
  w_session := w_session Sample.world;
  w_shlex_split := shlex_split;
  w_check_output := w_check_output Sample.world;
  w_check_call := w_check_call Sample.world;
  w_json_summary := w_json_summary Sample.world;
  w_resolve := w_resolve Sample.world;
  w_open_read := w_open_read Sample.world;
  w_write_text := w_write_text Sample.world;
  w_write_bytes := w_write_bytes Sample.world;
  w_ImportFromProj4 := w_ImportFromProj4 Sample.world;
  w_greyhound_build := w_greyhound_build Sample.world;
  w_greyhound_write_in_cache := w_greyhound_write_in_cache Sample.world;
  w_threedtiles_build := w_threedtiles_build Sample.world;
  PG_NAME := PG_NAME Sample.world;
  PG_PORT := PG_PORT Sample.world;
  PG_USER := PG_USER Sample.world;
  PG_PASSWORD := PG_PASSWORD Sample.world;
  potree_schema := potree_schema Sample.world;
  unicode_lower := unicode_lower Sample.world;
  unicode_decimal := unicode_decimal Sample.world
|}.

Definition run_file (filename : string) : M Z unit :=
  _load Sample.float_repr Sample.round_float PyStr.str_int world_quoted
    filename "pts" "points" "work" "http://localhost:5000".

Definition demo_run (dw : DemoWorld) (w : World Z) (sample : string)
  : DM Z unit :=
  demo Sample.float_repr Sample.round_float PyStr.str_int dw w sample
    "work" "http://localhost:5000".

End Cases.

(* ===================================================================== *)
(** ** Facts about the string operations *)
(* ===================================================================== *)

Lemma append_nil_r (s : string) : s ++ "" = s.
Proof. induction s as [|a s IH]; simpl; [reflexivity | now rewrite IH]. Qed.

Lemma append_assoc (a b c : string) : (a ++ b) ++ c = a ++ (b ++ c).
Proof. induction a as [|x a IH]; simpl; [reflexivity | now rewrite IH]. Qed.

Lemma append_length (a b : string) :
  String.length (a ++ b) = String.length a + String.length b.
Proof. induction a as [|x a IH]; simpl; [reflexivity | now rewrite IH]. Qed.

Lemma append_inv_head (a x y : string) : a ++ x = a ++ y -> x = y.
Proof.
  induction a as [|c a IH]; simpl; intros H; [exact H|].
  injection H as H. now apply IH.
Qed.

Lemma append_inv_tail (b x y : string) : x ++ b = y ++ b -> x = y.
Proof.
  revert y. induction x as [|c x IH]; intros [|d y] H; simpl in H.
  - reflexivity.
  - apply (f_equal String.length) in H. simpl in H.
    rewrite append_length in H. lia.
  - apply (f_equal String.length) in H. simpl in H.
    rewrite append_length in H. lia.
  - injection H as -> H. f_equal. now apply IH.
Qed.

(** [startswith] and [contains] say what their names say. *)
Lemma startswith_spec (p s : string) :
  PyStr.startswith p s = true <-> exists r, s = p ++ r.
Proof.
  revert s. induction p as [|a p IH]; intros s; simpl.
  - split; [intros _; now exists s | reflexivity].
  - destruct s as [|b s].
    + split; [discriminate | intros [r H]; discriminate].
    + rewrite andb_true_iff, Ascii.eqb_eq, IH. split.
      * intros [-> [r ->]]. now exists r.
      * intros [r H]. injection H as -> ->. split; [reflexivity | now exists r].
Qed.

Lemma contains_spec (sub s : string) :
  PyStr.contains sub s = true <-> exists a b, s = a ++ sub ++ b.
Proof.
  induction s as [|c s IH].
  - simpl. destruct (PyStr.startswith sub "") eqn:E.
    + split; [intros _ | reflexivity].
      apply startswith_spec in E. destruct E as [r E]. now exists "", r.
    + split; [discriminate|]. intros [a [b H]].
      destruct a; [|discriminate]. simpl in H.
      assert (PyStr.startswith sub "" = true)
        by (apply startswith_spec; now exists b).
      congruence.
  - simpl. destruct (PyStr.startswith sub (String c s)) eqn:E.
    + split; [intros _ | reflexivity].
      apply startswith_spec in E. destruct E as [r E]. now exists "", r.
    + rewrite IH. split.
      * intros [a [b ->]]. now exists (String c a), b.
      * intros [a [b H]]. destruct a as [|d a]; simpl in H.
        -- assert (PyStr.startswith sub (String c s) = true)
             by (apply startswith_spec; now exists b).
           congruence.
        -- injection H as _ ->. now exists a, b.
Qed.

(** Counting separators: [c in s], and the number of fields of
    [s.split(c)]. *)
Lemma contains_char_count (c : ascii) (s : string) :
  PyStr.contains_char c s = false <-> PyStr.count_char c s = 0.
Proof.
  induction s as [|a s IH]; simpl; [tauto|].
  destruct (Ascii.eqb a c); simpl; [split; [discriminate | lia] | exact IH].
Qed.

Lemma split_length (c : ascii) (s : string) :
  List.length (PyStr.split c s) = S (PyStr.count_char c s).
Proof.
  induction s as [|a s IH]; simpl; [reflexivity|].
  destruct (Ascii.eqb a c); simpl; [now rewrite IH|].
  destruct (PyStr.split c s); simpl in *; [discriminate | exact IH].
Qed.

Lemma split_join (c : ascii) (s : string) :
  PyStr.join (String c "") (PyStr.split c s) = s.
Proof.
  induction s as [|a s IH]; simpl; [reflexivity|].
  destruct (Ascii.eqb a c) eqn:E.
  - apply Ascii.eqb_eq in E. subst a.
    pose proof (split_length c s) as L.
    destruct (PyStr.split c s) as [|f fs]; [discriminate|].
    simpl in *. now rewrite IH.
  - pose proof (split_length c s) as L.
    destruct (PyStr.split c s) as [|f fs]; [discriminate|].
    destruct fs; simpl in *; now rewrite <- IH.
Qed.

(** [str] on integers is one-to-one. *)
Lemma str_int_inj (x y : Z) : PyStr.str_int x = PyStr.str_int y -> x = y.
Proof.
  unfold PyStr.str_int. intros H.
  apply DecimalZ.to_int_inj.
  apply (f_equal NilZero.int_of_string) in H.
  rewrite !NilZero.isi in H.
  - congruence.
  - destruct y; simpl; try discriminate;
      intro E; injection E as E; now apply DecimalPos.Unsigned.to_uint_nonnil in E.
  - destruct y; simpl; try discriminate;
      intro E; injection E as E; now apply DecimalPos.Unsigned.to_uint_nonnil in E.
  - destruct x; simpl; try discriminate;
      intro E; injection E as E; now apply DecimalPos.Unsigned.to_uint_nonnil in E.
  - destruct x; simpl; try discriminate;
      intro E; injection E as E; now apply DecimalPos.Unsigned.to_uint_nonnil in E.
Qed.

(* ===================================================================== *)
(** ** The pattern [<(\d+)>] and the scan of the definitions file *)
(* ===================================================================== *)

(** A character is read off the front of a text, and the bytes after it
    do not count. *)
Lemma decode_spec (s : string) (cp : N) (bytes rest : string) :
  Utf8.decode s = Some (cp, bytes, rest) ->
  s = bytes ++ rest /\ bytes <> "" /\
  forall rest', Utf8.decode (bytes ++ rest') = Some (cp, bytes, rest').
Proof.
  unfold Utf8.decode. destruct s as [|a r]; [discriminate|].
  destruct (Utf8.lead_of a) eqn:L.
  - intros H. injection H as <- <- <-.
    split; [reflexivity|]. split; [discriminate|].
    intros rest'. simpl. now rewrite L.
  - destruct r as [|b r']; [discriminate|].
    destruct (Utf8.continuation b) eqn:Cb; [|discriminate].
    intros H. injection H as <- <- <-.
    split; [reflexivity|]. split; [discriminate|].
    intros rest'. simpl. now rewrite L, Cb.
  - destruct r as [|b [|c r']]; try discriminate.
    destruct (Utf8.continuation b) eqn:Cb; [|discriminate].
    destruct (Utf8.continuation c) eqn:Cc; [|discriminate].
    cbv zeta.
    destruct (2048 <=? bits * 4096 + n * 64 + n0)%N eqn:R; [|discriminate].
    intros H. injection H as <- <- <-.
    split; [reflexivity|]. split; [discriminate|].
    intros rest'. simpl. now rewrite L, Cb, Cc, R.
  - destruct r as [|b [|c [|d r']]]; try discriminate.
    destruct (Utf8.continuation b) eqn:Cb; [|discriminate].
    destruct (Utf8.continuation c) eqn:Cc; [|discriminate].
    destruct (Utf8.continuation d) eqn:Cd; [|discriminate].
    cbv zeta.
    destruct ((65536 <=? bits * 262144 + n * 4096 + n0 * 64 + n1)%N &&
              (bits * 262144 + n * 4096 + n0 * 64 + n1 <=? 1114111)%N) eqn:R;
      [|discriminate].
    intros H. injection H as <- <- <-.
    split; [reflexivity|]. split; [discriminate|].
    intros rest'. simpl. now rewrite L, Cb, Cc, Cd, R.
  - destruct r; discriminate.
Qed.

Section PatternFacts.

Variable decimal : N -> bool.

Lemma all_digits_upto_more (n m : nat) (s : string) :
  Re.all_digits_upto decimal n s = true -> n <= m ->
  Re.all_digits_upto decimal m s = true.
Proof.
  revert m s. induction n as [|n IH]; intros m s H L.
  - destruct s; [now destruct m | discriminate H].
  - destruct s as [|x s]; [now destruct m|].
    destruct m as [|m]; [lia|].
    cbn [Re.all_digits_upto] in *.
    destruct (Utf8.decode (String x s)) as [[[cp bytes] rest]|];
      [|discriminate H].
    apply andb_true_iff in H. destruct H as [Hd Hr].
    rewrite Hd. cbn [andb]. apply IH; [exact Hr | lia].
Qed.

(** A digit in front of a run of digits. *)
Lemma all_digits_cons (cp : N) (bytes rest : string) :
  (forall r, Utf8.decode (bytes ++ r) = Some (cp, bytes, r)) ->
  bytes <> "" ->
  Re.is_digit decimal cp = true ->
  Re.all_digits decimal rest = true ->
  Re.all_digits decimal (bytes ++ rest) = true.
Proof.
  intros D N Hd Hr. unfold Re.all_digits in *.
  destruct bytes as [|x b]; [now elim N|].
  specialize (D rest).
  change (String x b ++ rest) with (String x (b ++ rest)) in *.
  cbn [String.length Re.all_digits_upto]. rewrite D, Hd. cbn [andb].
  apply all_digits_upto_more with (n := String.length rest); [exact Hr|].
  rewrite append_length. lia.
Qed.

Lemma span_digits_upto_spec (n : nat) (s d r : string) :
  Re.span_digits_upto decimal n s = (d, r) ->
  s = d ++ r /\ Re.all_digits decimal d = true.
Proof.
  revert s d r. induction n as [|n IH]; intros s d r H.
  - injection H as <- <-. now split.
  - cbn [Re.span_digits_upto] in H.
    destruct (Utf8.decode s) as [[[cp bytes] rest]|] eqn:D.
    + destruct (Re.is_digit decimal cp) eqn:E.
      * destruct (Re.span_digits_upto decimal n rest) as [d' r'] eqn:S.
        injection H as <- <-.
        destruct (IH _ _ _ S) as [-> Hd].
        destruct (decode_spec _ D) as (-> & N & P).
        split; [now rewrite append_assoc|].
        now apply all_digits_cons with (cp := cp).
      * injection H as <- <-. now split.
    + injection H as <- <-. now split.
Qed.

Lemma span_digits_spec (s d r : string) :
  Re.span_digits decimal s = (d, r) ->
  s = d ++ r /\ Re.all_digits decimal d = true.
Proof. apply span_digits_upto_spec. Qed.

Lemma match_code_spec (s c : string) :
  Re.match_code decimal s = Some c ->
  exists b, s = "<" ++ c ++ ">" ++ b /\
            Re.all_digits decimal c = true /\ c <> "".
Proof.
  unfold Re.match_code. destruct s as [|x s]; [discriminate|].
  destruct (Ascii.eqb_spec x "<"%char) as [->|N].
  - destruct (Re.span_digits decimal s) as [d r] eqn:E.
    apply span_digits_spec in E. destruct E as [-> Hd].
    destruct d as [|a d]; [discriminate|].
    destruct r as [|y r]; [discriminate|].
    destruct (Ascii.eqb_spec y ">"%char) as [->|N].
    + intros H. injection H as <-. exists r. repeat split; [exact Hd | discriminate].
    + intros H. exfalso. revert H.
      destruct y as [[] [] [] [] [] [] [] []]; try discriminate.
      now elim N.
  - intros H. exfalso. revert H.
    destruct x as [[] [] [] [] [] [] [] []]; try discriminate.
    now elim N.
Qed.

(** What [search_code] returns is a non-empty run of digits that stands
    between angle brackets in the line. *)
Lemma search_code_spec (s c : string) :
  Re.search_code decimal s = Some c ->
  exists a b, s = a ++ "<" ++ c ++ ">" ++ b /\
              Re.all_digits decimal c = true /\ c <> "".
Proof.
  induction s as [|x s IH].
  - discriminate.
  - change (Re.search_code decimal (String x s))
      with (match Re.match_code decimal (String x s) with
            | Some d => Some d
            | None => Re.search_code decimal s
            end).
    destruct (Re.match_code decimal (String x s)) as [d|] eqn:E.
    + intros H. injection H as ->.
      apply match_code_spec in E. destruct E as [b [E Hd]].
      exists "", b. now split.
    + intros H. destruct (IH H) as [a [b [-> Hd]]].
      exists (String x a), b. now split.
Qed.

Lemma scan_epsg_no_line (p_out code : string) (lines : list string) :
  Forall (lacks p_out) lines -> scan_epsg decimal p_out lines code = code.
Proof.
  induction 1 as [|l ls Hl _ IH]; simpl; [reflexivity|].
  unfold lacks in Hl. now rewrite Hl.
Qed.

(** The codes that the scan can return are never empty. *)
Lemma scan_epsg_truthy (p_out code : string) (lines : list string) :
  PyStr.truthy code = true ->
  PyStr.truthy (scan_epsg decimal p_out lines code) = true.
Proof.
  intros Hc. induction lines as [|l ls IH]; simpl; [exact Hc|].
  destruct (PyStr.contains p_out l); [|exact IH].
  destruct (Re.search_code decimal l) as [c|] eqn:E; [|exact IH].
  apply search_code_spec in E. destruct E as [_ [_ [_ [_ N]]]].
  now destruct c.
Qed.

End PatternFacts.

(* ===================================================================== *)
(** ** The SRID resolver [proj42epsg] *)
(* ===================================================================== *)

(** C4.  When [ImportFromProj4] reports status 5 (invalid), the resolver
    returns the default SRID ["4326"] at once, as an ordinary value: no
    exception is raised and no file is opened, whatever the definitions
    file and the flag are; whatever follows the call goes on with
    ["4326"]. *)
Theorem proj42epsg_invalid_returns_default
  (scalar : Type) (w : World scalar) (proj4 epsg : string)
  (forceProj4 : bool) :
  fst (w_ImportFromProj4 w proj4) = 5%Z ->
  proj42epsg w proj4 epsg forceProj4 = (Ret "4326", []) /\
  forall (B : Type) (k : string -> M scalar B),
    bind (proj42epsg w proj4 epsg forceProj4) k = k "4326".
Proof.
  intros H.
  assert (E : proj42epsg w proj4 epsg forceProj4 = (Ret "4326", [])).
  { unfold proj42epsg.
    destruct (w_ImportFromProj4 w proj4) as [s p_in]. simpl in H. subst s.
    reflexivity. }
  split; [exact E|].
  intros B k. rewrite E. unfold bind. now destruct (k "4326").
Qed.

Lemma proj42epsg_invalid_returns_default_witness :
  fst (w_ImportFromProj4 Sample.world "not a projection") = 5%Z /\
  proj42epsg Sample.world "not a projection" epsg_default false
  = (Ret "4326", []).
Proof.
  split; [reflexivity|].
  apply (proj1 (@proj42epsg_invalid_returns_default Z Sample.world
                  "not a projection" epsg_default false eq_refl)).
Defined.

(** C6.  For a valid reference that is a local coordinate system the
    resolver returns the WKT text of the reference, unchanged, and makes
    no call. *)
Theorem proj42epsg_local_returns_wkt
  (scalar : Type) (w : World scalar) (proj4 epsg : string)
  (forceProj4 : bool) (s : Z) (p_in : SpatialReference) :
  w_ImportFromProj4 w proj4 = (s, p_in) ->
  s <> 5%Z ->
  IsLocal p_in = 1%Z ->
  proj42epsg w proj4 epsg forceProj4 = (Ret (ExportToWkt p_in), []).
Proof.
  intros Hi Hs Hl. unfold proj42epsg. rewrite Hi.
  apply Z.eqb_neq in Hs. rewrite Hs, Hl. reflexivity.
Qed.

Lemma proj42epsg_local_returns_wkt_witness :
  w_ImportFromProj4 Sample.world "+proj=local" = (0%Z, Sample.sr_local) /\
  0%Z <> 5%Z /\
  IsLocal Sample.sr_local = 1%Z /\
  proj42epsg Sample.world "+proj=local" epsg_default false
  = (Ret "LOCAL_CS[arbitrary,UNIT[metre,1]]", []).
Proof.
  split; [reflexivity|]. split; [discriminate|]. split; [reflexivity|].
  apply (@proj42epsg_local_returns_wkt Z Sample.world "+proj=local"
           epsg_default false 0%Z Sample.sr_local);
    [reflexivity | discriminate | reflexivity].
Defined.

(** C5.  For a valid, non-local reference that carries an authority name
    and an authority code in its category (GEOGCS when geographic, PROJCS
    otherwise) the resolver returns that code; the definitions file is not
    opened, so the answer does not depend on it. *)
Theorem proj42epsg_authority_code
  (scalar : Type) (w : World scalar) (proj4 epsg : string)
  (forceProj4 : bool) (s : Z) (p_in : SpatialReference)
  (name code : string) :
  w_ImportFromProj4 w proj4 = (s, p_in) ->
  s <> 5%Z ->
  IsLocal p_in <> 1%Z ->
  GetAuthorityName p_in (category p_in) = Some name ->
  GetAuthorityCode p_in (category p_in) = Some code ->
  proj42epsg w proj4 epsg forceProj4 = (Ret code, []).
Proof.
  intros Hi Hs Hl Hn Hc. unfold proj42epsg. rewrite Hi.
  apply Z.eqb_neq in Hs. apply Z.eqb_neq in Hl. rewrite Hs, Hl.
  unfold category in Hn, Hc. rewrite Hn, Hc. reflexivity.
Qed.

Lemma proj42epsg_authority_code_witness :
  w_ImportFromProj4 Sample.world "+init=epsg:2154"
  = (0%Z, Sample.sr_lambert93) /\
  0%Z <> 5%Z /\
  IsLocal Sample.sr_lambert93 <> 1%Z /\
  GetAuthorityName Sample.sr_lambert93 (category Sample.sr_lambert93)
  = Some "EPSG" /\
  GetAuthorityCode Sample.sr_lambert93 (category Sample.sr_lambert93)
  = Some "2154" /\
  proj42epsg Sample.world "+init=epsg:2154" epsg_default false
  = (Ret "2154", []).
Proof.
  split; [reflexivity|]. split; [discriminate|]. split; [discriminate|].
  split; [reflexivity|]. split; [reflexivity|].
  apply (@proj42epsg_authority_code Z Sample.world "+init=epsg:2154"
           epsg_default false 0%Z Sample.sr_lambert93 "EPSG" "2154");
    [reflexivity | discriminate | discriminate | reflexivity | reflexivity].
Defined.

(** The resolver once the authority path is ruled out. *)
Lemma proj42epsg_no_authority
  (scalar : Type) (w : World scalar) (proj4 epsg : string)
  (forceProj4 : bool) (s : Z) (p_in : SpatialReference) :
  w_ImportFromProj4 w proj4 = (s, p_in) ->
  s <> 5%Z ->
  IsLocal p_in <> 1%Z ->
  GetAuthorityName p_in (category p_in) = None \/
  GetAuthorityCode p_in (category p_in) = None ->
  proj42epsg w proj4 epsg forceProj4 =
  match ExportToProj4 p_in with
  | Some (String _ _ as p_out) =>
      if forceProj4 then (Ret p_out, [])
      else match w_open_read w epsg with
           | Ret lines =>
               (Ret (scan_epsg (unicode_decimal w) p_out lines "4326"),
                [OpenRead epsg])
           | Raise e => (Raise e, [OpenRead epsg])
           end
  | _ => (Ret "4326", [])
  end.
Proof.
  intros Hi Hs Hl Ha. unfold proj42epsg. rewrite Hi.
  apply Z.eqb_neq in Hs. apply Z.eqb_neq in Hl. rewrite Hs, Hl.
  unfold category in Ha.
  assert (E : forall (X : Type) (a b : X),
             match GetAuthorityName p_in
                     (if (IsGeographic p_in =? 1)%Z then GEOGCS else PROJCS),
                   GetAuthorityCode p_in
                     (if (IsGeographic p_in =? 1)%Z then GEOGCS else PROJCS)
             with
             | Some _, Some _ => a
             | _, _ => b
             end = b).
  { intros X a b. destruct Ha as [-> | ->]; [reflexivity|].
    now destruct (GetAuthorityName _ _). }
  rewrite E. clear E.
  destruct (ExportToProj4 p_in) as [[|c p]|]; try reflexivity.
  destruct forceProj4; [reflexivity|].
  unfold bind, call.
  destruct (w_open_read w epsg) as [lines|e]; [|reflexivity].
  assert (T : PyStr.truthy
                (scan_epsg (unicode_decimal w) (String c p) lines "4326")
              = true)
    by now apply scan_epsg_truthy.
  rewrite T. reflexivity.
Qed.

(** Lines that are passed over do not count. *)
Lemma scan_epsg_passes_over (decimal : N -> bool) (p_out code : string)
  (pre rest : list string) :
  Forall (passed_over decimal p_out) pre ->
  scan_epsg decimal p_out (pre ++ rest) code
  = scan_epsg decimal p_out rest code.
Proof.
  induction 1 as [|l ls Hl _ IH]; [reflexivity|].
  simpl. destruct Hl as [Hl|Hl].
  - unfold lacks in Hl. now rewrite Hl.
  - rewrite Hl. now destruct (PyStr.contains p_out l).
Qed.

(** Either some line holds [p_out] and carries a code, and there is a
    first one, or every line is passed over. *)
Lemma scan_epsg_cases (decimal : N -> bool) (p_out : string)
  (lines : list string) :
  (exists pre line post c,
     lines = (pre ++ line :: post)%list /\
     Forall (passed_over decimal p_out) pre /\
     PyStr.contains p_out line = true /\
     Re.search_code decimal line = Some c) \/
  Forall (passed_over decimal p_out) lines.
Proof.
  induction lines as [|l ls IH]; [right; constructor|].
  destruct (PyStr.contains p_out l) eqn:C.
  - destruct (Re.search_code decimal l) as [c|] eqn:S.
    + left. exists [], l, ls, c.
      split; [reflexivity|]. split; [constructor|]. now split.
    + destruct IH as [(pre & line & post & c & -> & P & Hc & Hs)|IH].
      * left. exists (l :: pre), line, post, c.
        split; [reflexivity|]. split; [|now split].
        constructor; [now right | exact P].
      * right. constructor; [now right | exact IH].
  - destruct IH as [(pre & line & post & c & -> & P & Hc & Hs)|IH].
    + left. exists (l :: pre), line, post, c.
      split; [reflexivity|]. split; [|now split].
      constructor; [now left | exact P].
    + right. constructor; [now left | exact IH].
Qed.

(** C3 (amended).  For a valid, non-local reference that lacks the
    authority name or the authority code of its category:
    - when the re-export to PROJ gives nothing, the resolver returns
      ["4326"];
    - when it gives a string [p_out] and [forceProj4] is set, the resolver
      returns [p_out] and does not open the definitions file;
    - otherwise it opens the file.  When the file cannot be opened, the
      exception of [open] goes through.  When it can, the lines are
      scanned in order, and a line that does not contain [p_out], or that
      contains it without a code between angle brackets, is passed over:
      the answer is the code of the first line that contains [p_out] and
      carries a code (a non-empty run of decimal digits that stands
      between angle brackets on that line), and ["4326"] when every line
      is passed over.  One of the two is the case for every file. *)
Theorem proj42epsg_brute_force
  (scalar : Type) (w : World scalar) (proj4 epsg : string)
  (forceProj4 : bool) (s : Z) (p_in : SpatialReference) :
  w_ImportFromProj4 w proj4 = (s, p_in) ->
  s <> 5%Z ->
  IsLocal p_in <> 1%Z ->
  GetAuthorityName p_in (category p_in) = None \/
  GetAuthorityCode p_in (category p_in) = None ->
  (ExportToProj4 p_in = None \/ ExportToProj4 p_in = Some "" ->
   proj42epsg w proj4 epsg forceProj4 = (Ret "4326", []))
  /\
  (forall p_out, ExportToProj4 p_in = Some p_out -> p_out <> "" ->
   (forceProj4 = true ->
    proj42epsg w proj4 epsg forceProj4 = (Ret p_out, []))
   /\
   (forceProj4 = false ->
    (forall e, w_open_read w epsg = Raise e ->
       proj42epsg w proj4 epsg forceProj4 = (Raise e, [OpenRead epsg]))
    /\
    (forall lines, w_open_read w epsg = Ret lines ->
     (forall pre line post c,
        lines = (pre ++ line :: post)%list ->
        Forall (passed_over (unicode_decimal w) p_out) pre ->
        PyStr.contains p_out line = true ->
        Re.search_code (unicode_decimal w) line = Some c ->
        proj42epsg w proj4 epsg forceProj4 = (Ret c, [OpenRead epsg]) /\
        exists a b, line = a ++ "<" ++ c ++ ">" ++ b /\
                    Re.all_digits (unicode_decimal w) c = true /\ c <> "")
     /\
     (Forall (passed_over (unicode_decimal w) p_out) lines ->
      proj42epsg w proj4 epsg forceProj4 = (Ret "4326", [OpenRead epsg]))
     /\
     ((exists pre line post c,
         lines = (pre ++ line :: post)%list /\
         Forall (passed_over (unicode_decimal w) p_out) pre /\
         PyStr.contains p_out line = true /\
         Re.search_code (unicode_decimal w) line = Some c) \/
      Forall (passed_over (unicode_decimal w) p_out) lines)))).
Proof.
  intros Hi Hs Hl Ha.
  rewrite (proj42epsg_no_authority w proj4 epsg forceProj4 Hi Hs Hl Ha).
  split.
  - intros [-> | ->]; reflexivity.
  - intros p_out -> Hp. destruct p_out as [|x p]; [now elim Hp|]. split.
    + intros ->. reflexivity.
    + intros ->. split.
      * intros e ->. reflexivity.
      * intros lines ->. split; [|split].
        -- intros pre line post c -> Hpre Hline Hc. split.
           ++ rewrite (scan_epsg_passes_over "4326" (line :: post) Hpre).
              simpl. now rewrite Hline, Hc.
           ++ now apply search_code_spec.
        -- intros Hno.
           pose proof (scan_epsg_passes_over "4326" [] Hno) as E.
           rewrite app_nil_r in E. now rewrite E.
        -- apply scan_epsg_cases.
Qed.

(* ===================================================================== *)
(** ** Running computations *)
(* ===================================================================== *)

Section Runs.

Variable scalar : Type.
Local Abbreviation M := (M scalar).

(** A [bind] that succeeds: both parts succeed, and the calls of the
    first come before the calls of the second. *)
Lemma bind_success (A B : Type) (m : M A) (k : A -> M B) (b : B) :
  fst (bind m k) = Ret b ->
  exists a, fst m = Ret a /\ fst (k a) = Ret b /\
            snd (bind m k) = (snd m ++ snd (k a))%list.
Proof.
  unfold bind. destruct m as [[a|e] t]; simpl.
  - destruct (k a) as [r t'] eqn:E. simpl. intros ->.
    exists a. rewrite E. now repeat split.
  - discriminate.
Qed.

(** The calls of a [bind] are those of its first part, followed, when
    it succeeds, by those of the second. *)
Lemma bind_calls (A B : Type) (m : M A) (k : A -> M B) (ev : event scalar) :
  In ev (snd (bind m k)) ->
  In ev (snd m) \/ exists a, fst m = Ret a /\ In ev (snd (k a)).
Proof.
  unfold bind. destruct m as [[a|e] t]; simpl.
  - destruct (k a) as [r t'] eqn:E. simpl. rewrite in_app_iff.
    intros [H|H]; [now left|]. right. exists a. rewrite E. now split.
  - now left.
Qed.

Lemma bind_failure (A B : Type) (m : M A) (k : A -> M B) (e : exn) :
  fst m = Raise e -> bind m k = (Raise e, snd m).
Proof. unfold bind. destruct m as [[a|e'] t]; simpl; congruence. Qed.

Lemma bind_step (A B : Type) (m : M A) (k : A -> M B) (a : A) :
  fst m = Ret a ->
  bind m k = (fst (k a), (snd m ++ snd (k a))%list).
Proof.
  unfold bind. destruct m as [[a'|e'] t]; simpl; [|discriminate].
  intros H. injection H as ->. now destruct (k a).
Qed.

Lemma try_fatal_success (A : Type) (m : M A) (a : A) :
  fst (try_fatal m) = Ret a -> fst m = Ret a /\ snd (try_fatal m) = snd m.
Proof.
  unfold try_fatal. destruct m as [[a'|[]] t]; simpl; try discriminate.
  intros H. now split.
Qed.

Lemma try_fatal_calls (A : Type) (m : M A) (ev : event scalar) :
  In ev (snd (try_fatal m)) ->
  In ev (snd m) \/ ev = Echo (Fatal CalledProcessError).
Proof.
  unfold try_fatal. destruct m as [[a'|[]] t]; simpl; auto.
  rewrite in_app_iff. simpl. intuition.
Qed.

End Runs.

Lemma json_path_name_format (basename table : string) :
  Format.format "{basename}_{table}_pipeline.json"
    [("basename", basename); ("table", table)]
  = Ret (basename ++ "_" ++ table ++ "_pipeline.json").
Proof. reflexivity. Qed.

Lemma json_pipeline_format (float_repr : float -> string) (scalar : Type)
  (w : World scalar) (table extension realfilename schema tab srid : string)
  (q : QuantizationParams) :
  Format.format json_pipeline_template
    (locals float_repr table extension realfilename schema tab srid w q)
  = Ret (Json.render_pipeline
           (pipeline_stages float_repr extension realfilename
              (connection (PG_NAME w) (PG_PORT w) (PG_USER w) (PG_PASSWORD w))
              schema tab srid q)).
Proof.
  unfold Json.render_pipeline, pipeline_stages, connection.
  cbn [map Json.render_stage Json.object Json.member Json.quoted
       Json.sep_by List.app Json.flatten fold_right].
  rewrite !append_assoc.
  reflexivity.
Qed.

Lemma sql_format (float_repr : float -> string) (scalar : Type)
  (w : World scalar) (table extension realfilename schema tab srid : string)
  (q : QuantizationParams) :
  Format.format sql_template
    (locals float_repr table extension realfilename schema tab srid w q)
  = Ret (sql_text table).
Proof. reflexivity. Qed.


Ltac bind_inv H x Hm Ht :=
  apply bind_success in H; destruct H as (x & Hm & H & Ht);
  cbv beta in H, Ht; cbn [fst] in Hm.

Lemma _load_success (float_repr : float -> string)
  (round_float : float -> Z -> float) (scalar : Type)
  (str_scalar : scalar -> string) (w : World scalar)
  (filename table column work_dir server_url : string) :
  fst (_load float_repr round_float str_scalar w filename table column
         work_dir server_url) = Ret tt ->
  exists a : Answers scalar,
    answers_hold float_repr round_float str_scalar w filename table column
      work_dir server_url a /\
    snd (_load float_repr round_float str_scalar w filename table column
           work_dir server_url)
    = success_trace float_repr round_float str_scalar w filename table
        column work_dir server_url a.
Proof.
  intros H. unfold _load, call, lift, pending, ok, echo in *.
  rewrite json_path_name_format in *.
  bind_inv H u1 H1 T1. clear H1.
  bind_inv H u2 H2 T2.
  bind_inv H u3 H3 T3. clear H3.
  bind_inv H u4 H4 T4. clear H4.
  bind_inv H wd H5 T5.
  bind_inv H name H6 T6. injection H6 as <-.
  bind_inv H output H7 T7.
  apply try_fatal_success in H7. destruct H7 as [H7 T7'].
  bind_inv H7 argv H8 T8.
  bind_inv H summary H9 T9.
  bind_inv H realfilename H10 T10.
  bind_inv H st H11 T11. destruct st as [schema tab].
  bind_inv H proj4 H12' T12'.
  assert (P4 : srs_proj4 summary = Some proj4).
  { unfold getitem in H12'. destruct (srs_proj4 summary) as [v|];
      [now injection H12' as -> | discriminate H12']. }
  bind_inv H srid H12 T12.
  rewrite json_pipeline_format in *.
  bind_inv H json_pipeline H13 T13. injection H13 as <-.
  bind_inv H u5 H14 T14.
  bind_inv H u6 H15 T15.
  apply try_fatal_success in H15. destruct H15 as [H15 T15'].
  bind_inv H15 argv2 H16 T16.
  bind_inv H u7 H17 T17. clear H17.
  bind_inv H u8 H18 T18. clear H18.
  rewrite sql_format in *.
  bind_inv H sql H19 T19. injection H19 as <-.
  bind_inv H u9 H20 T20.
  bind_inv H u10 H21 T21. clear H21.
  bind_inv H u11 H22 T22. clear H22.
  bind_inv H u12 H23 T23.
  bind_inv H u13 H24 T24.
  bind_inv H lpsession H25 T25.
  bind_inv H u14 H26 T26. clear H26.
  destruct lpsession as [stable scolumn [[[[[xmin ymin] zmin] xmax] ymax] zmax]] eqn:Es.
  cbn [session_boundingbox session_table session_column] in *.
  bind_inv H u15 H27 T27. clear H27.
  bind_inv H new_hcy H28 T28.
  bind_inv H u16 H29 T29.
  bind_inv H u17 H30 T30. clear H30.
  bind_inv H u18 H31 T31. clear H31.
  bind_inv H hcy H32 T32.
  bind_inv H wd' H33 T33.
  bind_inv H u19 H34 T34.
  destruct u2, u5, u6, u9, u12, u13, u16, u19.
  assert (wd' = wd) by congruence. subst wd'.
  exists (Build_Answers wd argv output summary realfilename schema tab proj4
            srid
            (snd (proj42epsg w proj4 epsg_default forceProj4_default))
            argv2 (Build_Session stable scolumn (xmin, ymin, zmin, xmax, ymax, zmax)) new_hcy hcy).
  split.
  - unfold answers_hold, json_path_of, json_pipeline_of, planned, cache_file_of,
      bbox_of, extension_of.
    cbn [a_wd a_argv_info a_output a_summary a_realfilename a_schema a_tab
         a_proj4 a_srid a_srid_calls a_argv_pipeline a_session a_new_hcy a_hcy
         session_boundingbox session_table session_column].
    repeat split; try assumption.
    + rewrite <- H12. apply surjective_pairing.
  - rewrite T1, T2, T3, T4, T5, T6, T7, T7', T8, T9, T10, T11, T12', T12, T13,
      T14,
      T15, T15', T16, T17, T18, T19, T20, T21, T22, T23, T24, T25, T26, T27,
      T28, T29, T30, T31, T32, T33, T34.
    unfold success_trace, calls_before_pipeline, calls_of_pipeline,
      calls_of_metadata, calls_of_hierarchies, json_path_of, json_pipeline_of,
      planned, cache_file_of, bbox_of, extension_of.
    cbn [a_wd a_argv_info a_output a_summary a_realfilename a_schema a_tab
         a_proj4 a_srid a_srid_calls a_argv_pipeline a_session a_new_hcy a_hcy
         session_boundingbox session_table session_column
         snd call lift pending ok echo List.app].

    reflexivity.
Qed.

(* ===================================================================== *)
(** ** Table names *)
(* ===================================================================== *)

Lemma split_no_separator (c : ascii) (s : string) :
  PyStr.count_char c s = 0 -> PyStr.split c s = [s].
Proof.
  induction s as [|a s IH]; simpl; [reflexivity|].
  destruct (Ascii.eqb a c); simpl; [discriminate|].
  intros H. now rewrite (IH H).
Qed.

Lemma split_one_separator (c : ascii) (s : string) :
  PyStr.count_char c s = 1 ->
  exists a b, PyStr.split c s = [a; b] /\ s = a ++ String c b.
Proof.
  intros H. pose proof (split_length c s) as L. pose proof (split_join c s) as J.
  rewrite H in L.
  destruct (PyStr.split c s) as [|a [|b [|x l]]]; try discriminate.
  exists a, b. split; [reflexivity|]. now rewrite <- J.
Qed.

Lemma split_table_public (table : string) :
  PyStr.count_char "." table = 0 ->
  split_table ("public." ++ table) = Ret ("public", table).
Proof.
  intros H. unfold split_table. simpl. now rewrite (split_no_separator _ _ H).
Qed.

Lemma split_table_many (table : string) :
  1 < PyStr.count_char "." table -> split_table table = Raise ValueError.
Proof.
  intros H. unfold split_table. pose proof (split_length "." table) as L.
  destruct (PyStr.split "." table) as [|a [|b [|x l]]]; simpl in L;
    try reflexivity; lia.
Qed.

Lemma normalize_table_unchanged (table : string) :
  0 < PyStr.count_char "." table -> normalize_table table = table.
Proof.
  intros H. unfold normalize_table.
  destruct (PyStr.contains_char "." table) eqn:E; [reflexivity|].
  apply contains_char_count in E. lia.
Qed.

Lemma normalize_table_prefixed (table : string) :
  PyStr.count_char "." table = 0 ->
  normalize_table table = "public." ++ table.
Proof.
  intros H. unfold normalize_table.
  apply contains_char_count in H. now rewrite H.
Qed.

(** The calls of [proj42epsg]: at most the opening of the definitions
    file. *)
Lemma proj42epsg_calls (scalar : Type) (w : World scalar)
  (proj4 epsg : string) (forceProj4 : bool) :
  snd (proj42epsg w proj4 epsg forceProj4) = [] \/
  snd (proj42epsg w proj4 epsg forceProj4) = [OpenRead epsg].
Proof.
  unfold proj42epsg. destruct (w_ImportFromProj4 w proj4) as [s p_in].
  destruct (s =? 5)%Z; [now left|].
  destruct (IsLocal p_in =? 1)%Z; [now left|].
  cbv zeta.
  destruct (GetAuthorityName p_in
              (if (IsGeographic p_in =? 1)%Z then GEOGCS else PROJCS)),
           (GetAuthorityCode p_in
              (if (IsGeographic p_in =? 1)%Z then GEOGCS else PROJCS));
    try (now left);
    (destruct (ExportToProj4 p_in) as [[|c p]|]; try (now left);
     destruct forceProj4; try (now left); right; unfold bind, call;
     destruct (w_open_read w epsg) as [lines|e]; [|reflexivity];
     now destruct (PyStr.truthy _)).
Qed.

(** *** A table name that does not unpack *)

Ltac calls_inv H x Hm :=
  apply bind_calls in H; destruct H as [H | (x & Hm & H)];
  [ cbn [snd In] in H | cbv beta in H; cbn [fst] in Hm ].

Ltac leaf H :=
  repeat (destruct H as [H|H]; [subst; reflexivity|]); now destruct H.

Lemma _load_calls_when_split_fails (float_repr : float -> string)
  (round_float : float -> Z -> float) (scalar : Type)
  (str_scalar : scalar -> string) (w : World scalar)
  (filename table column work_dir server_url : string) (e : exn) :
  split_table (normalize_table table) = Raise e ->
  Forall (fun ev => made_before_split ev = true)
    (snd (_load float_repr round_float str_scalar w filename table column
            work_dir server_url)).
Proof.
  intros Hs. apply Forall_forall. intros ev H.
  unfold _load, call, lift, pending, ok, echo in H.
  rewrite json_path_name_format, Hs in H.
  calls_inv H u1 H1; [leaf H|].
  calls_inv H u2 H2; [leaf H|].
  calls_inv H u3 H3; [leaf H|].
  calls_inv H u4 H4; [leaf H|].
  calls_inv H wd H5; [leaf H|].
  calls_inv H name H6; [leaf H|].
  calls_inv H output H7.
  { apply try_fatal_calls in H. destruct H as [H| ->]; [|reflexivity].
    calls_inv H argv H8; [leaf H|]. cbn [snd In] in H. leaf H. }
  calls_inv H summary H9; [leaf H|].
  calls_inv H realfilename H10; [leaf H|].
  calls_inv H st H11; [leaf H|].
  discriminate H11.
Qed.

Lemma _load_run_when_split_fails (float_repr : float -> string)
  (round_float : float -> Z -> float) (scalar : Type)
  (str_scalar : scalar -> string) (w : World scalar)
  (filename table column work_dir server_url : string) (e : exn)
  (wd : string) (argv : list string) (output : string) (summary : Summary)
  (realfilename : string) :
  w_create_pointcloud_lopocs_table w = Ret tt ->
  w_resolve w (Pathlib.str work_dir) = Ret wd ->
  w_shlex_split w ("pdal info --summary " ++ Pathlib.str filename) = Ret argv ->
  w_check_output w argv = Ret output ->
  w_json_summary w output = Ret summary ->
  w_resolve w (Pathlib.str filename) = Ret realfilename ->
  split_table (normalize_table table) = Raise e ->
  _load float_repr round_float str_scalar w filename table column work_dir
    server_url
  = (Raise e,
     [ Echo (Pending "Creating metadata table");
       CreatePointcloudLopocsTable;
       Echo Ok;
       Echo (Pending "Loading point clouds into database");
       PathResolve (Pathlib.str work_dir);
       CheckOutput argv;
       PathResolve (Pathlib.str filename) ]).
Proof.
  intros H1 H2 H3 H4 H5 H6 H7.
  unfold _load, call, lift, pending, ok, echo.
  rewrite json_path_name_format, H1, H2, H7.
  rewrite (@bind_step _ _ _ (Ret tt, _) _ tt eq_refl). cbn [fst snd].
  rewrite (@bind_step _ _ _ (Ret tt, _) _ tt eq_refl). cbn [fst snd].
  rewrite (@bind_step _ _ _ (Ret tt, _) _ tt eq_refl). cbn [fst snd].
  rewrite (@bind_step _ _ _ (Ret tt, _) _ tt eq_refl). cbn [fst snd].
  rewrite (@bind_step _ _ _ (Ret wd, _) _ wd eq_refl). cbn [fst snd].
  rewrite (@bind_step _ _ _ (Ret _, _) _ _ eq_refl). cbn [fst snd].
  rewrite H3.
  rewrite (@bind_step _ _ _ (Ret argv, _) _ argv eq_refl). cbn [fst snd].
  rewrite H4. cbn [try_fatal List.app].
  rewrite (@bind_step _ _ _ (Ret output, _) _ output eq_refl). cbn [fst snd].
  rewrite H5.
  rewrite (@bind_step _ _ _ (Ret summary, _) _ summary eq_refl). cbn [fst snd].
  rewrite H6.
  rewrite (@bind_step _ _ _ (Ret realfilename, _) _ realfilename eq_refl).
  cbn [fst snd].
  rewrite (@bind_failure _ _ _ (Raise e, _) _ e eq_refl).
  reflexivity.
Qed.

(* ===================================================================== *)
(** ** Properties of [_load] *)
(* ===================================================================== *)

Lemma in_success_trace_pipeline (float_repr : float -> string)
  (round_float : float -> Z -> float) (scalar : Type)
  (str_scalar : scalar -> string) (w : World scalar)
  (filename table column work_dir server_url : string) (a : Answers scalar)
  (ev : event scalar) :
  In ev (calls_of_pipeline float_repr round_float w filename table a) ->
  In ev (success_trace float_repr round_float str_scalar w filename table
           column work_dir server_url a).
Proof.
  intros H. unfold success_trace. rewrite !in_app_iff. auto.
Qed.

Lemma in_success_trace_metadata (float_repr : float -> string)
  (round_float : float -> Z -> float) (scalar : Type)
  (str_scalar : scalar -> string) (w : World scalar)
  (filename table column work_dir server_url : string) (a : Answers scalar)
  (ev : event scalar) :
  In ev (calls_of_metadata round_float w filename table column a) ->
  In ev (success_trace float_repr round_float str_scalar w filename table
           column work_dir server_url a).
Proof.
  intros H. unfold success_trace. rewrite !in_app_iff. auto.
Qed.

Lemma in_success_trace_hierarchies (float_repr : float -> string)
  (round_float : float -> Z -> float) (scalar : Type)
  (str_scalar : scalar -> string) (w : World scalar)
  (filename table column work_dir server_url : string) (a : Answers scalar)
  (ev : event scalar) :
  In ev (calls_of_hierarchies str_scalar table column work_dir server_url a) ->
  In ev (success_trace float_repr round_float str_scalar w filename table
           column work_dir server_url a).
Proof.
  intros H. unfold success_trace. rewrite !in_app_iff. auto.
Qed.

(** The only text file that a successful run writes is the pipeline
    description. *)
Lemma write_text_in_success_trace (float_repr : float -> string)
  (round_float : float -> Z -> float) (scalar : Type)
  (str_scalar : scalar -> string) (w : World scalar)
  (filename table column work_dir server_url : string) (a : Answers scalar)
  (path content : string) :
  answers_hold float_repr round_float str_scalar w filename table column
    work_dir server_url a ->
  In (WriteText path content)
     (success_trace float_repr round_float str_scalar w filename table
        column work_dir server_url a) ->
  path = json_path_of filename table a /\
  content = json_pipeline_of float_repr round_float w filename a.
Proof.
  intros Ha H.
  assert (Hsrid : a_srid_calls a = [] \/ a_srid_calls a = [OpenRead epsg_default]).
  { destruct Ha as (_ & _ & _ & _ & _ & _ & _ & _ & Hp & _).
    pose proof (proj42epsg_calls w (a_proj4 a) epsg_default
                  forceProj4_default) as C.
    rewrite Hp in C. exact C. }
  unfold success_trace, calls_before_pipeline, calls_of_pipeline,
    calls_of_metadata, calls_of_hierarchies in H.
  rewrite !in_app_iff in H. cbn [In] in H.
  destruct H as [[H|H]|[H|[H|H]]].
  - repeat (destruct H as [H|H]; [discriminate H|]). now destruct H.
  - destruct Hsrid as [E|E]; rewrite E in H; cbn [In] in H;
      repeat (destruct H as [H|H]; [discriminate H|]); now destruct H.
  - destruct H as [H|H]; [injection H as <- <-; now split|].
    repeat (destruct H as [H|H]; [discriminate H|]). now destruct H.
  - repeat (destruct H as [H|H]; [discriminate H|]). now destruct H.
  - repeat (destruct H as [H|H]; [discriminate H|]). now destruct H.
Qed.

(** *** The name of the cache file *)

(** Replacing one element of a list changes one field of its [join]. *)
Lemma join_replace_nth (A : Type) (str : A -> string) (sep : string)
  (l : list A) (i : nat) (e e' : A) :
  nth_error l i = Some e ->
  exists pre post,
    PyStr.join sep (map str l) = pre ++ str e ++ post /\
    PyStr.join sep (map str (replace_nth i e' l)) = pre ++ str e' ++ post.
Proof.
  revert i. induction l as [|x r IH]; intros i H.
  - destruct i; discriminate.
  - destruct i as [|i].
    + injection H as ->. destruct r as [|y r].
      * exists "", "". simpl. now rewrite !append_nil_r.
      * exists "", (sep ++ PyStr.join sep (map str (y :: r))). now split.
    + simpl in H. destruct (IH i H) as (pre & post & E1 & E2).
      destruct r as [|y r]; [destruct i; discriminate|].
      exists (str x ++ sep ++ pre), post.
      change (PyStr.join sep (map str (x :: y :: r)))
        with (str x ++ sep ++ PyStr.join sep (map str (y :: r))).
      rewrite E1.
      assert (R : replace_nth (S i) e' (x :: y :: r)
                  = x :: replace_nth i e' (y :: r)) by reflexivity.
      rewrite R. clear R.
      destruct (replace_nth i e' (y :: r)) as [|z r'] eqn:Er.
      { destruct i; discriminate. }
      change (PyStr.join sep (map str (x :: z :: r')))
        with (str x ++ sep ++ PyStr.join sep (map str (z :: r'))).
      rewrite E2. now rewrite !append_assoc.
Qed.

Lemma cache_file_replace_nth (scalar : Type) (str_scalar : scalar -> string)
  (tbl col : string) (lod_min lod_max : Z) (bbox : list scalar)
  (i : nat) (e e' : scalar) :
  nth_error bbox i = Some e ->
  cache_file str_scalar tbl col lod_min lod_max (replace_nth i e' bbox)
  = cache_file str_scalar tbl col lod_min lod_max bbox ->
  str_scalar e' = str_scalar e.
Proof.
  intros Hn H. unfold cache_file in H.
  destruct (@join_replace_nth _ str_scalar "_" bbox i e e' Hn)
    as (pre & post & E1 & E2).
  rewrite E1, E2 in H.
  do 8 apply append_inv_head in H.
  apply append_inv_tail in H. apply append_inv_head in H.
  now apply append_inv_tail in H.
Qed.

(* ===================================================================== *)
(** ** Reading a pipeline description back *)
(* ===================================================================== *)

Lemma flatten_app (a b : list string) :
  Json.flatten (a ++ b) = Json.flatten a ++ Json.flatten b.
Proof.
  induction a as [|x a IH]; [reflexivity|].
  simpl. now rewrite IH, append_assoc.
Qed.

(** A text without the character [c] ends where [c] first stands. *)
Lemma delimited (c : ascii) (a b x y : string) :
  PyStr.contains_char c a = false ->
  PyStr.contains_char c b = false ->
  a ++ String c x = b ++ String c y ->
  a = b /\ x = y.
Proof.
  revert b. induction a as [|u a IH]; intros [|v b] Ha Hb H; simpl in *.
  - injection H as ->. now split.
  - injection H as -> _. now rewrite Ascii.eqb_refl in Hb.
  - injection H as -> _. now rewrite Ascii.eqb_refl in Ha.
  - injection H as -> H.
    destruct (Ascii.eqb v c); [discriminate Ha|].
    destruct (IH b Ha Hb H) as [-> ->]. now split.
Qed.

Lemma plain_no_quote (s : string) :
  plain s = true -> PyStr.contains_char Format.dquote s = false.
Proof.
  induction s as [|a s IH]; [reflexivity|].
  simpl. intros H. apply andb_true_iff in H. destruct H as [Ha Hs].
  destruct (Ascii.eqb_spec a Format.dquote) as [->|N]; [discriminate Ha|].
  now apply IH.
Qed.

Lemma delimited_by_quote (a b x y : string) :
  plain a = true -> plain b = true ->
  a ++ String Format.dquote x = b ++ String Format.dquote y ->
  a = b /\ x = y.
Proof.
  intros Ha Hb. apply delimited; now apply plain_no_quote.
Qed.

Lemma plain_app (a b : string) :
  plain (a ++ b) = plain a && plain b.
Proof.
  induction a as [|x a IH]; [reflexivity|].
  simpl. now rewrite IH, andb_assoc.
Qed.

(** The decimal text of an integer is made of digits and a sign. *)
Lemma string_of_uint_no_newline (d : Decimal.uint) :
  PyStr.contains_char "010" (NilEmpty.string_of_uint d) = false.
Proof. induction d; simpl; assumption || reflexivity. Qed.

Lemma str_int_no_newline (z : Z) :
  PyStr.contains_char "010" (PyStr.str_int z) = false.
Proof.
  unfold PyStr.str_int, NilZero.string_of_int, NilZero.string_of_uint.
  destruct (Z.to_int z) as [d|d]; destruct d; simpl;
    try reflexivity; apply string_of_uint_no_newline.
Qed.

Lemma string_of_uint_plain (d : Decimal.uint) :
  plain (NilEmpty.string_of_uint d) = true.
Proof. induction d; simpl; assumption || reflexivity. Qed.

Lemma str_int_plain (z : Z) : plain (PyStr.str_int z) = true.
Proof.
  unfold PyStr.str_int, NilZero.string_of_int, NilZero.string_of_uint.
  destruct (Z.to_int z) as [d|d]; destruct d; simpl;
    try reflexivity; apply string_of_uint_plain.
Qed.

(** The text of one stage. *)
Local Abbreviation stage_text s := (Json.flatten (Json.render_stage s)).

Ltac spell H :=
  cbn [Json.render_stage Json.object Json.member Json.quoted Json.sep_by
       Json.bool_text List.app Json.flatten fold_right] in H;
  rewrite ?append_assoc in H;
  cbn [String.append Json.nl] in H.

Ltac peel H :=
  repeat (injection H as H);
  try (apply delimited_by_quote in H;
       [destruct H as [? H]; subst | assumption | assumption]).

(** The text of a stage tells where it ends, and which stage it is. *)
Lemma stage_prefix_free (s s' : StageSpec) (x y : string) :
  proper_stage s = true -> proper_stage s' = true ->
  stage_text s ++ x = stage_text s' ++ y ->
  s = s' /\ x = y.
Proof.
  intros P P' H.
  destruct s as [f file|c| |cn sc tb cp sr ow col sx sy sz ox oy oz];
    destruct s' as [f' file'|c'| |cn' sc' tb' cp' sr' ow' col' sx' sy' sz'
                                   ox' oy' oz'];
    spell H; try discriminate H.
  - cbn [proper_stage] in P, P'.
    apply andb_true_iff in P. destruct P as [Pf Pfile].
    apply andb_true_iff in P'. destruct P' as [Pf' Pfile'].
    do 2 peel H. injection H as H. now split.
  - repeat (injection H as H).
    apply delimited in H; try apply str_int_no_newline.
    destruct H as [E H]. apply str_int_inj in E. subst c'.
    repeat (injection H as H). now split.
  - repeat (injection H as H). now split.
  - cbn [proper_stage] in P, P'.
    repeat (apply andb_true_iff in P; destruct P as [P ?]).
    repeat (apply andb_true_iff in P'; destruct P' as [P' ?]).
    do 5 peel H.
    destruct ow, ow'; cbn [Json.bool_text String.append] in H;
      try discriminate H; do 7 peel H; injection H as H; now split.
Qed.

Lemma body_cons (s : StageSpec) (r : list StageSpec) :
  body (s :: r)
  = stage_text s ++
    match r with
    | [] => Json.flatten [Json.nl; "]"; Json.nl; "}"]
    | _ => "," ++ Json.nl ++ body r
    end.
Proof.
  unfold body. destruct r as [|s2 r]; [reflexivity|].
  change (Json.sep_by [","; Json.nl]
            (map Json.render_stage (s :: s2 :: r)))
    with (Json.render_stage s ++ [","; Json.nl] ++
          Json.sep_by [","; Json.nl] (map Json.render_stage (s2 :: r)))%list.
  rewrite !flatten_app, !append_assoc. reflexivity.
Qed.

Lemma stage_text_head (s : StageSpec) :
  exists t, stage_text s = String " " t.
Proof. destruct s; eexists; reflexivity. Qed.

Lemma body_injective (stages stages' : list StageSpec) :
  forallb proper_stage stages = true ->
  forallb proper_stage stages' = true ->
  body stages = body stages' ->
  stages = stages'.
Proof.
  revert stages'. induction stages as [|s r IH]; intros [|s' r'] P P' H.
  - reflexivity.
  - rewrite body_cons in H. destruct (stage_text_head s') as [t E].
    rewrite E in H. discriminate H.
  - rewrite body_cons in H. destruct (stage_text_head s) as [t E].
    rewrite E in H. discriminate H.
  - cbn [forallb] in P, P'.
    apply andb_true_iff in P. destruct P as [Ps Pr].
    apply andb_true_iff in P'. destruct P' as [Ps' Pr'].
    rewrite !body_cons in H.
    destruct (stage_prefix_free _ _ _ _ Ps Ps' H) as [<- K].
    f_equal. destruct r as [|s2 r], r' as [|s2' r'].
    + reflexivity.
    + discriminate K.
    + discriminate K.
    + apply IH; [exact Pr | exact Pr'|].
      cbn [String.append Json.nl] in K. now injection K as K.
Qed.

(** A description is the description of one list of proper stages at
    most. *)
Lemma render_pipeline_injective (stages stages' : list StageSpec) :
  forallb proper_stage stages = true ->
  forallb proper_stage stages' = true ->
  Json.render_pipeline stages = Json.render_pipeline stages' ->
  stages = stages'.
Proof.
  intros P P' H. apply body_injective; [exact P | exact P'|].
  unfold Json.render_pipeline in H. rewrite !flatten_app in H.
  unfold body. now do 3 apply append_inv_head in H.
Qed.

Lemma denotes_unique (text : string) (stages stages' : list StageSpec) :
  denotes text stages -> denotes text stages' -> stages = stages'.
Proof.
  intros [P ->] [P' E]. now apply render_pipeline_injective.
Qed.

Section LoadClaims.

Variable float_repr : float -> string.
Variable round_float : float -> Z -> float.
Variable scalar : Type.
Variable str_scalar : scalar -> string.
Variable w : World scalar.
Variables filename table column work_dir server_url : string.

Local Abbreviation run :=
  (_load float_repr round_float str_scalar w filename table column work_dir
     server_url).
Local Abbreviation holds :=
  (answers_hold float_repr round_float str_scalar w filename table column
     work_dir server_url).

(** C1 (amended).  A table name without a dot is prefixed with
    ["public."] and then unpacks into the schema ["public"] and the name;
    a table name with exactly one dot is used as it is and unpacks into
    its two fields.  A table name with more than one dot is left as it is
    and does not unpack: the run never succeeds, and makes no call beyond
    those that precede the unpacking (no pipeline is written or executed,
    no statement or metadata reaches the database); when the calls that
    precede the unpacking succeed, the run ends with the [ValueError] of
    the unpacking, after the metadata table was created and the summary
    tool was run. *)
Theorem load_table_normalization :
  (PyStr.count_char "." table = 0 ->
   normalize_table table = "public." ++ table /\
   split_table (normalize_table table) = Ret ("public", table))
  /\
  (PyStr.count_char "." table = 1 ->
   normalize_table table = table /\
   exists schema tab,
     split_table (normalize_table table) = Ret (schema, tab) /\
     table = schema ++ "." ++ tab)
  /\
  (1 < PyStr.count_char "." table ->
   normalize_table table = table /\
   split_table (normalize_table table) = Raise ValueError /\
   fst run <> Ret tt /\
   Forall (fun ev => made_before_split ev = true) (snd run) /\
   forall wd argv output summary realfilename,
     w_create_pointcloud_lopocs_table w = Ret tt ->
     w_resolve w (Pathlib.str work_dir) = Ret wd ->
     w_shlex_split w ("pdal info --summary " ++ Pathlib.str filename)
     = Ret argv ->
     w_check_output w argv = Ret output ->
     w_json_summary w output = Ret summary ->
     w_resolve w (Pathlib.str filename) = Ret realfilename ->
     run = (Raise ValueError,
            [ Echo (Pending "Creating metadata table");
              CreatePointcloudLopocsTable;
              Echo Ok;
              Echo (Pending "Loading point clouds into database");
              PathResolve (Pathlib.str work_dir);
              CheckOutput argv;
              PathResolve (Pathlib.str filename) ])).
Proof.
  split; [|split].
  - intros H. rewrite (normalize_table_prefixed _ H).
    split; [reflexivity | now apply split_table_public].
  - intros H. assert (P : 0 < PyStr.count_char "." table) by lia.
    rewrite (normalize_table_unchanged _ P). split; [reflexivity|].
    destruct (split_one_separator _ _ H) as (schema & tab & E & ->).
    exists schema, tab. unfold split_table. rewrite E. now split.
  - intros H. assert (P : 0 < PyStr.count_char "." table) by lia.
    pose proof (split_table_many _ H) as S.
    rewrite (normalize_table_unchanged _ P).
    split; [reflexivity|]. split; [exact S|].
    rewrite <- (normalize_table_unchanged _ P) in S.
    split; [|split].
    + intros Hr. destruct (_load_success _ _ _ _ _ _ _ _ _ Hr) as (a & Ha & _).
      destruct Ha as (_ & _ & _ & _ & _ & _ & Hs & _). congruence.
    + now apply _load_calls_when_split_fails with (e := ValueError).
    + intros wd argv output summary realfilename H1 H2 H3 H4 H5 H6.
      now apply _load_run_when_split_fails with (wd := wd) (output := output)
        (summary := summary) (realfilename := realfilename).
Qed.

(** C8.  The scales of the output-schema record are [0.01] on the three
    axes whatever the ingestion quantisation is (geographic, projected or
    the [e57] override), and its offsets are those of the ingestion.  In a
    run that reaches its end, the pipeline tool is called, and later the
    two metadata records are persisted one after the other: first
    [update_metadata] with the normalised table, the column, the SRID and
    the quantisation planned from the summary, then [add_output_schema]
    with the same table, column, SRID and offsets, the potree schema, and
    the scale [0.01] on the three axes. *)
Theorem load_persists_two_metadata_records :
  (forall summary extension,
     let q := quantization round_float summary extension in
     output_schema_params q
     = Build_QuantizationParams (PyFloat 0.01) (PyFloat 0.01) (PyFloat 0.01)
         (offset_x q) (offset_y q) (offset_z q))
  /\
  (fst run = Ret tt ->
  exists (a : Answers scalar) (pre post : list (event scalar)),
    holds a /\
    let q := quantization round_float (a_summary a) (extension_of w filename) in
    let q' := output_schema_params q in
    snd run =
      (pre ++
       [ UpdateMetadata (normalize_table table) column (a_srid a) q;
         AddOutputSchema (normalize_table table) column q' (a_srid a)
           (potree_schema w) ] ++ post)%list /\
    In (CheckCall (a_argv_pipeline a)) pre /\
    scale_x q' = PyFloat 0.01 /\ scale_y q' = PyFloat 0.01 /\
    scale_z q' = PyFloat 0.01 /\
    offset_x q' = offset_x q /\ offset_y q' = offset_y q /\
    offset_z q' = offset_z q).
Proof.
  split; [reflexivity|].
  intros H. destruct (_load_success _ _ _ _ _ _ _ _ _ H) as (a & Ha & Ht).
  exists a,
    (calls_before_pipeline filename work_dir a ++
     calls_of_pipeline float_repr round_float w filename table a)%list,
    (calls_of_hierarchies str_scalar table column work_dir server_url a).
  split; [exact Ha|]. cbv zeta. split; [|split].
  - rewrite Ht. unfold success_trace. now rewrite app_assoc.
  - rewrite in_app_iff. right. unfold calls_of_pipeline. cbn [In]. auto.
  - repeat split.
Qed.


(** C7 (amended).  Whatever the values of the variables are, the
    pipeline description is the text of four stages, in the order read,
    chip, reorder, write: the reader of the format of the file, the
    chipper with capacity 400, [revertmorton], and the writer with the
    connection, schema, table, compression [none], the SRID, overwrite
    [true], the column ["points"] and the three scales and the three
    offsets, each an integer in decimal or the [str] of a float.  Values
    are placed between the quotes as they are.  When every text of the
    four stages is plain (no double quote, backslash or control
    character), the description is the JSON document of these four
    stages and of no other list of stages.  In a run that reaches its end
    this description is written to the pipeline file, and the pipeline
    tool is called next. *)
Theorem pipeline_assembly :
  (forall tbl extension realfilename schema tab srid q,
     let text (n : pynum) : string :=
       match n with
       | PyInt z => PyStr.str_int z
       | PyFloat f => float_repr f
       end in
     let stages :=
       [ ReadStage extension realfilename;
         ChipStage 400;
         ReorderStage;
         WriteStage
           ("dbname=" ++ PG_NAME w ++ " port=" ++ PG_PORT w ++ " user=" ++
            PG_USER w ++ " password=" ++ PG_PASSWORD w)
           schema tab "none" srid true "points"
           (text (scale_x q)) (text (scale_y q)) (text (scale_z q))
           (text (offset_x q)) (text (offset_y q)) (text (offset_z q)) ] in
     Format.format json_pipeline_template
       (locals float_repr tbl extension realfilename schema tab srid w q)
     = Ret (Json.render_pipeline stages) /\
     List.length stages = 4 /\
     map stage_kind stages = [KRead; KChip; KReorder; KWrite] /\
     (forallb proper_stage stages = true ->
      denotes (Json.render_pipeline stages) stages /\
      forall stages',
        denotes (Json.render_pipeline stages) stages' -> stages' = stages))
  /\
  (fst run = Ret tt ->
   exists (a : Answers scalar) (pre post : list (event scalar)),
     holds a /\
     snd run =
       (pre ++
        [ WriteText (json_path_of filename table a)
            (Json.render_pipeline
               (pipeline_stages float_repr (extension_of w filename)
                  (a_realfilename a)
                  (connection (PG_NAME w) (PG_PORT w) (PG_USER w)
                     (PG_PASSWORD w))
                  (a_schema a) (a_tab a) (a_srid a)
                  (planned round_float w filename a)));
          CheckCall (a_argv_pipeline a) ] ++ post)%list).
Proof.
  split.
  - intros tbl extension realfilename schema tab srid q. cbv zeta.
    split; [apply json_pipeline_format|].
    split; [reflexivity|]. split; [reflexivity|].
    intros P. split; [now split|].
    intros stages' D. symmetry.
    apply denotes_unique with (1 := conj P eq_refl) (2 := D).
  - intros H. destruct (_load_success _ _ _ _ _ _ _ _ _ H) as (a & Ha & Ht).
    exists a, (calls_before_pipeline filename work_dir a),
      ([ Echo Ok;
         Echo (Pending "Creating indexes");
         SessionExecute (sql_text (normalize_table table));
         Echo Ok;
         Echo (Pending "Adding metadata for lopocs") ] ++
       calls_of_metadata round_float w filename table column a ++
       calls_of_hierarchies str_scalar table column work_dir server_url a)%list.
    split; [exact Ha|]. rewrite Ht. reflexivity.
Qed.

(** C10.  Whatever the values of the variables are, the pipeline
    description is the rendering of stages that name ["points"] as the
    only destination column: the column argument is not among the values
    that the description is built from.  In a run that reaches its end,
    the description that is written is of this kind, while both metadata
    records are persisted under the column argument; for a column
    argument other than ["points"], the records name a column that no
    write stage targets. *)
Theorem load_write_stage_ignores_column :
  (forall tbl extension realfilename schema tab srid q,
     let stages :=
       pipeline_stages float_repr extension realfilename
         (connection (PG_NAME w) (PG_PORT w) (PG_USER w) (PG_PASSWORD w))
         schema tab srid q in
     Format.format json_pipeline_template
       (locals float_repr tbl extension realfilename schema tab srid w q)
     = Ret (Json.render_pipeline stages) /\
     destination_columns stages = ["points"])
  /\
  (fst run = Ret tt ->
  exists (a : Answers scalar) (stages : list StageSpec),
    holds a /\
    stages =
      pipeline_stages float_repr (extension_of w filename) (a_realfilename a)
        (connection (PG_NAME w) (PG_PORT w) (PG_USER w) (PG_PASSWORD w))
        (a_schema a) (a_tab a) (a_srid a) (planned round_float w filename a) /\
    In (WriteText (json_path_of filename table a)
          (Json.render_pipeline stages)) (snd run) /\
    (forall path content,
       In (WriteText path content) (snd run) ->
       content = Json.render_pipeline stages) /\
    destination_columns stages = ["points"] /\
    In (UpdateMetadata (normalize_table table) column (a_srid a)
          (planned round_float w filename a)) (snd run) /\
    In (AddOutputSchema (normalize_table table) column
          (output_schema_params (planned round_float w filename a))
          (a_srid a) (potree_schema w)) (snd run) /\
    (column <> "points" -> ~ In column (destination_columns stages))).
Proof.
  split.
  { intros tbl extension realfilename schema tab srid q. cbv zeta.
    split; [apply json_pipeline_format | reflexivity]. }
  intros H. destruct (_load_success _ _ _ _ _ _ _ _ _ H) as (a & Ha & Ht).
  exists a. eexists. split; [exact Ha|]. split; [reflexivity|].
  rewrite Ht. repeat split.
  - apply in_success_trace_pipeline. unfold calls_of_pipeline. cbn [In].
    now left.
  - intros path content Hin.
    now destruct (write_text_in_success_trace Ha Hin) as [_ ->].
  - apply in_success_trace_metadata. unfold calls_of_metadata. cbn [In].
    now left.
  - apply in_success_trace_metadata. unfold calls_of_metadata. cbn [In].
    right. now left.
  - intros N [E|[]]. now apply N.
Qed.

(** C9.  The name of the cache file is a function of the table, the
    column, the two bounds of the level of detail and the six scalars of
    the bounding box: equal inputs give equal names.  When [str] tells the
    scalars apart, replacing any one scalar of the bounding box by a
    different one changes the name.  In a run that reaches its end, the
    name under which the hierarchy is cached is the one derived from the
    table and column of the session, the bounds 0 and 5, and the six
    scalars of the bounding box of the session. *)
Theorem cache_file_derivation :
  (forall tbl col lod_min lod_max bbox tbl' col' lod_min' lod_max' bbox',
     tbl = tbl' -> col = col' -> lod_min = lod_min' -> lod_max = lod_max' ->
     bbox = bbox' ->
     cache_file str_scalar tbl col lod_min lod_max bbox
     = cache_file str_scalar tbl' col' lod_min' lod_max' bbox')
  /\
  ((forall x y, str_scalar x = str_scalar y -> x = y) ->
   forall tbl col lod_min lod_max bbox i e e',
     nth_error bbox i = Some e ->
     e' <> e ->
     cache_file str_scalar tbl col lod_min lod_max (replace_nth i e' bbox)
     <> cache_file str_scalar tbl col lod_min lod_max bbox)
  /\
  (fst run = Ret tt ->
   exists a : Answers scalar,
     holds a /\
     List.length (bbox_of (a_session a)) = 6 /\
     In (GreyhoundWriteInCache (a_new_hcy a)
           (cache_file str_scalar (session_table (a_session a))
              (session_column (a_session a)) 0 5 (bbox_of (a_session a))))
        (snd run)).
Proof.
  split; [|split].
  - intros. now subst.
  - intros Inj tbl col lod_min lod_max bbox i e e' Hn Hne H.
    apply Hne, Inj. exact (@cache_file_replace_nth _ str_scalar tbl col lod_min lod_max bbox
             i e e' Hn H).
  - intros H. destruct (_load_success _ _ _ _ _ _ _ _ _ H) as (a & Ha & Ht).
    exists a. split; [exact Ha|]. split.
    + unfold bbox_of.
      now destruct (session_boundingbox (a_session a))
        as [[[[[xmin ymin] zmin] xmax] ymax] zmax].
    + rewrite Ht. apply in_success_trace_hierarchies.
      unfold calls_of_hierarchies. cbn [In]. do 4 right. now left.
Qed.

End LoadClaims.

(* ===================================================================== *)
(** ** The properties on the sample collaborators *)
(* ===================================================================== *)

Lemma sample_run_succeeds : fst (Sample.run "pts" "points") = Ret tt.
Proof. vm_compute. reflexivity. Qed.

(** The sample file, table ["pts"]: scales and offsets of a geographic
    file with bounds X[0,10] Y[0,20] Z[0,5]. *)
Example sample_quantization :
  quantization Sample.round_float Sample.summary "las"
  = Build_QuantizationParams (PyFloat 1e-6) (PyFloat 1e-6) (PyFloat 1e-2)
      (PyFloat 5) (PyFloat 10) (PyFloat 2.5).
Proof. vm_compute. reflexivity. Qed.

(** [round(x, 2)] on floats that have more than two decimals, that have
    none, and that are not finite. *)
Example sample_round :
  map (fun x => Builtins.round x 2)
    [0.125; 2.675; 0.135; 1.005; 123456.785; -0.001; 5; 1e22; infinity]%float
  = [0.12; 2.67; 0.14; 1; 123456.79; -0; 5; 1e22; infinity]%float.
Proof. vm_compute. reflexivity. Qed.

(** The pipeline description written for the sample file (a backquote
    stands for a double quote). *)
Example sample_pipeline_text :
  In (WriteText "/srv/work/sample_pts_pipeline.json"
        (Format.text "
{
`pipeline`: [
    {
        `type`: `readers.las`,
        `filename`:`/srv/data/sample.las`
    },
    {
        `type`: `filters.chipper`,
        `capacity`:400
    },
    {
        `type`: `filters.revertmorton`
    },
    {
        `type`:`writers.pgpointcloud`,
        `connection`:`dbname=pc_db port=5432 user=lopocs password=secret`,
        `schema`: `public`,
        `table`:`pts`,
        `compression`:`none`,
        `srid`:`4258`,
        `overwrite`:`true`,
        `column`: `points`,
        `scale_x`: `1e-06`,
        `scale_y`: `1e-06`,
        `scale_z`: `0.01`,
        `offset_x`: `5.0`,
        `offset_y`: `10.0`,
        `offset_z`: `2.5`
    }
]
}"))
     (snd (Sample.run "pts" "points")).
Proof. vm_compute. do 8 right. left. reflexivity. Qed.

(** The statements sent to the database for the sample file. *)
Example sample_sql_text :
  In (SessionExecute "
        create index on public.pts using gist(geometry(points));
        alter table public.pts add column morton bigint;
        select Morton_Update('public.pts', 'points', 'morton', 64, TRUE);
        create index on public.pts(morton);
    ")
     (snd (Sample.run "pts" "points")).
Proof. vm_compute. do 12 right. left. reflexivity. Qed.

(** The name of the cache file of the sample run. *)
Example sample_cache_file :
  In (GreyhoundWriteInCache "greyhound"
        "public.pts_points_0_5_0_0_0_10_20_5.hcy")
     (snd (Sample.run "pts" "points")).
Proof. vm_compute. do 21 right. left. reflexivity. Qed.

Lemma load_table_normalization_witness :
  (PyStr.count_char "." "foo" = 0 /\
   normalize_table "foo" = "public.foo") /\
  (PyStr.count_char "." "myschema.foo" = 1 /\
   normalize_table "myschema.foo" = "myschema.foo") /\
  (1 < PyStr.count_char "." "a.b.c" /\
   fst (Sample.run "a.b.c" "points") <> Ret tt /\
   Forall (fun ev => made_before_split ev = true)
     (snd (Sample.run "a.b.c" "points"))).
Proof.
  assert (H0 : PyStr.count_char "." "foo" = 0) by reflexivity.
  assert (H1 : PyStr.count_char "." "myschema.foo" = 1) by reflexivity.
  assert (H2 : 1 < PyStr.count_char "." "a.b.c") by (simpl; lia).
  split; [|split].
  - split; [exact H0|].
    exact (proj1 (proj1 (load_table_normalization Sample.float_repr
                           Sample.round_float PyStr.str_int Sample.world
                           "data/sample.las" "foo" "points" "work"
                           "http://localhost:5000") H0)).
  - split; [exact H1|].
    exact (proj1 (proj1 (proj2 (load_table_normalization Sample.float_repr
                                  Sample.round_float PyStr.str_int
                                  Sample.world "data/sample.las"
                                  "myschema.foo" "points" "work"
                                  "http://localhost:5000")) H1)).
  - split; [exact H2|].
    destruct (proj2 (proj2 (load_table_normalization Sample.float_repr
                              Sample.round_float PyStr.str_int Sample.world
                              "data/sample.las" "a.b.c" "points" "work"
                              "http://localhost:5000")) H2)
      as (_ & _ & A & B & _).
    split; [exact A | exact B].
Defined.

(** C1, as first stated, fails on the table ["a.b.c"]: the run ends with
    a [ValueError], and only after the metadata table was created and the
    summary tool was run. *)
Lemma load_rejects_table_late_counterexample :
  1 < PyStr.count_char "." "a.b.c" /\
  fst (Sample.run "a.b.c" "points") = Raise ValueError /\
  In CreatePointcloudLopocsTable (snd (Sample.run "a.b.c" "points")) /\
  In (CheckOutput ["pdal"; "info"; "--summary"; "data/sample.las"])
     (snd (Sample.run "a.b.c" "points")) /\
  ~ rejected_before_any_call (Sample.run "a.b.c" "points").
Proof.
  assert (E : Sample.run "a.b.c" "points"
              = (Raise ValueError,
                 [ Echo (Pending "Creating metadata table");
                   CreatePointcloudLopocsTable;
                   Echo Ok;
                   Echo (Pending "Loading point clouds into database");
                   PathResolve "work";
                   CheckOutput ["pdal"; "info"; "--summary"; "data/sample.las"];
                   PathResolve "data/sample.las" ]))
    by (vm_compute; reflexivity).
  rewrite E. cbn [fst snd]. split; [simpl; lia|]. split; [reflexivity|].
  split; [cbn [In]; auto|]. split; [cbn [In]; auto 7|].
  intros [_ F]. inversion F as [|? ? _ F']. inversion F' as [|? ? C _].
  discriminate C.
Qed.


Lemma proj42epsg_brute_force_witness :
  w_ImportFromProj4 Sample.world "+proj=longlat +ellps=GRS80"
  = (0%Z, Sample.sr_etrs89) /\
  0%Z <> 5%Z /\
  IsLocal Sample.sr_etrs89 <> 1%Z /\
  GetAuthorityName Sample.sr_etrs89 (category Sample.sr_etrs89) = None /\
  ExportToProj4 Sample.sr_etrs89
  = Some "+proj=longlat +ellps=GRS80 +no_defs " /\
  proj42epsg Sample.world "+proj=longlat +ellps=GRS80" epsg_default true
  = (Ret "+proj=longlat +ellps=GRS80 +no_defs ", []) /\
  proj42epsg Sample.world "+proj=longlat +ellps=GRS80" epsg_default false
  = (Ret "4258", [OpenRead epsg_default]) /\
  proj42epsg
    (Cases.world (Ret "{summary}") (Ret tt) (Ret Cases.commented_lines))
    "+proj=longlat +ellps=GRS80" epsg_default false
  = (Ret "4258", [OpenRead epsg_default]) /\
  proj42epsg
    (Cases.world (Ret "{summary}") (Ret tt) (Ret Cases.arabic_lines))
    "+proj=longlat +ellps=GRS80" epsg_default false
  = (Ret Cases.arabic_code, [OpenRead epsg_default]) /\
  proj42epsg
    (Cases.world (Ret "{summary}") (Ret tt) (Ret ["# ETRS89"]))
    "+proj=longlat +ellps=GRS80" epsg_default false
  = (Ret "4326", [OpenRead epsg_default]) /\
  proj42epsg
    (Cases.world (Ret "{summary}") (Ret tt)
       (Raise (OtherError "FileNotFoundError")))
    "+proj=longlat +ellps=GRS80" epsg_default false
  = (Raise (OtherError "FileNotFoundError"), [OpenRead epsg_default]).
Proof.
  assert (N5 : 0%Z <> 5%Z) by discriminate.
  assert (N1 : IsLocal Sample.sr_etrs89 <> 1%Z) by discriminate.
  assert (P : "+proj=longlat +ellps=GRS80 +no_defs " <> "") by discriminate.
  pose proof (fun w I force =>
                proj2 (@proj42epsg_brute_force Z w
                         "+proj=longlat +ellps=GRS80" epsg_default force 0%Z
                         Sample.sr_etrs89 I N5 N1 (or_introl eq_refl))
                  "+proj=longlat +ellps=GRS80 +no_defs " eq_refl P) as B.
  do 5 (split; [first [assumption | reflexivity]|]).
  split; [|split; [|split; [|split; [|split]]]].
  - exact (proj1 (B Sample.world eq_refl true) eq_refl).
  - refine (proj1 (proj1 (proj2 (proj2 (B Sample.world eq_refl false) eq_refl)
                            Sample.epsg_lines eq_refl)
                     ["# ETRS89"]
                     "<4258> +proj=longlat +ellps=GRS80 +no_defs  <>"
                     ["<4937> +proj=longlat +ellps=GRS80 +no_defs  <>"]
                     "4258" eq_refl _ eq_refl eq_refl)).
    constructor; [left; reflexivity | constructor].
  - refine (proj1 (proj1 (proj2 (proj2 (B (Cases.world (Ret "{summary}")
                                             (Ret tt)
                                             (Ret Cases.commented_lines))
                                          eq_refl false) eq_refl)
                            Cases.commented_lines eq_refl)
                     ["# +proj=longlat +ellps=GRS80 +no_defs  is ETRS89"]
                     "<4258> +proj=longlat +ellps=GRS80 +no_defs  <>"
                     [] "4258" eq_refl _ eq_refl eq_refl)).
    constructor; [right; reflexivity | constructor].
  - refine (proj1 (proj1 (proj2 (proj2 (B (Cases.world (Ret "{summary}")
                                             (Ret tt)
                                             (Ret Cases.arabic_lines))
                                          eq_refl false) eq_refl)
                            Cases.arabic_lines eq_refl)
                     ["# ETRS89"]
                     ("<" ++ Cases.arabic_code ++
                      "> +proj=longlat +ellps=GRS80 +no_defs  <>")
                     [] Cases.arabic_code eq_refl _ eq_refl eq_refl)).
    constructor; [left; reflexivity | constructor].
  - refine (proj1 (proj2 (proj2 (proj2 (B (Cases.world (Ret "{summary}")
                                             (Ret tt) (Ret ["# ETRS89"]))
                                          eq_refl false) eq_refl)
                            ["# ETRS89"] eq_refl)) _).
    constructor; [left; reflexivity | constructor].
  - exact (proj1 (proj2 (B (Cases.world (Ret "{summary}") (Ret tt)
                              (Raise (OtherError "FileNotFoundError")))
                           eq_refl false) eq_refl)
             (OtherError "FileNotFoundError") eq_refl).
Defined.

Lemma contains_char_after (c : ascii) (a b : string) :
  PyStr.contains_char c (a ++ String c b) = true.
Proof.
  induction a as [|x a IH]; simpl.
  - now rewrite Ascii.eqb_refl.
  - now destruct (Ascii.eqb x c).
Qed.

(** C3, as first stated, fails on a definitions file whose first line
    with the PROJ string is a comment: the resolver returns ["4258"],
    which does not stand on that line.  It fails too when the file
    cannot be opened: no line matches, and the resolver returns
    nothing. *)
Lemma proj42epsg_brute_force_counterexample :
  ExportToProj4 Sample.sr_etrs89
  = Some "+proj=longlat +ellps=GRS80 +no_defs " /\
  w_open_read
    (Cases.world (Ret "{summary}") (Ret tt) (Ret Cases.commented_lines))
    epsg_default
  = Ret [ "# +proj=longlat +ellps=GRS80 +no_defs  is ETRS89";
          "<4258> +proj=longlat +ellps=GRS80 +no_defs  <>" ] /\
  PyStr.contains "+proj=longlat +ellps=GRS80 +no_defs "
    "# +proj=longlat +ellps=GRS80 +no_defs  is ETRS89" = true /\
  proj42epsg
    (Cases.world (Ret "{summary}") (Ret tt) (Ret Cases.commented_lines))
    "+proj=longlat +ellps=GRS80" epsg_default false
  = (Ret "4258", [OpenRead epsg_default]) /\
  ~ (exists a b,
       "# +proj=longlat +ellps=GRS80 +no_defs  is ETRS89"
       = a ++ "<" ++ "4258" ++ ">" ++ b) /\
  proj42epsg
    (Cases.world (Ret "{summary}") (Ret tt)
       (Raise (OtherError "FileNotFoundError")))
    "+proj=longlat +ellps=GRS80" epsg_default false
  = (Raise (OtherError "FileNotFoundError"), [OpenRead epsg_default]) /\
  fst (proj42epsg
         (Cases.world (Ret "{summary}") (Ret tt)
            (Raise (OtherError "FileNotFoundError")))
         "+proj=longlat +ellps=GRS80" epsg_default false)
  <> Ret "4326".
Proof.
  do 4 (split; [reflexivity|]). split; [|split; [reflexivity|discriminate]].
  intros (a & b & E).
  apply (f_equal (PyStr.contains_char "<")) in E.
  change (a ++ "<" ++ "4258" ++ ">" ++ b)
    with (a ++ String "<" ("4258" ++ ">" ++ b)) in E.
  rewrite contains_char_after in E. discriminate E.
Qed.

Lemma pipeline_assembly_witness :
  forallb proper_stage Cases.sample_stages = true /\
  Format.format json_pipeline_template
    (locals Sample.float_repr "public.pts" "las" "/srv/data/sample.las"
       "public" "pts" "4258" Sample.world
       (quantization Sample.round_float Sample.summary "las"))
  = Ret (Json.render_pipeline Cases.sample_stages) /\
  (forall stages',
     denotes (Json.render_pipeline Cases.sample_stages) stages' ->
     stages' = Cases.sample_stages) /\
  fst (Sample.run "pts" "points") = Ret tt /\
  exists (a : Answers Z) (pre post : list (event Z)),
    snd (Sample.run "pts" "points") =
      (pre ++
       [ WriteText (json_path_of "data/sample.las" "pts" a)
           (Json.render_pipeline
              (pipeline_stages Sample.float_repr "las" (a_realfilename a)
                 "dbname=pc_db port=5432 user=lopocs password=secret"
                 (a_schema a) (a_tab a) (a_srid a)
                 (planned Sample.round_float Sample.world "data/sample.las"
                    a)));
         CheckCall (a_argv_pipeline a) ] ++ post)%list.
Proof.
  assert (P : forallb proper_stage Cases.sample_stages = true)
    by reflexivity.
  pose proof (pipeline_assembly Sample.float_repr Sample.round_float
                PyStr.str_int Sample.world "data/sample.las" "pts"
                "points" "work" "http://localhost:5000") as [A R].
  specialize (A "public.pts" "las" "/srv/data/sample.las" "public" "pts"
                "4258" (quantization Sample.round_float Sample.summary "las")).
  cbv zeta in A. destruct A as (F & _ & _ & U).
  split; [exact P|]. split; [exact F|]. split; [exact (proj2 (U P))|].
  split; [exact sample_run_succeeds|].
  destruct (R sample_run_succeeds) as (a & pre & post & _ & Ht).
  exists a, pre, post. exact Ht.
Defined.

(** C7, as first stated, fails on a file whose name holds a double
    quote: the description that is written is the JSON document of five
    stages, and of no list of four. *)
Lemma pipeline_assembly_counterexample :
  fst (Cases.run_file Cases.quoted_file) = Ret tt /\
  (exists path,
     In (WriteText path (Json.render_pipeline Cases.five_stages))
        (snd (Cases.run_file Cases.quoted_file))) /\
  denotes (Json.render_pipeline Cases.five_stages) Cases.five_stages /\
  map stage_kind Cases.five_stages = [KRead; KRead; KChip; KReorder; KWrite] /\
  ~ (exists stages,
       List.length stages = 4 /\
       denotes (Json.render_pipeline Cases.five_stages) stages).
Proof.
  assert (D : denotes (Json.render_pipeline Cases.five_stages)
                Cases.five_stages) by (split; reflexivity).
  split; [vm_compute; reflexivity|]. split.
  { eexists. vm_compute. do 8 right. left. reflexivity. }
  split; [exact D|]. split; [reflexivity|].
  intros (stages & L & D').
  rewrite (denotes_unique D' D) in L. discriminate L.
Qed.

Lemma load_persists_two_metadata_records_witness :
  fst (Sample.run "pts" "points") = Ret tt /\
  exists (a : Answers Z) (pre post : list (event Z)),
    let q := quantization Sample.round_float (a_summary a) "las" in
    snd (Sample.run "pts" "points") =
      (pre ++
       [ UpdateMetadata "public.pts" "points" (a_srid a) q;
         AddOutputSchema "public.pts" "points" (output_schema_params q)
           (a_srid a) "potree" ] ++ post)%list /\
    In (CheckCall (a_argv_pipeline a)) pre.
Proof.
  split; [exact sample_run_succeeds|].
  destruct (proj2 (load_persists_two_metadata_records Sample.float_repr
                     Sample.round_float PyStr.str_int Sample.world
                     "data/sample.las" "pts" "points" "work"
                     "http://localhost:5000") sample_run_succeeds)
    as (a & pre & post & _ & Ht & Hc & _).
  exists a, pre, post. split; [exact Ht | exact Hc].
Defined.

Lemma cache_file_derivation_witness :
  (forall x y, PyStr.str_int x = PyStr.str_int y -> x = y) /\
  nth_error [0; 0; 0; 10; 20; 5]%Z 3 = Some 10%Z /\
  11%Z <> 10%Z /\
  cache_file PyStr.str_int "public.pts" "points" 0 5
    (replace_nth 3 11%Z [0; 0; 0; 10; 20; 5]%Z)
  <> cache_file PyStr.str_int "public.pts" "points" 0 5
       [0; 0; 0; 10; 20; 5]%Z /\
  fst (Sample.run "pts" "points") = Ret tt /\
  exists a : Answers Z,
    In (GreyhoundWriteInCache (a_new_hcy a)
          (cache_file PyStr.str_int (session_table (a_session a))
             (session_column (a_session a)) 0 5 (bbox_of (a_session a))))
       (snd (Sample.run "pts" "points")).
Proof.
  pose proof (cache_file_derivation Sample.float_repr Sample.round_float
                PyStr.str_int Sample.world "data/sample.las" "pts" "points"
                "work" "http://localhost:5000") as (_ & S & R).
  assert (N : 11%Z <> 10%Z) by discriminate.
  split; [exact str_int_inj|]. split; [reflexivity|]. split; [exact N|].
  split.
  - exact (S str_int_inj "public.pts" "points" 0%Z 5%Z
             [0; 0; 0; 10; 20; 5]%Z 3 10%Z 11%Z eq_refl N).
  - split; [exact sample_run_succeeds|].
    destruct (R sample_run_succeeds) as (a & _ & _ & Hin).
    exists a. exact Hin.
Defined.

Lemma load_write_stage_ignores_column_witness :
  fst (Sample.run "pts" "patches") = Ret tt /\
  "patches" <> "points" /\
  exists (a : Answers Z) (stages : list StageSpec),
    In (WriteText (json_path_of "data/sample.las" "pts" a)
          (Json.render_pipeline stages)) (snd (Sample.run "pts" "patches")) /\
    destination_columns stages = ["points"] /\
    In (UpdateMetadata "public.pts" "patches" (a_srid a)
          (planned Sample.round_float Sample.world "data/sample.las" a))
       (snd (Sample.run "pts" "patches")) /\
    ~ In "patches" (destination_columns stages).
Proof.
  assert (H : fst (Sample.run "pts" "patches") = Ret tt)
    by (vm_compute; reflexivity).
  assert (N : "patches" <> "points") by discriminate.
  split; [exact H|]. split; [exact N|].
  destruct (proj2 (load_write_stage_ignores_column Sample.float_repr
                     Sample.round_float PyStr.str_int Sample.world
                     "data/sample.las" "pts" "patches" "work"
                     "http://localhost:5000") H)
    as (a & stages & _ & _ & Hw & _ & Hd & Hu & _ & Hn).
  exists a, stages. repeat split; [exact Hw | exact Hd | exact Hu | exact (Hn N)].
Defined.

(* ===================================================================== *)
(** ** When [_load] succeeds, and how it stops *)
(* ===================================================================== *)

Ltac run_ok := rewrite (@bind_step _ _ _ (Ret _, _) _ _ eq_refl); cbn [fst snd].

Lemma _load_complete (float_repr : float -> string)
  (round_float : float -> Z -> float) (scalar : Type)
  (str_scalar : scalar -> string) (w : World scalar)
  (filename table column work_dir server_url : string) (a : Answers scalar) :
  answers_hold float_repr round_float str_scalar w filename table column
    work_dir server_url a ->
  _load float_repr round_float str_scalar w filename table column work_dir
    server_url
  = (Ret tt,
     success_trace float_repr round_float str_scalar w filename table column
       work_dir server_url a).
Proof.
  unfold answers_hold, json_path_of, json_pipeline_of, planned, cache_file_of,
    extension_of. cbv zeta.
  intros (H1 & H2 & H3 & H4 & H5 & H6 & H7 & H8' & H8 & H9 & H10 & H11 & H12
          & H13 & H14 & H15 & H16 & H17 & H18 & H19).
  unfold _load, call, lift, pending, ok, echo.
  rewrite json_path_name_format, H1, H2.
  do 6 run_ok.
  rewrite H3. run_ok. rewrite H4. cbn [try_fatal List.app]. run_ok.
  rewrite H5. run_ok. rewrite H6. run_ok. rewrite H7. run_ok.
  rewrite H8'. cbn [getitem]. run_ok.
  rewrite H8. run_ok.
  rewrite json_pipeline_format. run_ok. rewrite H9. run_ok.
  rewrite H10. run_ok. rewrite H11. cbn [try_fatal List.app]. run_ok.
  do 2 run_ok.
  rewrite sql_format. run_ok. rewrite H12. run_ok.
  do 2 run_ok.
  rewrite H13. run_ok. rewrite H14. run_ok. rewrite H15. run_ok.
  run_ok.
  unfold success_trace, calls_before_pipeline, calls_of_pipeline,
    calls_of_metadata, calls_of_hierarchies, json_path_of, json_pipeline_of,
    planned, cache_file_of, extension_of.
  unfold bbox_of in *.
  destruct (session_boundingbox (a_session a))
    as [[[[[xmin ymin] zmin] xmax] ymax] zmax].
  run_ok. rewrite H16. run_ok. rewrite H17. run_ok.
  do 2 run_ok.
  rewrite H18. run_ok. run_ok. rewrite H19. run_ok.
  reflexivity.
Qed.

Section LoadOutcomes.

Variable float_repr : float -> string.
Variable round_float : float -> Z -> float.
Variable scalar : Type.
Variable str_scalar : scalar -> string.
Variable w : World scalar.
Variables filename table column work_dir server_url : string.

Local Abbreviation run :=
  (_load float_repr round_float str_scalar w filename table column work_dir
     server_url).
Local Abbreviation holds :=
  (answers_hold float_repr round_float str_scalar w filename table column
     work_dir server_url).

(** X1.  [_load] reaches its end exactly when every collaborator that it
    calls answers without an exception and the normalised table name
    unpacks into two fields; it then makes exactly the calls of
    [success_trace], in that order. *)
Theorem load_succeeds_exactly_when_all_answer :
  (fst run = Ret tt <-> exists a : Answers scalar, holds a) /\
  (forall a : Answers scalar,
     holds a ->
     run = (Ret tt,
            success_trace float_repr round_float str_scalar w filename table
              column work_dir server_url a)).
Proof.
  split.
  - split.
    + intros H. destruct (_load_success _ _ _ _ _ _ _ _ _ H) as (a & Ha & _).
      now exists a.
    + intros (a & Ha). now rewrite (_load_complete Ha).
  - intros a Ha. exact (_load_complete Ha).
Qed.

(** X2.  When the summary tool exits with a non-zero status
    ([CalledProcessError]), the run prints the error and ends with exit
    status 1; the last call outside the process is that of the tool, and
    nothing is resolved, written or sent to the database after it.  Any
    other exception of that call goes through unchanged, without the
    FATAL line. *)
Theorem load_summary_tool_failure (wd : string) (argv : list string)
  (e : exn) :
  w_create_pointcloud_lopocs_table w = Ret tt ->
  w_resolve w (Pathlib.str work_dir) = Ret wd ->
  w_shlex_split w ("pdal info --summary " ++ Pathlib.str filename)
  = Ret argv ->
  w_check_output w argv = Raise e ->
  let calls :=
    [ Echo (Pending "Creating metadata table");
      CreatePointcloudLopocsTable;
      Echo Ok;
      Echo (Pending "Loading point clouds into database");
      PathResolve (Pathlib.str work_dir);
      CheckOutput argv ] in
  (e = CalledProcessError ->
   run = (Raise (SystemExit 1),
          (calls ++ [Echo (Fatal CalledProcessError)])%list)) /\
  (e <> CalledProcessError -> run = (Raise e, calls)).
Proof.
  intros H1 H2 H3 H4. cbv zeta.
  split.
  - intros ->.
    unfold _load, call, lift, pending, ok, echo.
    rewrite json_path_name_format, H1, H2.
    do 6 run_ok.
    rewrite H3. run_ok. rewrite H4. cbn [try_fatal fatal List.app].
    rewrite (@bind_failure _ _ _ (Raise (SystemExit 1), _) _ _ eq_refl).
    reflexivity.
  - intros N.
    unfold _load, call, lift, pending, ok, echo.
    rewrite json_path_name_format, H1, H2.
    do 6 run_ok.
    rewrite H3. run_ok. rewrite H4.
    destruct e; try (now elim N); cbn [try_fatal List.app];
      rewrite (@bind_failure _ _ _ (Raise _, _) _ _ eq_refl); reflexivity.
Qed.

(** X3.  When the pipeline tool exits with a non-zero status, the run
    prints the error and ends with exit status 1: the pipeline
    description has been written and stays, and no statement, metadata
    record or hierarchy call follows the call of the tool.  Any other
    exception of that call goes through unchanged. *)
Theorem load_pipeline_tool_failure (p : Prepared scalar) (e : exn) :
  prepared float_repr round_float w filename table work_dir p ->
  w_check_call w (p_argv_pipeline p) = Raise e ->
  let calls :=
    calls_until_pipeline_tool float_repr round_float w filename table
      work_dir p in
  (e = CalledProcessError ->
   run = (Raise (SystemExit 1),
          (calls ++ [Echo (Fatal CalledProcessError)])%list)) /\
  (e <> CalledProcessError -> run = (Raise e, calls)) /\
  Forall (fun ev => after_pipeline ev = false) (snd run).
Proof.
  unfold prepared, calls_until_pipeline_tool, p_json_path, p_json_pipeline,
    p_planned, extension_of.
  intros (H1 & H2 & H3 & H4 & H5 & H6 & H7 & H8' & H8 & H9 & H10) H11.
  cbv zeta.
  assert (S : p_srid_calls p = [] \/ p_srid_calls p = [OpenRead epsg_default]).
  { pose proof (proj42epsg_calls w (p_proj4 p) epsg_default
                  forceProj4_default) as C.
    rewrite H8 in C. exact C. }
  assert (E : run =
              (fst (@try_fatal scalar unit
                      (Raise e, [CheckCall (p_argv_pipeline p)])),
               ([ Echo (Pending "Creating metadata table");
                  CreatePointcloudLopocsTable;
                  Echo Ok;
                  Echo (Pending "Loading point clouds into database");
                  PathResolve (Pathlib.str work_dir);
                  CheckOutput (p_argv_info p);
                  PathResolve (Pathlib.str filename) ] ++
                p_srid_calls p ++
                WriteText
                  (os_path_join (p_wd p)
                     (Pathlib.stem filename ++ "_" ++ table ++
                      "_pipeline.json"))
                  (Json.render_pipeline
                     (pipeline_stages float_repr (extension_of w filename)
                        (p_realfilename p)
                        (connection (PG_NAME w) (PG_PORT w) (PG_USER w)
                           (PG_PASSWORD w))
                        (p_schema p) (p_tab p) (p_srid p)
                        (quantization round_float (p_summary p)
                           (extension_of w filename))))
                :: snd (@try_fatal scalar unit
                          (Raise e, [CheckCall (p_argv_pipeline p)])))%list)).
  { unfold _load, call, lift, pending, ok, echo.
    rewrite json_path_name_format, H1, H2.
    do 6 run_ok.
    rewrite H3. run_ok. rewrite H4. cbn [try_fatal List.app]. run_ok.
    rewrite H5. run_ok. rewrite H6. run_ok. rewrite H7. run_ok.
    rewrite H8'. cbn [getitem]. run_ok.
    rewrite H8. run_ok.
    rewrite json_pipeline_format. run_ok. rewrite H9. run_ok.
    rewrite H10. run_ok. rewrite H11.
    destruct e; cbn [try_fatal fatal List.app fst snd];
      rewrite (@bind_failure _ _ _ (Raise _, _) _ _ eq_refl);
      reflexivity. }
  rewrite E. clear E. split; [|split].
  - intros ->. cbn [try_fatal fatal fst snd List.app].
    now rewrite <- !app_assoc.
  - intros N. destruct e; try (now elim N); reflexivity.
  - cbn [snd].
    destruct S as [-> | ->]; destruct e;
      cbn [try_fatal fatal snd List.app]; repeat constructor.
Qed.

Ltac early H Hafter :=
  repeat (destruct H as [H|H]; [subst; discriminate Hafter|]);
  now destruct H.

Ltac late H A L :=
  repeat (destruct H as [H|H];
          [subst; first [discriminate A
                        | apply L; [exact A | cbn; now repeat split]]|]);
  now destruct H.

(** A call that follows the pipeline tool, in any run. *)
Lemma _load_late_call (ev : event scalar) :
  In ev (snd run) ->
  after_pipeline ev = true ->
  exists p : Prepared scalar,
    prepared float_repr round_float w filename table work_dir p /\
    w_check_call w (p_argv_pipeline p) = Ret tt /\
    persisted_as round_float w filename table p column ev.
Proof.
  intros H A.
  unfold _load, call, lift, pending, ok, echo in H.
  rewrite json_path_name_format in H.
  calls_inv H u1 H1; [early H A|]. clear H1.
  calls_inv H u2 H2; [early H A|]. destruct u2.
  calls_inv H u3 H3; [early H A|]. clear H3.
  calls_inv H u4 H4; [early H A|]. clear H4.
  calls_inv H wd H5; [early H A|].
  calls_inv H name H6; [early H A|]. injection H6 as <-.
  calls_inv H output H7.
  { apply try_fatal_calls in H. destruct H as [H| ->]; [|discriminate A].
    calls_inv H argv H8; [early H A|]. cbn [snd In] in H. early H A. }
  apply try_fatal_success in H7. destruct H7 as [H7 _].
  apply bind_success in H7. destruct H7 as (argv & H7 & H8 & _).
  cbn [fst] in H7, H8.
  calls_inv H summary H9; [early H A|].
  calls_inv H realfilename H10; [early H A|].
  calls_inv H st H11; [early H A|]. destruct st as [schema tab].
  calls_inv H proj4 H12'; [early H A|].
  assert (P4 : srs_proj4 summary = Some proj4).
  { unfold getitem in H12'. destruct (srs_proj4 summary) as [v|];
      [now injection H12' as -> | discriminate H12']. }
  calls_inv H srid H12.
  { destruct (proj42epsg_calls w proj4 epsg_default
                forceProj4_default) as [E|E]; rewrite E in H; early H A. }
  rewrite json_pipeline_format in H.
  calls_inv H json_pipeline H13; [early H A|]. injection H13 as <-.
  calls_inv H u5 H14; [early H A|]. destruct u5.
  calls_inv H u6 H15.
  { apply try_fatal_calls in H. destruct H as [H| ->]; [|discriminate A].
    calls_inv H argv2 H16; [early H A|]. cbn [snd In] in H. early H A. }
  apply try_fatal_success in H15. destruct H15 as [H15 _].
  apply bind_success in H15. destruct H15 as (argv2 & H15 & H16 & _).
  cbn [fst] in H15, H16. destruct u6.
  set (p0 := Build_Prepared wd argv output summary realfilename schema tab
               proj4 srid
               (snd (proj42epsg w proj4 epsg_default forceProj4_default))
               argv2).
  assert (P : prepared float_repr round_float w filename table work_dir p0).
  { unfold prepared, p_json_path, p_json_pipeline, p_planned, p0.
    cbn [p_wd p_argv_info p_output p_summary p_realfilename p_schema p_tab
         p_proj4 p_srid p_srid_calls p_argv_pipeline].
    repeat split; try assumption.
    rewrite <- H12. apply surjective_pairing. }
  assert (L : forall ev',
             after_pipeline ev' = true ->
             persisted_as round_float w filename table p0 column ev' ->
             exists p : Prepared scalar,
               prepared float_repr round_float w filename table work_dir p /\
               w_check_call w (p_argv_pipeline p) = Ret tt /\
               persisted_as round_float w filename table p column ev').
  { intros ev' _ S. exists p0. split; [exact P | split; [exact H16 | exact S]]. }
  calls_inv H u7 H17; [late H A L|]. clear H17.
  calls_inv H u8 H18; [late H A L|]. clear H18.
  rewrite sql_format in H.
  calls_inv H sql H19; [late H A L|]. injection H19 as <-.
  calls_inv H u9 H20; [late H A L|].
  calls_inv H u10 H21; [late H A L|].
  calls_inv H u11 H22; [late H A L|].
  calls_inv H u12 H23; [late H A L|].
  calls_inv H u13 H24; [late H A L|].
  calls_inv H lpsession H25; [late H A L|].
  calls_inv H u14 H26; [late H A L|].
  destruct (session_boundingbox lpsession)
    as [[[[[xmin ymin] zmin] xmax] ymax] zmax].
  calls_inv H u15 H27; [late H A L|].
  calls_inv H new_hcy H28; [late H A L|].
  calls_inv H u16 H29; [late H A L|].
  calls_inv H u17 H30; [late H A L|].
  calls_inv H u18 H31; [late H A L|].
  calls_inv H hcy H32; [late H A L|].
  calls_inv H wd' H33; [late H A L|].
  calls_inv H u19 H34; [late H A L|].
  cbn [snd In] in H. late H A L.
Qed.

(** X4.  In every run, also one that fails later, a statement is sent to
    the database, a metadata record persisted, a session opened or a
    hierarchy built only when all the earlier collaborators answered and
    the pipeline tool returned with success; the statements, the two
    metadata records and the session are then those of the normalised
    table, under the column argument, with the SRID of the resolver and
    the quantisation planned from the summary.  When the pipeline tool
    does not return with success, none of these calls is made. *)
Theorem load_persists_only_after_pipeline :
  (forall ev : event scalar,
     In ev (snd run) ->
     after_pipeline ev = true ->
     exists p : Prepared scalar,
       prepared float_repr round_float w filename table work_dir p /\
       w_check_call w (p_argv_pipeline p) = Ret tt /\
       persisted_as round_float w filename table p column ev)
  /\
  ((forall argv, w_check_call w argv <> Ret tt) ->
   Forall (fun ev => after_pipeline ev = false) (snd run)).
Proof.
  split.
  - exact _load_late_call.
  - intros N. apply Forall_forall. intros ev Hin.
    destruct (after_pipeline ev) eqn:A; [|reflexivity].
    destruct (_load_late_call ev Hin A) as (p & _ & C & _).
    now elim (N (p_argv_pipeline p)).
Qed.

(** X17.  When the summary has no member [proj4], the run ends with the
    [KeyError] of that member, raised only when the SRID is about to be
    resolved: the metadata table has been created, the summary tool has
    been run, the file name has been resolved and the table name
    unpacked, and nothing has been written.  A table name that does not
    unpack fails before the member is read. *)
Theorem load_summary_without_proj4 (wd : string) (argv : list string)
  (output : string) (summary : Summary) (realfilename : string) :
  w_create_pointcloud_lopocs_table w = Ret tt ->
  w_resolve w (Pathlib.str work_dir) = Ret wd ->
  w_shlex_split w ("pdal info --summary " ++ Pathlib.str filename)
  = Ret argv ->
  w_check_output w argv = Ret output ->
  w_json_summary w output = Ret summary ->
  srs_proj4 summary = None ->
  w_resolve w (Pathlib.str filename) = Ret realfilename ->
  let calls :=
    [ Echo (Pending "Creating metadata table");
      CreatePointcloudLopocsTable;
      Echo Ok;
      Echo (Pending "Loading point clouds into database");
      PathResolve (Pathlib.str work_dir);
      CheckOutput argv;
      PathResolve (Pathlib.str filename) ] in
  (forall schema tab,
     split_table (normalize_table table) = Ret (schema, tab) ->
     run = (Raise (KeyError "proj4"), calls)) /\
  (forall e,
     split_table (normalize_table table) = Raise e ->
     run = (Raise e, calls)).
Proof.
  intros H1 H2 H3 H4 H5 H6 H7. cbv zeta. split.
  - intros schema tab H8.
    unfold _load, call, lift, pending, ok, echo.
    rewrite json_path_name_format, H1, H2.
    do 6 run_ok.
    rewrite H3. run_ok. rewrite H4. cbn [try_fatal List.app]. run_ok.
    rewrite H5. run_ok. rewrite H7. run_ok. rewrite H8. run_ok.
    rewrite H6. cbn [getitem].
    rewrite (@bind_failure _ _ _ (Raise _, _) _ _ eq_refl).
    reflexivity.
  - intros e H8.
    now apply _load_run_when_split_fails with (wd := wd) (output := output)
      (summary := summary) (realfilename := realfilename).
Qed.

End LoadOutcomes.

(* ===================================================================== *)
(** ** More on the resolver *)
(* ===================================================================== *)

Section PatternRuns.

Variable decimal : N -> bool.

Lemma span_digits_upto_run (n : nat) (c rest : string) (m : nat) :
  Re.all_digits_upto decimal n c = true ->
  String.length c < m ->
  Re.span_digits_upto decimal m (c ++ String ">" rest)
  = (c, String ">" rest).
Proof.
  revert c m. induction n as [|n IH]; intros c m H L.
  - destruct c; [|discriminate H].
    destruct m as [|m]; [simpl in L; lia|]. reflexivity.
  - destruct c as [|x c].
    + destruct m as [|m]; [simpl in L; lia|]. reflexivity.
    + cbn [Re.all_digits_upto] in H.
      destruct (Utf8.decode (String x c)) as [[[cp bytes] rc]|] eqn:D;
        [|discriminate H].
      apply andb_true_iff in H. destruct H as [Hd Hr].
      destruct (decode_spec _ D) as (E & N & P).
      destruct m as [|m]; [simpl in L; lia|].
      rewrite E, append_assoc. cbn [Re.span_digits_upto].
      rewrite P, Hd. rewrite (IH rc m Hr).
      * reflexivity.
      * rewrite E, append_length in L.
        destruct bytes; [now elim N | simpl in L; lia].
Qed.

Lemma span_digits_run (c rest : string) :
  Re.all_digits decimal c = true ->
  Re.span_digits decimal (c ++ String ">" rest) = (c, String ">" rest).
Proof.
  intros H. unfold Re.span_digits.
  apply span_digits_upto_run with (n := String.length c); [exact H|].
  rewrite append_length. simpl. lia.
Qed.

Lemma match_code_needs_bracket (x : ascii) (s : string) :
  x <> "<"%char -> Re.match_code decimal (String x s) = None.
Proof.
  intros N. unfold Re.match_code.
  destruct x as [[] [] [] [] [] [] [] []]; try reflexivity. now elim N.
Qed.

Lemma search_code_unfold (x : ascii) (s : string) :
  Re.search_code decimal (String x s)
  = match Re.match_code decimal (String x s) with
    | Some d => Some d
    | None => Re.search_code decimal s
    end.
Proof. reflexivity. Qed.

(** X5.  The pattern [<(\d+)>] on a line, for the decimal digits of any
    Unicode database: what is found is a non-empty run of decimal digits
    standing between angle brackets in the line; when the first opening
    bracket of the line starts such a group, that group is the one
    found; and a line without an opening bracket gives nothing. *)
Theorem search_code_finds_first_code :
  (forall s c,
     Re.search_code decimal s = Some c ->
     exists a b, s = a ++ "<" ++ c ++ ">" ++ b /\
                 Re.all_digits decimal c = true /\ c <> "")
  /\
  (forall a c b,
     PyStr.contains_char "<" a = false ->
     Re.all_digits decimal c = true ->
     c <> "" ->
     Re.search_code decimal (a ++ "<" ++ c ++ ">" ++ b) = Some c)
  /\
  (forall s,
     PyStr.contains_char "<" s = false -> Re.search_code decimal s = None).
Proof.
  split; [|split].
  - apply search_code_spec.
  - intros a c b Ha Hc Hn. induction a as [|x a IH].
    + destruct c as [|d c]; [now elim Hn|].
      change ("" ++ "<" ++ String d c ++ ">" ++ b)
        with (String "<" (String d c ++ String ">" b)).
      rewrite search_code_unfold. unfold Re.match_code.
      now rewrite (@span_digits_run (String d c) b Hc).
    + simpl in Ha. destruct (Ascii.eqb_spec x "<"%char) as [E|N];
        [discriminate Ha|].
      change (String x a ++ "<" ++ c ++ ">" ++ b)
        with (String x (a ++ "<" ++ c ++ ">" ++ b)).
      rewrite search_code_unfold, (@match_code_needs_bracket x _ N).
      now apply IH.
  - intros s. induction s as [|x s IH]; intros H.
    + reflexivity.
    + simpl in H. destruct (Ascii.eqb_spec x "<"%char) as [E|N];
        [discriminate H|].
      rewrite search_code_unfold, (@match_code_needs_bracket x _ N).
      now apply IH.
Qed.

Lemma scan_epsg_digits (p_out code : string) (lines : list string) :
  Re.all_digits decimal code = true -> code <> "" ->
  Re.all_digits decimal (scan_epsg decimal p_out lines code) = true /\
  scan_epsg decimal p_out lines code <> "".
Proof.
  intros Hd Hn. induction lines as [|l ls IH]; simpl; [now split|].
  destruct (PyStr.contains p_out l); [|exact IH].
  destruct (Re.search_code decimal l) as [c|] eqn:E; [|exact IH].
  apply search_code_spec in E. now destruct E as (_ & _ & _ & D & N).
Qed.

(** The loop with its [break] returns the first of the codes. *)
Lemma scan_epsg_first_code (p_out code : string) (lines : list string) :
  scan_epsg decimal p_out lines code
  = hd code (codes_of decimal p_out lines).
Proof.
  induction lines as [|l ls IH]; [reflexivity|].
  cbn [scan_epsg codes_of flat_map]. fold (codes_of decimal p_out ls).
  destruct (PyStr.contains p_out l); [|exact IH].
  destruct (Re.search_code decimal l); [reflexivity | exact IH].
Qed.

Lemma codes_of_app (p_out : string) (l l' : list string) :
  codes_of decimal p_out (l ++ l')
  = (codes_of decimal p_out l ++ codes_of decimal p_out l')%list.
Proof. unfold codes_of. apply flat_map_app. Qed.

End PatternRuns.

Lemma search_code_finds_first_code_witness :
  PyStr.contains_char "<" "# " = false /\
  Re.all_digits Sample.decimal_digit Cases.arabic_code = true /\
  Cases.arabic_code <> "" /\
  Re.search_code Sample.decimal_digit
    ("# " ++ "<" ++ Cases.arabic_code ++ ">" ++ " +proj=longlat <4258>")
  = Some Cases.arabic_code /\
  PyStr.contains_char "<" "# ETRS89" = false /\
  Re.search_code Sample.decimal_digit "# ETRS89" = None.
Proof.
  assert (N : Cases.arabic_code <> "") by discriminate.
  split; [reflexivity|]. split; [reflexivity|]. split; [exact N|].
  split.
  - exact (proj1 (proj2 (search_code_finds_first_code Sample.decimal_digit))
             "# " Cases.arabic_code " +proj=longlat <4258>"
             eq_refl eq_refl N).
  - split; [reflexivity|].
    exact (proj2 (proj2 (search_code_finds_first_code Sample.decimal_digit))
             "# ETRS89" eq_refl).
Defined.

(** The pattern on lines with digits of several scripts, with characters
    that are no decimal digits (a superscript two, a letter), and with
    brackets that do not close. *)
Example sample_search_code :
  map (Re.search_code Sample.decimal_digit)
    [ "<4258> +proj=longlat";
      "x<1><2>";
      "<<12>>";
      "<" ++ String "239" (String "188" (String "145" "")) ++ "7>";
      "<" ++ String "194" (String "178" "") ++ ">";
      "<a1>";
      "<>";
      "<12" ]
  = [ Some "4258"; Some "1"; Some "12";
      Some (String "239" (String "188" (String "145" "7")));
      None; None; None; None ].
Proof. vm_compute. reflexivity. Qed.

Section Resolver.

Variable scalar : Type.
Variable w : World scalar.
Variables proj4 epsg : string.
Variable s : Z.
Variable p_in : SpatialReference.
Variable p_out : string.

Hypothesis imported : w_ImportFromProj4 w proj4 = (s, p_in).
Hypothesis valid : s <> 5%Z.
Hypothesis anchored : IsLocal p_in <> 1%Z.
Hypothesis no_authority :
  GetAuthorityName p_in (category p_in) = None \/
  GetAuthorityCode p_in (category p_in) = None.
Hypothesis exported : ExportToProj4 p_in = Some p_out.
Hypothesis exported_text : p_out <> "".

Lemma proj42epsg_scans :
  proj42epsg w proj4 epsg false
  = match w_open_read w epsg with
    | Ret lines =>
        (Ret (scan_epsg (unicode_decimal w) p_out lines "4326"),
         [OpenRead epsg])
    | Raise e => (Raise e, [OpenRead epsg])
    end.
Proof.
  rewrite (proj42epsg_no_authority w proj4 epsg false imported valid anchored
             no_authority).
  rewrite exported. destruct p_out; [now elim exported_text | reflexivity].
Qed.

(** X6.  The scan of the definitions file, with its [break], returns
    the first of the codes carried by the lines that hold the PROJ
    string, and ["4326"] when there is none.  A line that does not hold
    the string, or that holds it without a code between angle brackets,
    adds no code: with or without it, anywhere in the file, the answer
    is the same. *)
Theorem proj42epsg_passes_over_lines_without_code (lines : list string) :
  w_open_read w epsg = Ret lines ->
  proj42epsg w proj4 epsg false
  = (Ret (hd "4326" (codes_of (unicode_decimal w) p_out lines)),
     [OpenRead epsg])
  /\
  (forall pre line post,
     passed_over (unicode_decimal w) p_out line ->
     codes_of (unicode_decimal w) p_out (pre ++ line :: post)
     = codes_of (unicode_decimal w) p_out (pre ++ post)).
Proof.
  intros Ho. rewrite proj42epsg_scans, Ho. split.
  - now rewrite scan_epsg_first_code.
  - intros pre line post P. rewrite !codes_of_app. f_equal.
    cbn [codes_of flat_map]. fold (codes_of (unicode_decimal w) p_out post).
    destruct P as [P|P].
    + unfold lacks in P. now rewrite P.
    + rewrite P. now destruct (PyStr.contains p_out line).
Qed.

(** X7.  When the definitions file cannot be opened, the resolver does
    not fall back on the default SRID: the exception of [open] goes
    through, whatever it is. *)
Theorem proj42epsg_definitions_file_unreadable (e : exn) :
  w_open_read w epsg = Raise e ->
  proj42epsg w proj4 epsg false = (Raise e, [OpenRead epsg]) /\
  fst (proj42epsg w proj4 epsg false) <> Ret "4326".
Proof.
  intros Ho. rewrite proj42epsg_scans, Ho. split; [reflexivity|].
  discriminate.
Qed.

End Resolver.

(** X8.  Whenever the resolver has opened the definitions file and
    returns, what it returns is a non-empty string of decimal digits:
    ["4326"], or digits of the class [\d] taken from a line. *)
Theorem proj42epsg_scanned_code_is_numeric
  (scalar : Type) (w : World scalar) (proj4 epsg : string)
  (forceProj4 : bool) (c : string) :
  proj42epsg w proj4 epsg forceProj4 = (Ret c, [OpenRead epsg]) ->
  Re.all_digits (unicode_decimal w) c = true /\ c <> "".
Proof.
  unfold proj42epsg. destruct (w_ImportFromProj4 w proj4) as [s p_in].
  destruct (s =? 5)%Z; [discriminate|].
  destruct (IsLocal p_in =? 1)%Z; [discriminate|].
  cbv zeta.
  destruct (GetAuthorityName p_in
              (if (IsGeographic p_in =? 1)%Z then GEOGCS else PROJCS)),
           (GetAuthorityCode p_in
              (if (IsGeographic p_in =? 1)%Z then GEOGCS else PROJCS));
    try discriminate;
    (destruct (ExportToProj4 p_in) as [[|x p]|]; try discriminate;
     destruct forceProj4; try discriminate;
     unfold bind, call;
     destruct (w_open_read w epsg) as [lines|e]; [|discriminate];
     destruct (PyStr.truthy _); intros H; injection H as <-;
     now apply scan_epsg_digits).
Qed.

(* ===================================================================== *)
(** ** More on the plan and on the pipeline file *)
(* ===================================================================== *)

(** X9.  Whatever the summary and the extension are, the three planned
    scales are strictly positive, the scales of X and Y are equal, and
    the scales do not depend on the bounds: two summaries that agree on
    the geographic flag get the same scales. *)
Theorem quantization_scales_positive (round_float : float -> Z -> float)
  (summary : Summary) (extension : string) :
  let q := quantization round_float summary extension in
  positive_num (scale_x q) = true /\
  positive_num (scale_y q) = true /\
  positive_num (scale_z q) = true /\
  scale_x q = scale_y q /\
  forall summary',
    srs_isgeographic summary' = srs_isgeographic summary ->
    let q' := quantization round_float summary' extension in
    scale_x q' = scale_x q /\ scale_y q' = scale_y q /\
    scale_z q' = scale_z q.
Proof.
  cbv zeta. unfold quantization.
  destruct (String.eqb extension "e57"), (srs_isgeographic summary);
    (do 4 (split; [reflexivity|]); intros summary' ->; now repeat split).
Qed.

Lemma quantization_scales_positive_witness :
  srs_isgeographic Sample.summary_shifted = srs_isgeographic Sample.summary /\
  positive_num (scale_x (quantization Sample.round_float Sample.summary "las"))
  = true /\
  scale_x (quantization Sample.round_float Sample.summary_shifted "las")
  = scale_x (quantization Sample.round_float Sample.summary "las") /\
  scale_z (quantization Sample.round_float Sample.summary_shifted "las")
  = scale_z (quantization Sample.round_float Sample.summary "las") /\
  offset_x (quantization Sample.round_float Sample.summary "las")
  = PyFloat 5 /\
  offset_x (quantization Sample.round_float Sample.summary_shifted "las")
  = PyFloat 5.01.
Proof.
  pose proof (quantization_scales_positive Sample.round_float Sample.summary
                "las") as (P & _ & _ & _ & S).
  split; [reflexivity|]. split; [exact P|].
  destruct (S Sample.summary_shifted eq_refl) as (X & _ & Z).
  split; [exact X|]. split; [exact Z|].
  split; vm_compute; reflexivity.
Defined.

Lemma split_fields_no_separator (c : ascii) (s f : string) :
  In f (PyStr.split c s) -> PyStr.contains_char c f = false.
Proof.
  revert f. induction s as [|x s IH]; intros f H.
  - destruct H as [<-|[]]. reflexivity.
  - simpl in H. destruct (Ascii.eqb x c) eqn:E.
    + destruct H as [<-|H]; [reflexivity | now apply IH].
    + pose proof (split_length c s) as L.
      destruct (PyStr.split c s) as [|g gs]; [discriminate L|].
      destruct H as [<-|H].
      * simpl. rewrite E. apply IH. now left.
      * apply IH. now right.
Qed.

Lemma last_in_or_default (A : Type) (l : list A) (d : A) :
  In (last l d) l \/ last l d = d.
Proof.
  induction l as [|x l IH]; [now right|].
  destruct l as [|y l]; [left; now left|].
  destruct IH as [IH|IH].
  - left. right. exact IH.
  - change (last (x :: y :: l) d) with (last (y :: l) d).
    destruct (exists_last (l := y :: l) ltac:(discriminate)) as (l' & z & E).
    rewrite E in *. rewrite last_last in *. left. right.
    apply in_or_app. right. now left.
Qed.

Lemma name_no_slash (path : string) :
  PyStr.contains_char "/" (Pathlib.name path) = false.
Proof.
  unfold Pathlib.name, Pathlib.parts.
  destruct (last_in_or_default
              (filter (fun p => negb (String.eqb p "" || String.eqb p "."))
                 (PyStr.split "/" path)) "") as [H|H].
  - apply filter_In in H. destruct H as [H _].
    now apply split_fields_no_separator in H.
  - now rewrite H.
Qed.

Lemma take_no_char (c : ascii) (n : nat) (s : string) :
  PyStr.contains_char c s = false ->
  PyStr.contains_char c (PyStr.take n s) = false.
Proof.
  revert s. induction n as [|n IH]; intros s H; [reflexivity|].
  destruct s as [|x s]; [reflexivity|].
  simpl in *. destruct (Ascii.eqb x c); [discriminate H | now apply IH].
Qed.

Lemma stem_no_slash (path : string) :
  PyStr.contains_char "/" (Pathlib.stem path) = false.
Proof.
  unfold Pathlib.stem. pose proof (name_no_slash path) as H.
  destruct (PyStr.rfind "." (Pathlib.name path)) as [i|]; [|exact H].
  destruct ((0 <? i)%nat && (i <? String.length (Pathlib.name path) - 1)%nat);
    [now apply take_no_char | exact H].
Qed.

(** X10.  The path of the pipeline file is the resolved working
    directory, a slash unless the directory is empty or ends with one,
    and the name made of the stem of the input file, the table argument
    as it was given (before it is prefixed with the schema) and
    ["_pipeline.json"]: the name never replaces the directory. *)
Theorem pipeline_file_path (scalar : Type) (filename table : string)
  (a : Answers scalar) :
  PyStr.contains_char "/" (Pathlib.stem filename) = false /\
  json_path_of filename table a
  = a_wd a ++
    (if negb (PyStr.truthy (a_wd a)) || PyStr.endswith_char "/" (a_wd a)
     then "" else "/") ++
    Pathlib.stem filename ++ "_" ++ table ++ "_pipeline.json".
Proof.
  pose proof (stem_no_slash filename) as S. split; [exact S|].
  unfold json_path_of, os_path_join.
  assert (N : PyStr.startswith "/"
                (Pathlib.stem filename ++ "_" ++ table ++ "_pipeline.json")
              = false).
  { destruct (Pathlib.stem filename) as [|x r]; [reflexivity|].
    cbn [PyStr.contains_char] in S.
    cbn [PyStr.startswith String.append].
    destruct (Ascii.eqb_spec x "/"%char) as [->|N]; [discriminate S|].
    destruct (Ascii.eqb_spec "/"%char x) as [E|_]; [now elim N | reflexivity]. }
  rewrite N.
  now destruct (negb (PyStr.truthy (a_wd a)) || PyStr.endswith_char "/" (a_wd a)).
Qed.

Section LoadCommand.

Variable float_repr : float -> string.
Variable round_float : float -> Z -> float.
Variable scalar : Type.
Variable str_scalar : scalar -> string.
Variable w : World scalar.
Variables filename table work_dir : string.
Variable server_url : option string.

(** X11.  When [load] is run without [--column], or with the column
    ["points"], and reaches its end, the two metadata records are
    persisted under the column ["points"], which is the destination
    column of the write stage of the pipeline that was written. *)
Theorem load_default_column_matches_write_stage (column : option string) :
  column = None \/ column = Some "points" ->
  fst (load float_repr round_float str_scalar w filename table column
         work_dir server_url) = Ret tt ->
  exists (a : Answers scalar) (stages : list StageSpec),
    let calls :=
      snd (load float_repr round_float str_scalar w filename table column
             work_dir server_url) in
    In (WriteText (json_path_of filename table a)
          (Json.render_pipeline stages)) calls /\
    destination_columns stages = ["points"] /\
    In (UpdateMetadata (normalize_table table) "points" (a_srid a)
          (planned round_float w filename a)) calls /\
    In (AddOutputSchema (normalize_table table) "points"
          (output_schema_params (planned round_float w filename a))
          (a_srid a) (potree_schema w)) calls.
Proof.
  intros C H.
  assert (E : match column with Some c => c | None => "points" end = "points")
    by (destruct C as [-> | ->]; reflexivity).
  unfold load in *. rewrite E in *.
  destruct (_load_success _ _ _ _ _ _ _ _ _ H) as (a & Ha & Ht).
  exists a. eexists. cbv zeta. rewrite Ht. split; [|split; [|split]].
  - apply in_success_trace_pipeline. unfold calls_of_pipeline. cbn [In].
    left. reflexivity.
  - reflexivity.
  - apply in_success_trace_metadata. unfold calls_of_metadata. cbn [In].
    now left.
  - apply in_success_trace_metadata. unfold calls_of_metadata. cbn [In].
    right. now left.
Qed.

End LoadCommand.

(* ===================================================================== *)
(** ** The command [demo] *)
(* ===================================================================== *)

Section DemoRuns.

Variable scalar : Type.
Local Abbreviation DM := (DM scalar).

Lemma dbind_step (A B : Type) (m : DM A) (k : A -> DM B) (a : A) :
  fst m = Ret a ->
  dbind m k = (fst (k a), (snd m ++ snd (k a))%list).
Proof.
  unfold dbind. destruct m as [[a'|e'] t]; simpl; [|discriminate].
  intros H. injection H as ->. now destruct (k a).
Qed.

Lemma dbind_failure (A B : Type) (m : DM A) (k : A -> DM B) (e : exn) :
  fst m = Raise e -> dbind m k = (Raise e, snd m).
Proof. unfold dbind. destruct m as [[a|e'] t]; simpl; congruence. Qed.

Lemma dbind_calls (A B : Type) (m : DM A) (k : A -> DM B)
  (ev : demo_event scalar) :
  In ev (snd (dbind m k)) ->
  In ev (snd m) \/ exists a, fst m = Ret a /\ In ev (snd (k a)).
Proof.
  unfold dbind. destruct m as [[a|e] t]; simpl.
  - destruct (k a) as [r t'] eqn:E. simpl. rewrite in_app_iff.
    intros [H|H]; [now left|]. right. exists a. rewrite E. now split.
  - now left.
Qed.

Lemma download_loop_writes_all (dw : DemoWorld) (dest : string)
  (chunk_size : Z) (chunks : list string) (stream_end : result unit) :
  (forall chunk, In chunk chunks -> d_fd_write dw dest chunk = Ret tt) ->
  download_loop scalar dw dest chunk_size chunks stream_end
  = (stream_end, loop_events scalar dest chunk_size chunks).
Proof.
  induction chunks as [|c cs IH]; intros H; [reflexivity|].
  cbn [download_loop]. unfold dcall.
  rewrite (H c (or_introl eq_refl)).
  rewrite (@dbind_step _ _ (Ret tt, _) _ tt eq_refl). cbn [fst snd].
  rewrite (@dbind_step _ _ (Ret tt, _) _ tt eq_refl). cbn [fst snd].
  rewrite IH by (intros chunk Hc; apply H; now right).
  reflexivity.
Qed.

Lemma download_loop_calls (dw : DemoWorld) (dest : string)
  (chunk_size : Z) (chunks : list string) (stream_end : result unit)
  (ev : demo_event scalar) :
  In ev (snd (download_loop scalar dw dest chunk_size chunks stream_end)) ->
  is_download ev = true.
Proof.
  induction chunks as [|c cs IH]; intros H; [destruct H|].
  cbn [download_loop] in H. unfold dcall in H.
  apply dbind_calls in H. destruct H as [H | (u & _ & H)].
  - destruct H as [<-|[]]. reflexivity.
  - apply dbind_calls in H. destruct H as [H | (u' & _ & H)].
    + destruct H as [<-|[]]. reflexivity.
    + now apply IH.
Qed.

Lemma download_calls (dw : DemoWorld) (url dest : string)
  (ev : demo_event scalar) :
  In ev (snd (download scalar dw url dest)) -> is_download ev = true.
Proof.
  unfold download, dcall, dlift. intros H.
  apply dbind_calls in H. destruct H as [H | (r & _ & H)].
  { destruct H as [<-|[]]. reflexivity. }
  apply dbind_calls in H. destruct H as [H | (n & _ & H)]; [destruct H|].
  apply dbind_calls in H. destruct H as [H | (u & _ & H)].
  { destruct H as [<-|[]]. reflexivity. }
  apply dbind_calls in H. destruct H as [H | (u' & _ & H)].
  { destruct H as [<-|[]]. reflexivity. }
  now apply download_loop_calls in H.
Qed.

Lemma written_to_app (dest : string) (t t' : list (demo_event scalar)) :
  written_to dest (t ++ t') = (written_to dest t ++ written_to dest t')%list.
Proof. unfold written_to. apply flat_map_app. Qed.

Lemma written_to_loop (dest : string) (chunk_size : Z)
  (chunks : list string) :
  written_to dest (loop_events scalar dest chunk_size chunks) = chunks.
Proof.
  induction chunks as [|c cs IH]; [reflexivity|].
  cbn [loop_events flat_map List.app written_to].
  rewrite String.eqb_refl. cbn [List.app]. f_equal. exact IH.
Qed.

Lemma written_to_other (dest : string) (t : list (demo_event scalar)) :
  Forall (fun ev => is_download ev = false) t -> written_to dest t = [].
Proof.
  induction 1 as [|ev t H _ IH]; [reflexivity|].
  cbn [written_to flat_map]. fold (written_to dest t). rewrite IH.
  now destruct ev.
Qed.

Lemma bar_total_app (t t' : list (demo_event scalar)) :
  bar_total (t ++ t') = (bar_total t + bar_total t')%Z.
Proof.
  induction t as [|ev t IH]; [reflexivity|].
  cbn [List.app bar_total fold_right]. fold (bar_total (t ++ t')).
  fold (bar_total t). rewrite IH. destruct ev; lia.
Qed.

Lemma bar_total_loop (dest : string) (chunk_size : Z) (chunks : list string) :
  bar_total (loop_events scalar dest chunk_size chunks)
  = (chunk_size * Z.of_nat (List.length chunks))%Z.
Proof.
  induction chunks as [|c cs IH]; [cbn; lia|].
  cbn [loop_events flat_map List.app bar_total fold_right List.length].
  fold (loop_events scalar dest chunk_size cs).
  fold (bar_total (loop_events scalar dest chunk_size cs)). rewrite IH. lia.
Qed.

Lemma bar_total_other (t : list (demo_event scalar)) :
  Forall (fun ev => is_download ev = false) t -> bar_total t = 0%Z.
Proof.
  induction 1 as [|ev t H _ IH]; [reflexivity|].
  cbn [bar_total fold_right]. fold (bar_total t). rewrite IH.
  now destruct ev.
Qed.

Lemma embedded_not_download (t : list (event scalar)) :
  Forall (fun ev : demo_event scalar => is_download ev = false)
    (map (@InLoad scalar) t).
Proof. induction t; constructor; [reflexivity | assumption]. Qed.

End DemoRuns.

Section Demo.

Variable float_repr : float -> string.
Variable round_float : float -> Z -> float.
Variable scalar : Type.
Variable str_scalar : scalar -> string.
Variable dw : DemoWorld.
Variable w : World scalar.
Variables sample work_dir server_url : string.

Local Abbreviation run :=
  (demo float_repr round_float str_scalar dw w sample work_dir server_url).
Local Abbreviation loading dest :=
  (_load float_repr round_float str_scalar w dest sample "points" work_dir
     server_url).

Lemma demo_after_fetch (url : string) (fetched : list (demo_event scalar)) :
  sample_url sample = Ret url ->
  let dest := os_path_join work_dir (Pathlib.name url) in
  (if negb (d_exists dw dest) then download scalar dw url dest
   else dlift (Ret tt)) = (Ret tt, fetched) ->
  run = (outcome dw (loading dest),
         (PathExists dest :: fetched ++ map (@InLoad scalar) (snd (loading dest))
          ++ after_load server_url (loading dest))%list).
Proof.
  intros Hu dest Hf. unfold demo, dlift, dcall. rewrite Hu.
  rewrite (@dbind_step _ _ _ (Ret url, _) _ url eq_refl). cbn [fst snd]. cbv zeta.
  fold dest.
  rewrite (@dbind_step _ _ _ (Ret (d_exists dw dest), _) _ _ eq_refl).
  cbn [fst snd].
  unfold dlift in Hf. rewrite Hf.
  rewrite (@dbind_step _ _ _ (Ret tt, fetched) _ tt eq_refl). cbn [fst snd].
  unfold embed, outcome, after_load.
  destruct (loading dest) as [[u|e] t]; cbn [fst snd].
  - rewrite (@dbind_step _ _ _ (Ret u, _) _ u eq_refl). cbn [fst snd].
    rewrite (@dbind_step _ _ _ (Ret tt, _) _ tt eq_refl). cbn [fst snd].
    reflexivity.
  - rewrite (@dbind_failure _ _ _ (Raise e, _) _ e eq_refl). cbn [fst snd].
    now rewrite !app_nil_r.
Qed.


(** X13.  When the sample file is not in the working directory and the
    download goes through, the chunks of the response are written to the
    destination file in the order of their arrival, and nothing else is;
    the progress bar is advanced by 512 for each chunk, whatever the
    length of the chunk and the announced length are; the load of the
    file follows the download. *)
Theorem demo_download_writes_chunks_in_order (url : string) (r : Response)
  (length : Z) :
  sample_url sample = Ret url ->
  let dest := os_path_join work_dir (Pathlib.name url) in
  d_exists dw dest = false ->
  d_get dw url = Ret r ->
  content_length r = Ret length ->
  d_open_write dw dest = Ret tt ->
  (forall chunk, In chunk (chunks r) -> d_fd_write dw dest chunk = Ret tt) ->
  stream_end r = Ret tt ->
  run = (outcome dw (loading dest),
         ([ PathExists dest; RequestsGet url; OpenWrite dest;
            ProgressBar length "Downloading sample file" ] ++
          loop_events scalar dest 512 (chunks r) ++
          map (@InLoad scalar) (snd (loading dest)) ++
          after_load server_url (loading dest))%list) /\
  written_to dest (snd run) = chunks r /\
  bar_total (snd run) = (512 * Z.of_nat (List.length (chunks r)))%Z.
Proof.
  intros Hu dest He Hg Hl Ho Hw Hs.
  assert (F : (if negb (d_exists dw dest) then download scalar dw url dest
               else dlift (Ret tt))
              = (Ret tt,
                 ([ RequestsGet url; OpenWrite dest;
                    ProgressBar length "Downloading sample file" ] ++
                  loop_events scalar dest 512 (chunks r))%list)).
  { rewrite He. cbn [negb]. unfold download, dcall, dlift.
    rewrite Hg.
    rewrite (@dbind_step _ _ _ (Ret r, _) _ r eq_refl). cbn [fst snd].
    rewrite Hl.
    rewrite (@dbind_step _ _ _ (Ret length, _) _ length eq_refl).
    cbn [fst snd]. cbv zeta. rewrite Ho.
    rewrite (@dbind_step _ _ _ (Ret tt, _) _ tt eq_refl). cbn [fst snd].
    rewrite (@dbind_step _ _ _ (Ret tt, _) _ tt eq_refl). cbn [fst snd].
    rewrite (download_loop_writes_all scalar dw dest 512 (chunks r)
               (stream_end r) Hw).
    cbn [fst snd]. rewrite Hs. reflexivity. }
  assert (E := @demo_after_fetch url _ Hu F). fold dest in E.
  assert (N : Forall (fun ev : demo_event scalar => is_download ev = false)
                (map (@InLoad scalar) (snd (loading dest)) ++
                 after_load server_url (loading dest))).
  { apply Forall_app. split; [apply embedded_not_download|].
    unfold after_load. destruct (fst (loading dest)); repeat constructor. }
  split; [|split].
  - rewrite E. reflexivity.
  - rewrite E. cbn [snd].
    change (PathExists dest
            :: ([RequestsGet url; OpenWrite dest;
                 ProgressBar length "Downloading sample file"] ++
                loop_events scalar dest 512 (chunks r)) ++
               map (@InLoad scalar) (snd (loading dest)) ++
               after_load server_url (loading dest))%list
      with ([PathExists dest; RequestsGet url; OpenWrite dest;
             ProgressBar length "Downloading sample file"] ++
            loop_events scalar dest 512 (chunks r) ++
            map (@InLoad scalar) (snd (loading dest)) ++
            after_load server_url (loading dest))%list.
    rewrite written_to_app, written_to_app, written_to_loop,
      (written_to_other dest N).
    cbn. now rewrite app_nil_r.
  - rewrite E. cbn [snd].
    change (PathExists dest
            :: ([RequestsGet url; OpenWrite dest;
                 ProgressBar length "Downloading sample file"] ++
                loop_events scalar dest 512 (chunks r)) ++
               map (@InLoad scalar) (snd (loading dest)) ++
               after_load server_url (loading dest))%list
      with ([PathExists dest; RequestsGet url; OpenWrite dest;
             ProgressBar length "Downloading sample file"] ++
            loop_events scalar dest 512 (chunks r) ++
            map (@InLoad scalar) (snd (loading dest)) ++
            after_load server_url (loading dest))%list.
    rewrite bar_total_app, bar_total_app, bar_total_loop,
      (bar_total_other N). cbn. lia.
Qed.

End Demo.

Section DemoCalls.

Variable float_repr : float -> string.
Variable round_float : float -> Z -> float.
Variable scalar : Type.
Variable str_scalar : scalar -> string.
Variable dw : DemoWorld.
Variable w : World scalar.
Variables sample work_dir server_url : string.

Local Abbreviation run :=
  (demo float_repr round_float str_scalar dw w sample work_dir server_url).
Local Abbreviation loading dest :=
  (_load float_repr round_float str_scalar w dest sample "points" work_dir
     server_url).

(** Where a call of [demo] comes from. *)
Lemma demo_calls (ev : demo_event scalar) :
  In ev (snd run) ->
  exists url,
    sample_url sample = Ret url /\
    let dest := os_path_join work_dir (Pathlib.name url) in
    (ev = PathExists dest \/
     (d_exists dw dest = false /\ is_download ev = true) \/
     (exists ev', ev = InLoad ev' /\ In ev' (snd (loading dest))) \/
     (starts_server ev = true /\ fst (loading dest) = Ret tt)).
Proof.
  unfold demo, dlift, dcall. intros H.
  apply dbind_calls in H. destruct H as [H | (url & Hu & H)]; [destruct H|].
  cbn [fst] in Hu. exists url. split; [exact Hu|]. cbv zeta in *.
  set (dest := os_path_join work_dir (Pathlib.name url)) in *.
  apply dbind_calls in H. destruct H as [H | (present & Hp & H)].
  { destruct H as [<-|[]]. now left. }
  cbn [fst] in Hp. injection Hp as <-.
  apply dbind_calls in H. destruct H as [H | (u & _ & H)].
  { right. left. destruct (d_exists dw dest); [destruct H|].
    split; [reflexivity|]. now apply download_calls in H. }
  apply dbind_calls in H. destruct H as [H | (u' & Hl & H)].
  { right. right. left. unfold embed in H. cbn [snd] in H.
    apply in_map_iff in H. destruct H as (ev' & <- & H). now exists ev'. }
  unfold embed in Hl. cbn [fst] in Hl. destruct u'.
  right. right. right.
  apply dbind_calls in H. destruct H as [H | (u'' & _ & H)].
  - destruct H as [<-|[]]. now split.
  - destruct H as [<-|[]]. now split.
Qed.

(** X14.  In every run of [demo], the timer of the browser tab and the
    server are started only when the sample is known and its load has
    reached its end. *)
Theorem demo_starts_server_only_after_load (ev : demo_event scalar) :
  In ev (snd run) ->
  starts_server ev = true ->
  exists url,
    sample_url sample = Ret url /\
    fst (loading (os_path_join work_dir (Pathlib.name url))) = Ret tt.
Proof.
  intros H S. destruct (demo_calls ev H) as (url & Hu & C).
  exists url. split; [exact Hu|]. cbv zeta in C.
  destruct C as [-> | [[_ D] | [(ev' & -> & _) | [_ L]]]];
    try discriminate S.
  - now destruct ev.
  - exact L.
Qed.

(** X15.  When the stream of the download ends with an exception, [demo]
    ends with that exception: the destination file has been opened and
    holds the chunks received so far, and nothing is loaded. *)
Theorem demo_download_breaks_off (url : string) (r : Response)
  (length : Z) (e : exn) :
  sample_url sample = Ret url ->
  let dest := os_path_join work_dir (Pathlib.name url) in
  d_exists dw dest = false ->
  d_get dw url = Ret r ->
  content_length r = Ret length ->
  d_open_write dw dest = Ret tt ->
  (forall chunk, In chunk (chunks r) -> d_fd_write dw dest chunk = Ret tt) ->
  stream_end r = Raise e ->
  run = (Raise e,
         ([ PathExists dest; RequestsGet url; OpenWrite dest;
            ProgressBar length "Downloading sample file" ] ++
          loop_events scalar dest 512 (chunks r))%list) /\
  written_to dest (snd run) = chunks r.
Proof.
  intros Hu dest He Hg Hl Ho Hw Hs.
  assert (E : run = (Raise e,
                     ([ PathExists dest; RequestsGet url; OpenWrite dest;
                        ProgressBar length "Downloading sample file" ] ++
                      loop_events scalar dest 512 (chunks r))%list)).
  { unfold demo, dlift, dcall. rewrite Hu.
    rewrite (@dbind_step _ _ _ (Ret url, _) _ url eq_refl).
    cbn [fst snd]. cbv zeta. fold dest.
    rewrite (@dbind_step _ _ _ (Ret (d_exists dw dest), _) _ _ eq_refl).
    cbn [fst snd]. rewrite He. cbn [negb].
    unfold download, dcall, dlift. rewrite Hg.
    rewrite (@dbind_step _ _ _ (Ret r, _) _ r eq_refl). cbn [fst snd].
    rewrite Hl.
    rewrite (@dbind_step _ _ _ (Ret length, _) _ length eq_refl).
    cbn [fst snd]. cbv zeta. rewrite Ho.
    rewrite (@dbind_step _ _ _ (Ret tt, _) _ tt eq_refl). cbn [fst snd].
    rewrite (@dbind_step _ _ _ (Ret tt, _) _ tt eq_refl). cbn [fst snd].
    rewrite (download_loop_writes_all scalar dw dest 512 (chunks r)
               (stream_end r) Hw).
    cbn [fst snd]. rewrite Hs.
    rewrite (@dbind_failure _ _ _ (Raise e, _) _ e eq_refl).
    reflexivity. }
  split; [exact E|]. rewrite E. cbn [snd].
  rewrite written_to_app, written_to_loop. reflexivity.
Qed.

End DemoCalls.

(** *** The two samples *)

Lemma split_app_separator (c : ascii) (a b : string) :
  PyStr.split c (a ++ String c b)
  = (PyStr.split c a ++ PyStr.split c b)%list.
Proof.
  induction a as [|x a IH].
  - simpl. now rewrite Ascii.eqb_refl.
  - simpl. destruct (Ascii.eqb x c).
    + now rewrite IH.
    + rewrite IH. pose proof (split_length c a) as L.
      destruct (PyStr.split c a) as [|f fs]; [discriminate L | reflexivity].
Qed.

Lemma endswith_char_inv (c : ascii) (s : string) :
  PyStr.endswith_char c s = true -> exists s', s = s' ++ String c "".
Proof.
  induction s as [|x s IH]; [discriminate|].
  destruct s as [|y s].
  - simpl. intros H. apply Ascii.eqb_eq in H. subst x. now exists "".
  - intros H. change (PyStr.endswith_char c (String y s) = true) in H.
    destruct (IH H) as (s' & E). exists (String x s'). simpl. now rewrite E.
Qed.

Section FileNames.

Variable n : string.
Hypothesis no_slash : PyStr.count_char "/" n = 0.
Hypothesis not_empty : n <> "".
Hypothesis not_dot : n <> ".".

Lemma kept_component :
  negb (String.eqb n "" || String.eqb n ".") = true.
Proof.
  apply String.eqb_neq in not_empty. apply String.eqb_neq in not_dot.
  now rewrite not_empty, not_dot.
Qed.

Lemma name_of_simple : Pathlib.name n = n.
Proof.
  unfold Pathlib.name, Pathlib.parts.
  rewrite (split_no_separator _ _ no_slash). cbn [filter].
  now rewrite kept_component.
Qed.

Lemma name_after_slash (a : string) : Pathlib.name (a ++ String "/" n) = n.
Proof.
  unfold Pathlib.name, Pathlib.parts.
  rewrite split_app_separator, filter_app, (split_no_separator _ _ no_slash).
  cbn [filter]. rewrite kept_component. apply last_last.
Qed.

Lemma name_of_join (work_dir : string) :
  Pathlib.name (os_path_join work_dir n) = n.
Proof.
  unfold os_path_join.
  assert (S : PyStr.startswith "/" n = false).
  { destruct n as [|x r]; [now elim not_empty|].
    cbn [PyStr.count_char] in no_slash. cbn [PyStr.startswith].
    destruct (Ascii.eqb_spec x "/"%char) as [->|N]; [discriminate no_slash|].
    destruct (Ascii.eqb_spec "/"%char x) as [E|_]; [now elim N | reflexivity]. }
  rewrite S.
  destruct (PyStr.truthy work_dir) eqn:T; cbn [negb orb].
  - destruct (PyStr.endswith_char "/" work_dir) eqn:E.
    + apply endswith_char_inv in E. destruct E as (d & ->).
      rewrite append_assoc. apply name_after_slash.
    + apply name_after_slash.
  - destruct work_dir; [|discriminate T]. apply name_of_simple.
Qed.

Lemma suffix_of_join (work_dir : string) :
  Pathlib.suffix (os_path_join work_dir n) = Pathlib.suffix n.
Proof. unfold Pathlib.suffix. now rewrite name_of_join, name_of_simple. Qed.

End FileNames.

(** X16.  Whatever the working directory and the collaborators are, the
    two metadata records that [demo] persists for the sample
    ["stsulpice"] are for the table ["public.stsulpice"], column
    ["points"]: the record of [update_metadata] has the scales (1, 1, 1)
    and the offsets (0, 0, 0) of the [e57] override, the record of
    [add_output_schema] the scales 0.01 and the same offsets.  For the
    sample ["airport"] they are for the table ["public.airport"], column
    ["points"]: the first with the scale 0.01 on Z and 1e-6 or 0.01 on X
    and Y, the second with the scale 0.01 on the three axes. *)
Theorem demo_sample_metadata (float_repr : float -> string)
  (round_float : float -> Z -> float) (scalar : Type)
  (str_scalar : scalar -> string) (dw : DemoWorld) (w : World scalar)
  (work_dir server_url : string) (tbl col srid schema : string)
  (q : QuantizationParams) :
  (In (InLoad (UpdateMetadata tbl col srid q))
      (snd (demo float_repr round_float str_scalar dw w "stsulpice" work_dir
              server_url)) ->
   tbl = "public.stsulpice" /\ col = "points" /\
   q = Build_QuantizationParams (PyInt 1) (PyInt 1) (PyInt 1)
         (PyInt 0) (PyInt 0) (PyInt 0))
  /\
  (In (InLoad (AddOutputSchema tbl col q srid schema))
      (snd (demo float_repr round_float str_scalar dw w "stsulpice" work_dir
              server_url)) ->
   tbl = "public.stsulpice" /\ col = "points" /\
   q = Build_QuantizationParams (PyFloat 0.01) (PyFloat 0.01) (PyFloat 0.01)
         (PyInt 0) (PyInt 0) (PyInt 0))
  /\
  (In (InLoad (UpdateMetadata tbl col srid q))
      (snd (demo float_repr round_float str_scalar dw w "airport" work_dir
              server_url)) ->
   tbl = "public.airport" /\ col = "points" /\
   scale_z q = PyFloat 0.01 /\
   (scale_x q = PyFloat 1e-6 \/ scale_x q = PyFloat 0.01) /\
   scale_y q = scale_x q)
  /\
  (In (InLoad (AddOutputSchema tbl col q srid schema))
      (snd (demo float_repr round_float str_scalar dw w "airport" work_dir
              server_url)) ->
   tbl = "public.airport" /\ col = "points" /\
   scale_x q = PyFloat 0.01 /\ scale_y q = PyFloat 0.01 /\
   scale_z q = PyFloat 0.01).
Proof.
  assert (S : forall n : string,
             PyStr.count_char "/" n = 0 -> n <> "" -> n <> "." ->
             extension_of w (os_path_join work_dir n)
             = extension_of w n).
  { intros n H0 H1 H2. unfold extension_of.
    now rewrite (suffix_of_join H0 H1 H2 work_dir). }
  split; [|split; [|split]]; intros H;
    destruct (demo_calls _ _ _ _ _ _ _ _ _ H) as (url & Hu & C);
    injection Hu as <-; cbv zeta in C;
    (destruct C as [C | [[_ C] | [(ev' & E & L) | [C _]]]];
     try discriminate C);
    injection E as <-;
    destruct (_load_late_call _ _ _ _ _ _ _ _ _ _ L eq_refl)
      as (p & _ & _ & Q); cbn [persisted_as] in Q.
  - destruct Q as (T & Cc & _ & Q).
    split; [exact T|]. split; [exact Cc|]. rewrite Q.
    unfold p_planned.
    match goal with
    | |- context [Pathlib.name ?u] =>
        let v := eval vm_compute in (Pathlib.name u) in
        change (Pathlib.name u) with v
    end.
    rewrite (S "Trimble_StSulpice-Cloud-50mm.e57" eq_refl
               ltac:(discriminate) ltac:(discriminate)).
    unfold quantization.
    now destruct (srs_isgeographic (p_summary p)).
  - destruct Q as (T & Cc & Q & _).
    split; [exact T|]. split; [exact Cc|]. rewrite Q.
    unfold p_planned.
    match goal with
    | |- context [Pathlib.name ?u] =>
        let v := eval vm_compute in (Pathlib.name u) in
        change (Pathlib.name u) with v
    end.
    rewrite (S "Trimble_StSulpice-Cloud-50mm.e57" eq_refl
               ltac:(discriminate) ltac:(discriminate)).
    unfold quantization.
    now destruct (srs_isgeographic (p_summary p)).
  - destruct Q as (T & Cc & _ & Q).
    split; [exact T|]. split; [exact Cc|]. rewrite Q.
    unfold p_planned.
    match goal with
    | |- context [Pathlib.name ?u] =>
        let v := eval vm_compute in (Pathlib.name u) in
        change (Pathlib.name u) with v
    end.
    rewrite (S "LAS12_Sample_withRGB_Quick_Terrain_Modeler_fixed.las" eq_refl
               ltac:(discriminate) ltac:(discriminate)).
    unfold quantization.
    destruct (srs_isgeographic (p_summary p)); cbn; auto.
  - destruct Q as (T & Cc & Q & _).
    split; [exact T|]. split; [exact Cc|]. rewrite Q.
    now repeat split.
Qed.

(* ===================================================================== *)
(** ** The further properties on the sample collaborators *)
(* ===================================================================== *)

Lemma sample_answers_hold :
  answers_hold Sample.float_repr Sample.round_float PyStr.str_int
    Sample.world "data/sample.las" "pts" "points" "work"
    "http://localhost:5000" Cases.answers.
Proof. unfold answers_hold. cbv zeta. repeat split; vm_compute; reflexivity. Qed.

Lemma sample_prepared (pipeline_tool : result unit) :
  prepared Sample.float_repr Sample.round_float
    (Cases.world (Ret "{summary}") pipeline_tool (Ret Sample.epsg_lines))
    "data/sample.las" "pts" "work" Cases.prepared_answers.
Proof. unfold prepared. repeat split; vm_compute; reflexivity. Qed.

Lemma load_succeeds_exactly_when_all_answer_witness :
  answers_hold Sample.float_repr Sample.round_float PyStr.str_int
    Sample.world "data/sample.las" "pts" "points" "work"
    "http://localhost:5000" Cases.answers /\
  Sample.run "pts" "points"
  = (Ret tt,
     success_trace Sample.float_repr Sample.round_float PyStr.str_int
       Sample.world "data/sample.las" "pts" "points" "work"
       "http://localhost:5000" Cases.answers).
Proof.
  split; [exact sample_answers_hold|].
  exact (proj2 (load_succeeds_exactly_when_all_answer Sample.float_repr
                  Sample.round_float PyStr.str_int Sample.world
                  "data/sample.las" "pts" "points" "work"
                  "http://localhost:5000")
           Cases.answers sample_answers_hold).
Defined.

Lemma load_summary_tool_failure_witness :
  w_check_output
    (Cases.world (Raise CalledProcessError) (Ret tt) (Ret Sample.epsg_lines))
    ["pdal"; "info"; "--summary"; "data/sample.las"]
  = Raise CalledProcessError /\
  Cases.run
    (Cases.world (Raise CalledProcessError) (Ret tt) (Ret Sample.epsg_lines))
    "pts" "points"
  = (Raise (SystemExit 1),
     [ Echo (Pending "Creating metadata table");
       CreatePointcloudLopocsTable;
       Echo Ok;
       Echo (Pending "Loading point clouds into database");
       PathResolve "work";
       CheckOutput ["pdal"; "info"; "--summary"; "data/sample.las"];
       Echo (Fatal CalledProcessError) ]).
Proof.
  split; [reflexivity|].
  exact (proj1 (load_summary_tool_failure Sample.float_repr
                  Sample.round_float PyStr.str_int
                  (Cases.world (Raise CalledProcessError) (Ret tt)
                     (Ret Sample.epsg_lines))
                  "data/sample.las" "pts" "points" "work"
                  "http://localhost:5000" (wd := "/srv/work")
                  (argv := ["pdal"; "info"; "--summary"; "data/sample.las"])
                  eq_refl eq_refl eq_refl eq_refl)
           eq_refl).
Defined.

Lemma load_pipeline_tool_failure_witness :
  w_check_call
    (Cases.world (Ret "{summary}") (Raise CalledProcessError)
       (Ret Sample.epsg_lines))
    (p_argv_pipeline Cases.prepared_answers)
  = Raise CalledProcessError /\
  fst (Cases.run
         (Cases.world (Ret "{summary}") (Raise CalledProcessError)
            (Ret Sample.epsg_lines))
         "pts" "points")
  = Raise (SystemExit 1) /\
  Forall (fun ev => after_pipeline ev = false)
    (snd (Cases.run
            (Cases.world (Ret "{summary}") (Raise CalledProcessError)
               (Ret Sample.epsg_lines))
            "pts" "points")).
Proof.
  split; [reflexivity|].
  destruct (load_pipeline_tool_failure PyStr.str_int "points"
              "http://localhost:5000"
              (sample_prepared (Raise CalledProcessError))
              (e := CalledProcessError) eq_refl)
    as (E & _ & F).
  split; [|exact F].
  unfold Cases.run. now rewrite (E eq_refl).
Defined.

Lemma load_persists_only_after_pipeline_witness :
  In (SessionExecute (sql_text "public.pts")) (snd (Sample.run "pts" "points"))
  /\
  after_pipeline (@SessionExecute Z (sql_text "public.pts")) = true /\
  exists p : Prepared Z,
    w_check_call Sample.world (p_argv_pipeline p) = Ret tt.
Proof.
  assert (I : In (SessionExecute (sql_text "public.pts"))
                (snd (Sample.run "pts" "points")))
    by (vm_compute; do 12 right; left; reflexivity).
  split; [exact I|]. split; [reflexivity|].
  destruct (proj1 (load_persists_only_after_pipeline Sample.float_repr
                     Sample.round_float PyStr.str_int Sample.world
                     "data/sample.las" "pts" "points" "work"
                     "http://localhost:5000")
              (SessionExecute (sql_text "public.pts")) I eq_refl)
    as (p & _ & C & _).
  exists p. exact C.
Defined.

Lemma proj42epsg_passes_over_lines_without_code_witness :
  w_ImportFromProj4
    (Cases.world (Ret "{summary}") (Ret tt) (Ret Cases.commented_lines))
    "+proj=longlat +ellps=GRS80"
  = (0%Z, Sample.sr_etrs89) /\
  w_open_read
    (Cases.world (Ret "{summary}") (Ret tt) (Ret Cases.commented_lines))
    epsg_default
  = Ret Cases.commented_lines /\
  proj42epsg
    (Cases.world (Ret "{summary}") (Ret tt) (Ret Cases.commented_lines))
    "+proj=longlat +ellps=GRS80" epsg_default false
  = (Ret "4258", [OpenRead epsg_default]) /\
  passed_over Sample.decimal_digit "+proj=longlat +ellps=GRS80 +no_defs "
    "# +proj=longlat +ellps=GRS80 +no_defs  is ETRS89" /\
  codes_of Sample.decimal_digit "+proj=longlat +ellps=GRS80 +no_defs "
    ([ "# ETRS89" ] ++
     "# +proj=longlat +ellps=GRS80 +no_defs  is ETRS89" ::
     [ "<4258> +proj=longlat +ellps=GRS80 +no_defs  <>" ])
  = codes_of Sample.decimal_digit "+proj=longlat +ellps=GRS80 +no_defs "
      ([ "# ETRS89" ] ++
       [ "<4258> +proj=longlat +ellps=GRS80 +no_defs  <>" ]).
Proof.
  assert (P : passed_over Sample.decimal_digit
                "+proj=longlat +ellps=GRS80 +no_defs "
                "# +proj=longlat +ellps=GRS80 +no_defs  is ETRS89")
    by (right; reflexivity).
  assert (N5 : 0%Z <> 5%Z) by discriminate.
  assert (N1 : IsLocal Sample.sr_etrs89 <> 1%Z) by discriminate.
  assert (T : "+proj=longlat +ellps=GRS80 +no_defs " <> "") by discriminate.
  destruct (@proj42epsg_passes_over_lines_without_code Z
              (Cases.world (Ret "{summary}") (Ret tt)
                 (Ret Cases.commented_lines))
              "+proj=longlat +ellps=GRS80" epsg_default 0%Z
              Sample.sr_etrs89 "+proj=longlat +ellps=GRS80 +no_defs "
              eq_refl N5 N1 (or_introl eq_refl) eq_refl T
              Cases.commented_lines eq_refl) as [R C].
  split; [reflexivity|]. split; [reflexivity|]. split; [exact R|].
  split; [exact P|].
  exact (C ["# ETRS89"] "# +proj=longlat +ellps=GRS80 +no_defs  is ETRS89"
           ["<4258> +proj=longlat +ellps=GRS80 +no_defs  <>"] P).
Defined.

Lemma proj42epsg_definitions_file_unreadable_witness :
  w_open_read
    (Cases.world (Ret "{summary}") (Ret tt)
       (Raise (OtherError "FileNotFoundError")))
    epsg_default
  = Raise (OtherError "FileNotFoundError") /\
  proj42epsg
    (Cases.world (Ret "{summary}") (Ret tt)
       (Raise (OtherError "FileNotFoundError")))
    "+proj=longlat +ellps=GRS80" epsg_default false
  = (Raise (OtherError "FileNotFoundError"), [OpenRead epsg_default]).
Proof.
  split; [reflexivity|].
  refine (proj1 (@proj42epsg_definitions_file_unreadable Z
                   (Cases.world (Ret "{summary}") (Ret tt)
                      (Raise (OtherError "FileNotFoundError")))
                   "+proj=longlat +ellps=GRS80" epsg_default 0%Z
                   Sample.sr_etrs89 "+proj=longlat +ellps=GRS80 +no_defs "
                   eq_refl _ _ (or_introl eq_refl) eq_refl _
                   (OtherError "FileNotFoundError") eq_refl));
    discriminate.
Defined.

Lemma proj42epsg_scanned_code_is_numeric_witness :
  proj42epsg
    (Cases.world (Ret "{summary}") (Ret tt) (Ret Cases.arabic_lines))
    "+proj=longlat +ellps=GRS80" epsg_default false
  = (Ret Cases.arabic_code, [OpenRead epsg_default]) /\
  Re.all_digits Sample.decimal_digit Cases.arabic_code = true /\
  Cases.arabic_code <> "".
Proof.
  assert (E : proj42epsg
                (Cases.world (Ret "{summary}") (Ret tt)
                   (Ret Cases.arabic_lines))
                "+proj=longlat +ellps=GRS80" epsg_default false
              = (Ret Cases.arabic_code, [OpenRead epsg_default]))
    by reflexivity.
  split; [exact E|].
  exact (@proj42epsg_scanned_code_is_numeric Z
           (Cases.world (Ret "{summary}") (Ret tt) (Ret Cases.arabic_lines))
           "+proj=longlat +ellps=GRS80" epsg_default false
           Cases.arabic_code E).
Defined.

Lemma load_default_column_matches_write_stage_witness :
  (@None string = None \/ @None string = Some "points") /\
  fst (load Sample.float_repr Sample.round_float PyStr.str_int Sample.world
         "data/sample.las" "pts" None "work" None) = Ret tt /\
  exists (a : Answers Z) (stages : list StageSpec),
    destination_columns stages = ["points"] /\
    In (UpdateMetadata "public.pts" "points" (a_srid a)
          (planned Sample.round_float Sample.world "data/sample.las" a))
       (snd (load Sample.float_repr Sample.round_float PyStr.str_int
               Sample.world "data/sample.las" "pts" None "work" None)).
Proof.
  assert (H : fst (load Sample.float_repr Sample.round_float PyStr.str_int
                     Sample.world "data/sample.las" "pts" None "work" None)
              = Ret tt) by (vm_compute; reflexivity).
  split; [now left|]. split; [exact H|].
  destruct (load_default_column_matches_write_stage Sample.float_repr
              Sample.round_float PyStr.str_int Sample.world
              "data/sample.las" "pts" "work" None (column := None)
              (or_introl eq_refl) H)
    as (a & stages & _ & D & U & _).
  exists a, stages. split; [exact D | exact U].
Defined.


Lemma demo_download_writes_chunks_in_order_witness :
  d_exists (Cases.demo_world false Cases.response)
    "work/LAS12_Sample_withRGB_Quick_Terrain_Modeler_fixed.las" = false /\
  content_length Cases.response = Ret 1030%Z /\
  stream_end Cases.response = Ret tt /\
  written_to "work/LAS12_Sample_withRGB_Quick_Terrain_Modeler_fixed.las"
    (snd (Cases.demo_run (Cases.demo_world false Cases.response)
            Sample.world "airport"))
  = ["first 512 bytes"; "next 512 bytes"; "last 6"] /\
  bar_total
    (snd (Cases.demo_run (Cases.demo_world false Cases.response)
            Sample.world "airport"))
  = 1536%Z.
Proof.
  split; [reflexivity|]. split; [reflexivity|]. split; [reflexivity|].
  destruct (demo_download_writes_chunks_in_order Sample.float_repr
              Sample.round_float PyStr.str_int
              (Cases.demo_world false Cases.response) Sample.world
              "airport" "work" "http://localhost:5000"
              (url := "http://www.liblas.org/samples/LAS12_Sample_withRGB_Quick_Terrain_Modeler_fixed.las")
              (r := Cases.response) (length := 1030%Z)
              eq_refl eq_refl eq_refl eq_refl eq_refl
              (fun _ _ => eq_refl) eq_refl)
    as (_ & W & B).
  split; [exact W | exact B].
Defined.

Lemma demo_starts_server_only_after_load_witness :
  In (AppRun false)
     (snd (Cases.demo_run (Cases.demo_world true Cases.response) Sample.world
             "airport")) /\
  starts_server (@AppRun Z false) = true /\
  exists url,
    sample_url "airport" = Ret url /\
    fst (_load Sample.float_repr Sample.round_float PyStr.str_int Sample.world
           (os_path_join "work" (Pathlib.name url)) "airport" "points" "work"
           "http://localhost:5000") = Ret tt.
Proof.
  assert (I : In (AppRun false)
                (snd (Cases.demo_run (Cases.demo_world true Cases.response)
                        Sample.world "airport"))).
  { apply in_rev. vm_compute. left. reflexivity. }
  split; [exact I|]. split; [reflexivity|].
  exact (demo_starts_server_only_after_load Sample.float_repr
           Sample.round_float PyStr.str_int
           (Cases.demo_world true Cases.response) Sample.world
           "airport" "work" "http://localhost:5000" (AppRun false) I eq_refl).
Defined.

Lemma demo_download_breaks_off_witness :
  d_exists (Cases.demo_world false Cases.broken_response)
    "work/LAS12_Sample_withRGB_Quick_Terrain_Modeler_fixed.las" = false /\
  stream_end Cases.broken_response = Raise (OtherError "ConnectionError") /\
  fst (Cases.demo_run (Cases.demo_world false Cases.broken_response)
         Sample.world "airport")
  = Raise (OtherError "ConnectionError") /\
  written_to "work/LAS12_Sample_withRGB_Quick_Terrain_Modeler_fixed.las"
    (snd (Cases.demo_run (Cases.demo_world false Cases.broken_response)
            Sample.world "airport"))
  = ["first 512 bytes"; "next 512 bytes"].
Proof.
  split; [reflexivity|]. split; [reflexivity|].
  destruct (demo_download_breaks_off Sample.float_repr
              Sample.round_float PyStr.str_int
              (Cases.demo_world false Cases.broken_response) Sample.world
              "airport" "work" "http://localhost:5000"
              (url := "http://www.liblas.org/samples/LAS12_Sample_withRGB_Quick_Terrain_Modeler_fixed.las")
              (r := Cases.broken_response) (length := 1030%Z)
              (e := OtherError "ConnectionError")
              eq_refl eq_refl eq_refl eq_refl eq_refl
              (fun _ _ => eq_refl) eq_refl)
    as (E & W).
  split; [|exact W]. unfold Cases.demo_run. now rewrite E.
Defined.

Lemma demo_sample_metadata_witness :
  In (InLoad (UpdateMetadata "public.stsulpice" "points" "4258"
                (Build_QuantizationParams (PyInt 1) (PyInt 1) (PyInt 1)
                   (PyInt 0) (PyInt 0) (PyInt 0))))
     (snd (Cases.demo_run (Cases.demo_world true Cases.response) Sample.world
             "stsulpice")) /\
  In (InLoad (AddOutputSchema "public.stsulpice" "points"
                (Build_QuantizationParams (PyFloat 0.01) (PyFloat 0.01)
                   (PyFloat 0.01) (PyInt 0) (PyInt 0) (PyInt 0))
                "4258" "potree"))
     (snd (Cases.demo_run (Cases.demo_world true Cases.response) Sample.world
             "stsulpice")) /\
  (forall tbl col srid q,
     In (InLoad (UpdateMetadata tbl col srid q))
        (snd (Cases.demo_run (Cases.demo_world true Cases.response)
                Sample.world "stsulpice")) ->
     tbl = "public.stsulpice" /\ col = "points" /\
     q = Build_QuantizationParams (PyInt 1) (PyInt 1) (PyInt 1)
           (PyInt 0) (PyInt 0) (PyInt 0)) /\
  (forall tbl col q srid schema,
     In (InLoad (AddOutputSchema tbl col q srid schema))
        (snd (Cases.demo_run (Cases.demo_world true Cases.response)
                Sample.world "stsulpice")) ->
     tbl = "public.stsulpice" /\ col = "points" /\
     q = Build_QuantizationParams (PyFloat 0.01) (PyFloat 0.01)
           (PyFloat 0.01) (PyInt 0) (PyInt 0) (PyInt 0)).
Proof.
  split; [vm_compute; do 16 right; left; reflexivity|].
  split; [vm_compute; do 17 right; left; reflexivity|].
  split.
  - intros tbl col srid q H.
    exact (proj1 (demo_sample_metadata Sample.float_repr Sample.round_float
                    PyStr.str_int (Cases.demo_world true Cases.response)
                    Sample.world "work" "http://localhost:5000"
                    tbl col srid "" q) H).
  - intros tbl col q srid schema H.
    exact (proj1 (proj2 (demo_sample_metadata Sample.float_repr
                           Sample.round_float PyStr.str_int
                           (Cases.demo_world true Cases.response)
                           Sample.world "work" "http://localhost:5000"
                           tbl col srid schema q)) H).
Defined.

Lemma load_summary_without_proj4_witness :
  w_json_summary (Cases.world_of Cases.summary_without_proj4) "{summary}"
  = Ret Cases.summary_without_proj4 /\
  srs_proj4 Cases.summary_without_proj4 = None /\
  Cases.run (Cases.world_of Cases.summary_without_proj4) "pts" "points"
  = (Raise (KeyError "proj4"),
     [ Echo (Pending "Creating metadata table");
       CreatePointcloudLopocsTable;
       Echo Ok;
       Echo (Pending "Loading point clouds into database");
       PathResolve "work";
       CheckOutput ["pdal"; "info"; "--summary"; "data/sample.las"];
       PathResolve "data/sample.las" ]) /\
  Cases.run (Cases.world_of Cases.summary_without_proj4) "a.b.c" "points"
  = (Raise ValueError,
     [ Echo (Pending "Creating metadata table");
       CreatePointcloudLopocsTable;
       Echo Ok;
       Echo (Pending "Loading point clouds into database");
       PathResolve "work";
       CheckOutput ["pdal"; "info"; "--summary"; "data/sample.las"];
       PathResolve "data/sample.las" ]).
Proof.
  split; [reflexivity|]. split; [reflexivity|]. split.
  - exact (proj1 (load_summary_without_proj4 Sample.float_repr
                    Sample.round_float PyStr.str_int
                    (Cases.world_of Cases.summary_without_proj4)
                    "data/sample.las" "pts" "points" "work"
                    "http://localhost:5000"
                    (wd := "/srv/work")
                    (argv := ["pdal"; "info"; "--summary"; "data/sample.las"])
                    (output := "{summary}")
                    (summary := Cases.summary_without_proj4)
                    (realfilename := "/srv/data/sample.las")
                    eq_refl eq_refl eq_refl eq_refl eq_refl eq_refl eq_refl)
             "public" "pts" eq_refl).
  - exact (proj2 (load_summary_without_proj4 Sample.float_repr
                    Sample.round_float PyStr.str_int
                    (Cases.world_of Cases.summary_without_proj4)
                    "data/sample.las" "a.b.c" "points" "work"
                    "http://localhost:5000"
                    (wd := "/srv/work")
                    (argv := ["pdal"; "info"; "--summary"; "data/sample.las"])
                    (output := "{summary}")
                    (summary := Cases.summary_without_proj4)
                    (realfilename := "/srv/data/sample.las")
                    eq_refl eq_refl eq_refl eq_refl eq_refl eq_refl eq_refl)
             ValueError eq_refl).
Defined.
